(** * The registration bot: question flow and persistence

    A shallow embedding of the Telegram registration bot
    ([telegram_bot/database.py], [telegram_bot/handlers/start.py],
    [telegram_bot/handlers/registration.py],
    [telegram_bot/keyboards/inline.py]) and of the tables declared in
    [django_app/bot_admin/models.py].

    - A Python [str] is a [string]: the bytes of its UTF-8 encoding.
    - A Python [int] (ids, [order], timestamps) is a [Z].
    - A table is the list of its rows, in the order a sequential scan
      returns them; [cur.fetchone()] is the head of the result.
    - [NOW()] is the time stamp handed to the operation.
    - Every [with get_connection() as conn] block is one transaction; it
      is the place where a storage failure can be injected. *)

From Stdlib Require Import ZArith List String Ascii Bool Lia DecimalString.
From Stdlib Require Import Sorted Permutation.
From Stdlib Require PrimFloat FloatOps SpecFloat Uint63.
Import ListNotations.

Local Open Scope string_scope.
Local Open Scope Z_scope.

Set Implicit Arguments.

(** ** Python string operations used by the bot *)

Module PyStr.

Definition bytes (l : list nat) : string :=
  string_of_list_ascii (map ascii_of_nat l).

(** The characters [str.strip()] removes, as UTF-8 byte sequences:
    U+0009..U+000D, U+001C..U+0020, U+0085, U+00A0, U+1680,
    U+2000..U+200A, U+2028, U+2029, U+202F, U+205F, U+3000. *)
Definition whitespace : list string :=
  map bytes
    [ [9]; [10]; [11]; [12]; [13]; [28]; [29]; [30]; [31]; [32];
      [194; 133]; [194; 160]; [225; 154; 128];
      [226; 128; 128]; [226; 128; 129]; [226; 128; 130]; [226; 128; 131];
      [226; 128; 132]; [226; 128; 133]; [226; 128; 134]; [226; 128; 135];
      [226; 128; 136]; [226; 128; 137]; [226; 128; 138];
      [226; 128; 168]; [226; 128; 169]; [226; 128; 175];
      [226; 129; 159]; [227; 128; 128] ]%nat.

Definition drop (n : nat) (s : string) : string :=
  substring n (String.length s - n) s.

Definition rev (s : string) : string :=
  string_of_list_ascii (List.rev (list_ascii_of_string s)).

Fixpoint strip_left (fuel : nat) (ws : list string) (s : string) : string :=
  match fuel with
  | O => s
  | S fuel' =>
      match find (fun w => String.prefix w s) ws with
      | Some w => strip_left fuel' ws (drop (String.length w) s)
      | None => s
      end
  end.

Definition lstrip (s : string) : string :=
  strip_left (String.length s) whitespace s.

Definition rstrip (s : string) : string :=
  rev (strip_left (String.length s) (map rev whitespace) (rev s)).

(** [s.strip()] *)
Definition strip (s : string) : string := rstrip (lstrip s).

(** [s.split(sep)] for a one-character separator. *)
Fixpoint split (sep : ascii) (s : string) : list string :=
  match s with
  | EmptyString => [EmptyString]
  | String c rest =>
      if Ascii.eqb c sep then EmptyString :: split sep rest
      else match split sep rest with
           | [] => [String c EmptyString]
           | w :: ws => String c w :: ws
           end
  end.

(** [s.replace(old, new)] for a non-empty [old]: every occurrence, found
    left to right without overlap, is replaced.  [skip] counts the
    characters of a match that are still to be passed over. *)
Fixpoint replace_from (old new : string) (skip : nat) (s : string) : string :=
  match s with
  | EmptyString => EmptyString
  | String c rest =>
      match skip with
      | S k => replace_from old new k rest
      | O =>
          if String.prefix old s
          then new ++ replace_from old new (String.length old - 1) rest
          else String c (replace_from old new O rest)
      end
  end.

Definition replace (old new s : string) : string := replace_from old new O s.

(** Truthiness of an optional string: [None] and [''] are falsy. *)
Definition truthy (s : option string) : bool :=
  match s with
  | Some (String _ _) => true
  | _ => false
  end.

(** How an f-string renders an optional string. *)
Definition fmt (s : option string) : string :=
  match s with
  | Some v => v
  | None => "None"
  end.

End PyStr.

(** ** Tables ([bot_admin/models.py]) *)

(** [bot_admin_question].  [question_type] is the stored string
    (['text'], ['photo'], ['choice'], ['info']); [choices] is the
    comma-separated text the administrator typed. *)
Record Question := mkQuestion {
  q_id : Z;
  q_order : Z;
  q_question_type : string;
  q_text : string;
  q_choices : option string;
  q_image : option string;
  q_field_name : option string;
  q_is_required : bool;
  q_is_active : bool
}.

(** [bot_admin_userprofile] *)
Record UserProfile := mkUserProfile {
  u_id : Z;
  u_telegram_id : Z;
  u_username : option string;
  u_first_name : option string;
  u_last_name : option string;
  u_current_question_id : option Z;
  u_is_team_member : bool;
  u_is_registration_complete : bool;
  u_created_at : Z;
  u_updated_at : Z
}.

(** [bot_admin_userresponse] *)
Record UserResponse := mkUserResponse {
  r_id : Z;
  r_user_id : Z;
  r_question_id : Z;
  r_text_answer : option string;
  r_photo : option string;
  r_created_at : Z;
  r_updated_at : Z
}.

(** [bot_admin_staffapplication] *)
Record StaffApplication := mkStaffApplication {
  a_id : Z;
  a_user_id : Z;
  a_status : string;
  a_position : option string;
  a_full_name : option string;
  a_address : option string;
  a_phone : option string;
  a_email : option string;
  a_passport_main : option string;
  a_passport_registration : option string;
  a_snils : option string;
  a_inn : option string;
  a_marital_status : option string;
  a_children : option string;
  a_emergency_contact : option string;
  a_additional_info : option string;
  a_created_at : Z;
  a_updated_at : Z;
  a_completed_at : option Z
}.

(** The database: the four tables and the id sequences of the three
    tables the bot inserts into. *)
Record Db := mkDb {
  bot_admin_question : list Question;
  bot_admin_userprofile : list UserProfile;
  bot_admin_userresponse : list UserResponse;
  bot_admin_staffapplication : list StaffApplication;
  userprofile_id_seq : Z;
  userresponse_id_seq : Z;
  staffapplication_id_seq : Z
}.

(** A value bound to a [%s] placeholder. *)
Inductive Value :=
| VNull
| VBool (b : bool)
| VInt (z : Z)
| VStr (s : string).

Definition value_of_str (s : option string) : Value :=
  match s with
  | Some v => VStr v
  | None => VNull
  end.

(** What a failed call raises. [StorageFailure] stands for every error
    of the storage layer (connection lost, statement rejected);
    [TypeError] and [IndexError] are Python's, [ProgrammingError] is a
    statement naming a column the table does not have. *)
Inductive Exn := StorageFailure | TypeError | IndexError | ProgrammingError.

(** [ORDER BY key]: a stable insertion sort, so that rows with equal
    keys keep their scan order.  The database leaves the order of such
    rows open, query by query; the sort fixes one of the orders it may
    take. *)
Section OrderBy.
Variable A : Type.
Variable key : A -> Z.

Fixpoint insert_row (x : A) (l : list A) : list A :=
  match l with
  | [] => [x]
  | y :: l' => if key x <=? key y then x :: y :: l' else y :: insert_row x l'
  end.

Definition order_by (l : list A) : list A := fold_right insert_row [] l.
End OrderBy.

(** [cur.fetchone()] *)
Definition fetchone {A : Type} (rows : list A) : option A := hd_error rows.

(** ** [telegram_bot/database.py] *)

(** A database function maps the committed state before the call to the
    value returned (or the exception raised) and the committed state
    after it. *)
Definition DbOp (A : Type) : Type := Db -> (Exn + A) * Db.

Definition returns {A : Type} (a : A) : DbOp A := fun db => (inr a, db).
Definition raises {A : Type} (e : Exn) : DbOp A := fun db => (inl e, db).

(** *** Row updates *)

Definition with_userprofile (db : Db) (t : list UserProfile) : Db :=
  mkDb (bot_admin_question db) t (bot_admin_userresponse db)
       (bot_admin_staffapplication db) (userprofile_id_seq db)
       (userresponse_id_seq db) (staffapplication_id_seq db).

Definition with_userresponse (db : Db) (t : list UserResponse) : Db :=
  mkDb (bot_admin_question db) (bot_admin_userprofile db) t
       (bot_admin_staffapplication db) (userprofile_id_seq db)
       (userresponse_id_seq db) (staffapplication_id_seq db).

Definition with_staffapplication (db : Db) (t : list StaffApplication) : Db :=
  mkDb (bot_admin_question db) (bot_admin_userprofile db)
       (bot_admin_userresponse db) t (userprofile_id_seq db)
       (userresponse_id_seq db) (staffapplication_id_seq db).

(** [UPDATE ... SET ... WHERE cond]: every row that matches is rewritten. *)
Definition update_where {A : Type} (cond : A -> bool) (set : A -> A)
    (rows : list A) : list A :=
  map (fun r => if cond r then set r else r) rows.

(** [SET column = value] on [bot_admin_userprofile], for the columns the
    handlers pass to [update_user]: [is_team_member],
    [is_registration_complete] and [current_question_id].  [None] stands
    for a statement the database rejects; a keyword for any other column
    is taken as one, and so is a value that does not fit the column. *)
Definition set_userprofile_column (column : string) (v : Value)
    : option (UserProfile -> UserProfile) :=
  match v with
  | VBool b =>
      if String.eqb column "is_team_member" then
        Some (fun u => mkUserProfile (u_id u) (u_telegram_id u) (u_username u)
                (u_first_name u) (u_last_name u) (u_current_question_id u)
                b (u_is_registration_complete u) (u_created_at u) (u_updated_at u))
      else if String.eqb column "is_registration_complete" then
        Some (fun u => mkUserProfile (u_id u) (u_telegram_id u) (u_username u)
                (u_first_name u) (u_last_name u) (u_current_question_id u)
                (u_is_team_member u) b (u_created_at u) (u_updated_at u))
      else None
  | VInt _ | VNull =>
      if String.eqb column "current_question_id" then
        Some (fun u => mkUserProfile (u_id u) (u_telegram_id u) (u_username u)
                (u_first_name u) (u_last_name u)
                (match v with VInt z => Some z | _ => None end)
                (u_is_team_member u) (u_is_registration_complete u)
                (u_created_at u) (u_updated_at u))
      else None
  | VStr _ => None
  end.

Definition touch_userprofile (now : Z) (u : UserProfile) : UserProfile :=
  mkUserProfile (u_id u) (u_telegram_id u) (u_username u) (u_first_name u)
    (u_last_name u) (u_current_question_id u) (u_is_team_member u)
    (u_is_registration_complete u) (u_created_at u) now.

(** The [SET] clause built from [kwargs], applied left to right. *)
Fixpoint set_clause {A : Type} (set_column : string -> Value -> option (A -> A))
    (kwargs : list (string * Value)) : option (A -> A) :=
  match kwargs with
  | [] => Some (fun r => r)
  | (k, v) :: rest =>
      match set_column k v, set_clause set_column rest with
      | Some f, Some g => Some (fun r => g (f r))
      | _, _ => None
      end
  end.

(** *** User operations *)

Definition get_user (telegram_id : Z) : DbOp (option UserProfile) :=
  fun db =>
    returns
      (fetchone (filter (fun u => u_telegram_id u =? telegram_id)
                        (bot_admin_userprofile db))) db.

Definition get_or_create_user (now : Z) (telegram_id : Z)
    (username first_name last_name : option string) : DbOp UserProfile :=
  fun db =>
    match fetchone (filter (fun u => u_telegram_id u =? telegram_id)
                           (bot_admin_userprofile db)) with
    | Some user => returns user db
    | None =>
        let id := userprofile_id_seq db + 1 in
        let user := mkUserProfile id telegram_id username first_name last_name
                      None false false now now in
        returns user
          (mkDb (bot_admin_question db) (bot_admin_userprofile db ++ [user])
                (bot_admin_userresponse db) (bot_admin_staffapplication db)
                id (userresponse_id_seq db) (staffapplication_id_seq db))
    end.

(** [update_user]: with no keyword the statement starts [SET , updated_at]
    and is rejected; after the commit, [dict(cur.fetchone())] raises
    [TypeError] when no row matched. *)
Definition update_user (now : Z) (telegram_id : Z)
    (kwargs : list (string * Value)) : DbOp UserProfile :=
  fun db =>
    match kwargs, set_clause set_userprofile_column kwargs with
    | [], _ | _, None => raises ProgrammingError db
    | _, Some set =>
        let cond := fun u => u_telegram_id u =? telegram_id in
        let db' := with_userprofile db
                     (update_where cond (fun u => touch_userprofile now (set u))
                                   (bot_admin_userprofile db)) in
        match fetchone (filter cond (bot_admin_userprofile db')) with
        | Some user => returns user db'
        | None => raises TypeError db'
        end
    end.

Definition set_current_question (now : Z) (telegram_id : Z)
    (question_id : option Z) : DbOp unit :=
  fun db =>
    returns tt
      (with_userprofile db
         (update_where (fun u => u_telegram_id u =? telegram_id)
            (fun u => mkUserProfile (u_id u) (u_telegram_id u) (u_username u)
               (u_first_name u) (u_last_name u) question_id
               (u_is_team_member u) (u_is_registration_complete u)
               (u_created_at u) now)
            (bot_admin_userprofile db))).

(** *** Question operations *)

Definition get_questions : DbOp (list Question) :=
  fun db =>
    returns (order_by q_order (filter q_is_active (bot_admin_question db))) db.

(** [question_id] may be Python's [None]: [WHERE id = NULL] selects no
    row. *)
Definition get_question_by_id (question_id : option Z)
    : DbOp (option Question) :=
  fun db =>
    returns
      (fetchone
         (filter (fun q => match question_id with
                           | Some i => q_id q =? i
                           | None => false
                           end)
                 (bot_admin_question db))) db.

Definition get_next_question (current_order : Z) : DbOp (option Question) :=
  fun db =>
    returns
      (fetchone
         (order_by q_order
            (filter (fun q => q_is_active q && (current_order <? q_order q))
                    (bot_admin_question db)))) db.

Definition get_first_question : DbOp (option Question) :=
  fun db =>
    returns
      (fetchone (order_by q_order (filter q_is_active (bot_admin_question db))))
      db.

(** *** Response operations *)

Definition response_of (user_id question_id : Z) (r : UserResponse) : bool :=
  (r_user_id r =? user_id) && (r_question_id r =? question_id).

Definition save_response (now : Z) (user_id question_id : Z)
    (text_answer photo_path : option string) : DbOp unit :=
  fun db =>
    let existing :=
      fetchone (filter (response_of user_id question_id)
                       (bot_admin_userresponse db)) in
    match existing with
    | Some _ =>
        returns tt
          (with_userresponse db
             (update_where (response_of user_id question_id)
                (fun r => mkUserResponse (r_id r) (r_user_id r)
                            (r_question_id r) text_answer photo_path
                            (r_created_at r) now)
                (bot_admin_userresponse db)))
    | None =>
        let id := userresponse_id_seq db + 1 in
        returns tt
          (mkDb (bot_admin_question db) (bot_admin_userprofile db)
                (bot_admin_userresponse db
                   ++ [mkUserResponse id user_id question_id text_answer
                         photo_path now now])
                (bot_admin_staffapplication db) (userprofile_id_seq db)
                id (staffapplication_id_seq db))
    end.

(** A row of [get_user_responses]: the response joined with its
    question's text and field name. *)
Record ResponseRow := mkResponseRow {
  rr_response : UserResponse;
  rr_question_order : Z;
  rr_question_text : string;
  rr_field_name : option string
}.

Definition get_user_responses (telegram_id : Z) : DbOp (list ResponseRow) :=
  fun db =>
    returns
      (order_by rr_question_order
         (flat_map
            (fun r =>
               flat_map
                 (fun u =>
                    if (r_user_id r =? u_id u) && (u_telegram_id u =? telegram_id)
                    then
                      flat_map
                        (fun q =>
                           if r_question_id r =? q_id q
                           then [mkResponseRow r (q_order q) (q_text q)
                                               (q_field_name q)]
                           else [])
                        (bot_admin_question db)
                    else [])
                 (bot_admin_userprofile db))
            (bot_admin_userresponse db)))
      db.

(** *** StaffApplication operations *)

(** The nullable text (and image path) columns of
    [bot_admin_staffapplication]. *)
Definition staffapplication_text_columns : list string :=
  [ "position"; "full_name"; "address"; "phone"; "email";
    "passport_main"; "passport_registration"; "snils"; "inn";
    "marital_status"; "children"; "emergency_contact"; "additional_info" ].

Definition set_text_column (column : string) (v : option string)
    (a : StaffApplication) : StaffApplication :=
  let pick := fun (name : string) (old : option string) =>
                if String.eqb column name then v else old in
  mkStaffApplication (a_id a) (a_user_id a) (a_status a)
    (pick "position" (a_position a))
    (pick "full_name" (a_full_name a))
    (pick "address" (a_address a))
    (pick "phone" (a_phone a))
    (pick "email" (a_email a))
    (pick "passport_main" (a_passport_main a))
    (pick "passport_registration" (a_passport_registration a))
    (pick "snils" (a_snils a))
    (pick "inn" (a_inn a))
    (pick "marital_status" (a_marital_status a))
    (pick "children" (a_children a))
    (pick "emergency_contact" (a_emergency_contact a))
    (pick "additional_info" (a_additional_info a))
    (a_created_at a) (a_updated_at a) (a_completed_at a).

Definition set_status (status : string) (completed_at : option Z) (now : Z)
    (a : StaffApplication) : StaffApplication :=
  mkStaffApplication (a_id a) (a_user_id a) status (a_position a)
    (a_full_name a) (a_address a) (a_phone a) (a_email a) (a_passport_main a)
    (a_passport_registration a) (a_snils a) (a_inn a) (a_marital_status a)
    (a_children a) (a_emergency_contact a) (a_additional_info a)
    (a_created_at a) now completed_at.

Definition touch_staffapplication (now : Z) (a : StaffApplication)
    : StaffApplication :=
  set_status (a_status a) (a_completed_at a) now a.

(** [SET column = value] on [bot_admin_staffapplication]. *)
Definition set_staffapplication_column (column : string) (v : Value)
    : option (StaffApplication -> StaffApplication) :=
  let is_text := existsb (String.eqb column) staffapplication_text_columns in
  match v with
  | VStr s =>
      if String.eqb column "status"
      then Some (fun a => set_status s (a_completed_at a) (a_updated_at a) a)
      else if is_text then Some (set_text_column column (Some s)) else None
  | VNull => if is_text then Some (set_text_column column None) else None
  | VBool _ | VInt _ => None
  end.

Definition get_or_create_application (now : Z) (user_id : Z)
    : DbOp StaffApplication :=
  fun db =>
    match fetchone (filter (fun a => a_user_id a =? user_id)
                           (bot_admin_staffapplication db)) with
    | Some app => returns app db
    | None =>
        let id := staffapplication_id_seq db + 1 in
        let app := mkStaffApplication id user_id "in_progress" None None None
                     None None None None None None None None None None
                     now now None in
        returns app
          (mkDb (bot_admin_question db) (bot_admin_userprofile db)
                (bot_admin_userresponse db)
                (bot_admin_staffapplication db ++ [app])
                (userprofile_id_seq db) (userresponse_id_seq db) id)
    end.

Definition update_application (now : Z) (user_id : Z)
    (kwargs : list (string * Value)) : DbOp (option StaffApplication) :=
  fun db =>
    match set_clause set_staffapplication_column kwargs with
    | None => raises ProgrammingError db
    | Some set =>
        let cond := fun a => a_user_id a =? user_id in
        let db' := with_staffapplication db
                     (update_where cond
                        (fun a => touch_staffapplication now (set a))
                        (bot_admin_staffapplication db)) in
        returns (fetchone (filter cond (bot_admin_staffapplication db'))) db'
    end.

Definition complete_application (now : Z) (user_id : Z)
    : DbOp (option StaffApplication) :=
  fun db =>
    let cond := fun a => a_user_id a =? user_id in
    let db' := with_staffapplication db
                 (update_where cond (set_status "completed" (Some now) now)
                               (bot_admin_staffapplication db)) in
    returns (fetchone (filter cond (bot_admin_staffapplication db'))) db'.

Definition get_application_by_telegram_id (telegram_id : Z)
    : DbOp (option StaffApplication) :=
  fun db =>
    returns
      (fetchone
         (filter
            (fun a =>
               existsb (fun u => (a_user_id a =? u_id u)
                                 && (u_telegram_id u =? telegram_id))
                       (bot_admin_userprofile db))
            (bot_admin_staffapplication db)))
      db.

(** ** [telegram_bot/keyboards/inline.py] *)

Record InlineKeyboardButton := mkButton {
  text : string;
  callback_data : string
}.

(** The rows of buttons of an [InlineKeyboardMarkup]. *)
Definition InlineKeyboardMarkup : Type := list (list InlineKeyboardButton).

Definition get_team_member_keyboard : InlineKeyboardMarkup :=
  [ [ mkButton "✅ Да" "team_yes"; mkButton "❌ Нет" "team_no" ] ].

Definition get_choices_keyboard (choices : string) : InlineKeyboardMarkup :=
  let choices_list := map PyStr.strip (PyStr.split "," choices) in
  map (fun choice => [ mkButton choice ("choice_" ++ choice) ]) choices_list.

(** ** [telegram_bot/states/registration.py] and the session *)

Inductive RegistrationStates :=
| asking_team_member
| asking_position
| answering_questions.

(** The keys the handlers keep in the session data. *)
Record StateData := mkStateData {
  position : option string;
  current_question_id : option Z;
  current_question_order : option Z
}.

Definition no_data : StateData := mkStateData None None None.

(** ** Messages in and out *)

Record Message := mkMessage {
  from_user_id : Z;
  from_username : option string;
  from_first_name : option string;
  from_last_name : option string;
  msg_text : option string;
  msg_photo : list string
}.

(** A pressed inline button: who pressed it, the button's
    [callback_data], and the bot's message that carried the keyboard. *)
Record CallbackQuery := mkCallbackQuery {
  cb_from_user_id : Z;
  data : string;
  cb_message : Message
}.

(** What a handler sends back, in the order sent. *)
Inductive Outbound :=
| Answer (body : string) (reply_markup : option InlineKeyboardMarkup)
| AnswerPhoto (photo caption : string) (reply_markup : option InlineKeyboardMarkup)
| EditText (body : string)
| EditReplyMarkup (reply_markup : option InlineKeyboardMarkup)
| CallbackAnswer.

(** ** Handlers as state transformers *)

(** What a handler can see and change: the database, the session
    ([FSMContext]: state and data), the messages sent so far, the files
    under [/app/media], and [w_faults]: [Some n] when the transaction
    after the next [n] ones fails, [None] when none does. *)
Record World := mkWorld {
  w_db : Db;
  w_state : option RegistrationStates;
  w_data : StateData;
  w_out : list Outbound;
  w_files : list string;
  w_faults : option nat
}.

Definition Handler (A : Type) : Type := World -> (Exn + A) * World.

Definition ret {A : Type} (a : A) : Handler A := fun w => (inr a, w).

Definition raise {A : Type} (e : Exn) : Handler A := fun w => (inl e, w).

Definition bind {A B : Type} (c : Handler A) (k : A -> Handler B) : Handler B :=
  fun w =>
    match c w with
    | (inr a, w') => k a w'
    | (inl e, w') => (inl e, w')
    end.

Declare Scope handler_scope.
Delimit Scope handler_scope with handler.
Bind Scope handler_scope with Handler.

Notation "x <- c ;; k" := (bind c (fun x => k))
  (at level 61, c at next level, right associativity) : handler_scope.
Notation "c ;; k" := (bind c (fun _ => k))
  (at level 61, right associativity) : handler_scope.

Local Open Scope handler_scope.

(** One transaction.  When the injected failure is due, the call raises
    and nothing is committed; otherwise the database function runs. *)
Definition call {A : Type} (op : DbOp A) : Handler A :=
  fun w =>
    match w_faults w with
    | Some O => (inl StorageFailure, w)
    | faults =>
        let (r, db') := op (w_db w) in
        (r, mkWorld db' (w_state w) (w_data w) (w_out w) (w_files w)
              (option_map Nat.pred faults))
    end.

(** [message.answer], [answer_photo], [edit_text], ... *)
Definition send (o : Outbound) : Handler unit :=
  fun w =>
    (inr tt, mkWorld (w_db w) (w_state w) (w_data w) (w_out w ++ [o])
               (w_files w) (w_faults w)).

(** [state.set_state] *)
Definition set_state (s : RegistrationStates) : Handler unit :=
  fun w =>
    (inr tt, mkWorld (w_db w) (Some s) (w_data w) (w_out w) (w_files w)
               (w_faults w)).

(** [state.clear()]: the state and the data are dropped. *)
Definition clear : Handler unit :=
  fun w =>
    (inr tt, mkWorld (w_db w) None no_data (w_out w) (w_files w) (w_faults w)).

(** [state.get_data()] *)
Definition get_data : Handler StateData := fun w => (inr (w_data w), w).

(** [state.update_data(...)] *)
Definition update_data (f : StateData -> StateData) : Handler unit :=
  fun w =>
    (inr tt, mkWorld (w_db w) (w_state w) (f (w_data w)) (w_out w)
               (w_files w) (w_faults w)).

(** [os.path.exists] *)
Definition path_exists (path : string) : Handler bool :=
  fun w => (inr (existsb (String.eqb path) (w_files w)), w).

(** [bot.download_file]: the file is there afterwards. *)
Definition download_file (path : string) : Handler unit :=
  fun w =>
    (inr tt, mkWorld (w_db w) (w_state w) (w_data w) (w_out w)
               (path :: w_files w) (w_faults w)).

(** ** [telegram_bot/handlers/start.py] *)

Definition WELCOME_MESSAGE : string := "
<b>Привет, дорогой друг!</b> 👋

Тебя приветствует бот школы <b>«Новые грани»</b>.

Обычно в этот бот случайно не попадают. Если ты хочешь стать частью команды или уже являешься ей, пиши /start и поехали!
".

Definition ALREADY_COMPLETED_MESSAGE : string := "🎉 <b>С возвращением!</b>

Ты уже завершил регистрацию. Если хочешь обновить данные, свяжись с администратором.".

Definition cmd_start (now : Z) (message : Message) : Handler unit :=
  clear ;;
  user_data <- call (get_or_create_user now (from_user_id message)
                       (from_username message) (from_first_name message)
                       (from_last_name message)) ;;
  if u_is_registration_complete user_data then
    send (Answer ALREADY_COMPLETED_MESSAGE None)
  else
    let image_path := "/app/media/welcome.jpg" in
    found <- path_exists image_path ;;
    (if found then send (AnswerPhoto image_path WELCOME_MESSAGE None)
     else send (Answer WELCOME_MESSAGE None)) ;;
    send (Answer "Ты уже являешься частью команды <b>«Новые грани»</b>?"
                 (Some get_team_member_keyboard)) ;;
    set_state asking_team_member.

(** ** [telegram_bot/handlers/registration.py] *)

Definition MISSION_MESSAGE : string := "
<b>Отлично! Давай мы немножко расскажем о себе, а ты — о себе.</b>

Мы – команда увлеченных людей. Будем вместе создавать новое, экспериментировать и творить, развивая себя.

<b>Наша Миссия</b>
Мы помогаем людям раскрывать новые грани себя и своей жизни через метафизические и психоэзотерические инструменты. Наша миссия — давать глубокое знание, которое позволяет понимать свои внутренние процессы, улучшать ментальное и энергетическое состояние и становиться авторами собственной жизни.
".

Definition VALUES_MESSAGE : string := "
<b>А теперь о наших ценностях:</b>

✨ <b>Осознанность</b> — понимание себя, своих состояний и причин происходящего.

💎 <b>Честность с собой</b> — способность встречаться с истинными мотивами, страхами и желаниями.

🔮 <b>Целостность</b> — внимание ко всем аспектам человека: ментальному, энергетическому, эмоциональному и физическому.

💪 <b>Ответственность</b> — способность быть автором своей жизни и действий.

📈 <b>Развитие</b> — постоянный рост, исследование, обучение, поиски новых смыслов и готовность двигаться к новому.

💚 <b>Забота</b> — уважение к пути каждого человека, поддержка, экологичность. Комьюнити.

🌊 <b>Глубина</b> — ориентация на внутренние трансформации, а не поверхностные изменения.

⚡ <b>Скорость и Безопасность</b> — создание и использование инструментов, которые позволяют быстро получить результат.

🎯 <b>Доступность</b> — по деньгам, пониманию материала и подаче информации.
".

Definition GOAL_MESSAGE : string := "
<b>Наша цель</b>

Научить применять психологические и энергетические инструменты для улучшения жизни и достижения новых результатов, через исследование и исцеление своих граней.
".

Definition COMPLETION_MESSAGE : string := "
🎉 <b>Спасибо, что рассказал о себе!</b>

Рады, что ты с нами!!! 💜

Твои данные успешно сохранены. Если будут вопросы — пиши администратору.
".

Definition NO_QUESTIONS_MESSAGE : string :=
  "Вопросов пока нет. Обратитесь к администратору.".

Definition SEND_PHOTO_MESSAGE : string :=
  "📷 Пожалуйста, отправьте фото, а не текст.".

Definition process_team_member (now : Z) (callback : CallbackQuery)
    : Handler unit :=
  send CallbackAnswer ;;
  let is_team_member := String.eqb (data callback) "team_yes" in
  _ <- call (update_user now (cb_from_user_id callback)
               [("is_team_member", VBool is_team_member)]) ;;
  if is_team_member then
    send (EditText "На какой позиции ты работаешь в школе <b>«Новые грани»</b>?") ;;
    set_state asking_position
  else
    send (EditText "Спасибо за интерес! Этот бот предназначен для членов команды. Если хочешь присоединиться к нам, напиши /start когда будешь готов.") ;;
    clear.

Definition send_question (question : Question) : Handler unit :=
  let question_text := q_text question in
  let question_type := q_question_type question in
  let with_keyboard :=
    String.eqb question_type "choice" && PyStr.truthy (q_choices question) in
  let keyboard := get_choices_keyboard (PyStr.fmt (q_choices question)) in
  let plain :=
    if with_keyboard then send (Answer question_text (Some keyboard))
    else if String.eqb question_type "info" then send (Answer question_text None)
    else send (Answer question_text None) in
  if PyStr.truthy (q_image question) then
    let image_path := "/app/media/" ++ PyStr.fmt (q_image question) in
    found <- path_exists image_path ;;
    if found then
      if with_keyboard
      then send (AnswerPhoto image_path question_text (Some keyboard))
      else send (AnswerPhoto image_path question_text None)
    else plain
  else plain.

Definition valid_fields : list string :=
  [ "full_name"; "address"; "phone"; "email";
    "passport_main"; "passport_registration"; "snils"; "inn";
    "marital_status"; "children"; "emergency_contact"; "additional_info" ].

Definition save_to_application (now : Z) (user_id : Z)
    (field_name : option string) (value : option string) : Handler unit :=
  match field_name with
  | None | Some EmptyString => ret tt
  | Some name =>
      if existsb (String.eqb name) valid_fields then
        _ <- call (update_application now user_id [(name, value_of_str value)]) ;;
        ret tt
      else ret tt
  end.

Definition field_is (q : Question) (name : string) : bool :=
  match q_field_name q with
  | Some f => String.eqb f name
  | None => false
  end.

(** [from_user] is the keyword argument [from_user_id]; [None] and [0]
    fall back to the sender of [message]. *)
Definition move_to_next_question (now : Z) (message : Message)
    (current_question : Question) (from_user : option Z) : Handler unit :=
  let user_id := match from_user with
                 | Some i => if i =? 0 then from_user_id message else i
                 | None => from_user_id message
                 end in
  let current_order := q_order current_question in
  next_question <- call (get_next_question current_order) ;;
  match next_question with
  | Some next =>
      (if field_is current_question "full_name"
       then send (Answer GOAL_MESSAGE None) else ret tt) ;;
      (if field_is next "snils"
       then send (Answer VALUES_MESSAGE None) else ret tt) ;;
      call (set_current_question now user_id (Some (q_id next))) ;;
      update_data (fun d => mkStateData (position d) (Some (q_id next))
                              (Some (q_order next))) ;;
      send_question next
  | None =>
      _ <- call (update_user now user_id
                   [("is_registration_complete", VBool true);
                    ("current_question_id", VNull)]) ;;
      user <- call (get_user user_id) ;;
      match user with
      | Some u => _ <- call (complete_application now (u_id u)) ;; ret tt
      | None => ret tt
      end ;;
      send (Answer COMPLETION_MESSAGE None) ;;
      clear
  end.

Definition process_position (now : Z) (message : Message) : Handler unit :=
  let pos := msg_text message in
  user <- call (get_user (from_user_id message)) ;;
  match user with
  | Some u =>
      _ <- call (get_or_create_application now (u_id u)) ;;
      _ <- call (update_application now (u_id u)
                   [("position", value_of_str pos)]) ;;
      ret tt
  | None => ret tt
  end ;;
  update_data (fun d => mkStateData pos (current_question_id d)
                          (current_question_order d)) ;;
  send (Answer MISSION_MESSAGE None) ;;
  first_question <- call get_first_question ;;
  match first_question with
  | Some first =>
      call (set_current_question now (from_user_id message) (Some (q_id first))) ;;
      update_data (fun d => mkStateData (position d) (Some (q_id first))
                              (Some (q_order first))) ;;
      send_question first ;;
      set_state answering_questions
  | None =>
      send (Answer NO_QUESTIONS_MESSAGE None) ;;
      clear
  end.

(** [not question_id] holds when the key is missing or holds [None] or
    [0]; [truthy_id] gives the id otherwise. *)
Definition truthy_id (question_id : option Z) : option Z :=
  match question_id with
  | Some i => if i =? 0 then None else Some i
  | None => None
  end.

(** [stamp] is [datetime.now().strftime('%Y%m%d_%H%M%S')]. *)
Definition process_photo_answer (now : Z) (stamp : string) (message : Message)
    : Handler unit :=
  state_data <- get_data ;;
  match truthy_id (current_question_id state_data) with
  | None =>
      send (Answer "Произошла ошибка. Попробуйте начать сначала: /start" None) ;;
      clear
  | Some question_id =>
      question <- call (get_question_by_id (Some question_id)) ;;
      match question with
      | None => send (Answer "Вопрос не найден. Попробуйте /start" None) ;; clear
      | Some question =>
          user <- call (get_user (from_user_id message)) ;;
          match user with
          | None =>
              send (Answer "Пользователь не найден. Попробуйте /start" None) ;;
              clear
          | Some user =>
              match last (map Some (msg_photo message)) None with
              | None => raise IndexError
              | Some _ =>
                  let field_name := PyStr.fmt (q_field_name question) in
                  let save_dir := "/app/media/applications/" ++ field_name in
                  let filename :=
                    NilZero.string_of_int (Z.to_int (from_user_id message))
                    ++ "_" ++ stamp ++ ".jpg" in
                  download_file (save_dir ++ "/" ++ filename) ;;
                  let relative_path :=
                    "applications/" ++ field_name ++ "/" ++ filename in
                  call (save_response now (u_id user) question_id None
                          (Some relative_path)) ;;
                  save_to_application now (u_id user) (q_field_name question)
                    (Some relative_path) ;;
                  move_to_next_question now message question None
              end
          end
      end
  end.

(** The log line slices [message.text]. *)
Definition log_text (t : option string) : Handler unit :=
  match t with
  | Some _ => ret tt
  | None => raise TypeError
  end.

Definition process_text_answer (now : Z) (message : Message) : Handler unit :=
  state_data <- get_data ;;
  match truthy_id (current_question_id state_data) with
  | None =>
      send (Answer "Произошла ошибка. Попробуйте начать сначала: /start" None) ;;
      clear
  | Some question_id =>
      question <- call (get_question_by_id (Some question_id)) ;;
      match question with
      | None => send (Answer "Вопрос не найден. Попробуйте /start" None) ;; clear
      | Some question =>
          if String.eqb (q_question_type question) "photo" then
            send (Answer SEND_PHOTO_MESSAGE None)
          else
            user <- call (get_user (from_user_id message)) ;;
            match user with
            | None =>
                send (Answer "Пользователь не найден. Попробуйте /start" None) ;;
                clear
            | Some user =>
                let field_name := q_field_name question in
                call (save_response now (u_id user) question_id
                        (msg_text message) None) ;;
                save_to_application now (u_id user) field_name
                  (msg_text message) ;;
                log_text (msg_text message) ;;
                move_to_next_question now message question None
            end
      end
  end.

(** The session's [current_question_id] is not checked here; a missing
    one selects no question, so where a question was found the id is
    there. *)
Definition process_choice_answer (now : Z) (callback : CallbackQuery)
    : Handler unit :=
  send CallbackAnswer ;;
  state_data <- get_data ;;
  let question_id := current_question_id state_data in
  question <- call (get_question_by_id question_id) ;;
  match question, question_id with
  | Some question, Some question_id =>
      user <- call (get_user (cb_from_user_id callback)) ;;
      match user with
      | None =>
          send (EditText "Пользователь не найден. Попробуйте /start") ;;
          clear
      | Some user =>
          let answer := PyStr.replace "choice_" "" (data callback) in
          let field_name := q_field_name question in
          call (save_response now (u_id user) question_id (Some answer) None) ;;
          save_to_application now (u_id user) field_name (Some answer) ;;
          send (EditReplyMarkup None) ;;
          move_to_next_question now (cb_message callback) question
            (Some (cb_from_user_id callback))
      end
  | _, _ =>
      send (EditText "Вопрос не найден. Попробуйте /start") ;;
      clear
  end.

(** ** Routing ([bot.py] and the handlers' decorators)

    [start.router] comes first, then [registration.router]; in a router
    the first handler whose state and filters match takes the update, and
    an update no handler matches is dropped. *)

Inductive Update :=
| OnMessage (m : Message)
| OnCallback (c : CallbackQuery).

(** The command of a message: its first word up to an [@].  aiogram's
    [Command] filter also compares a mention behind the [@] with the
    bot's own username, which Telegram supplies at run time; here every
    mention is taken as the bot's own. *)
Fixpoint command_of (s : string) : string :=
  match s with
  | EmptyString => EmptyString
  | String c rest =>
      if existsb (Ascii.eqb c) [" "; "@"; "009"; "010"; "013"]%char
      then EmptyString
      else String c (command_of rest)
  end.

Definition is_start_command (m : Message) : bool :=
  match msg_text m with
  | Some t => String.eqb (command_of t) "/start"
  | None => false
  end.

Definition dispatch (now : Z) (stamp : string) (u : Update) : Handler unit :=
  fun w =>
    match u with
    | OnMessage m =>
        if is_start_command m then cmd_start now m w
        else
          match w_state w with
          | Some asking_position => process_position now m w
          | Some answering_questions =>
              match msg_photo m with
              | _ :: _ => process_photo_answer now stamp m w
              | [] =>
                  if PyStr.truthy (msg_text m) then process_text_answer now m w
                  else ret tt w
              end
          | _ => ret tt w
          end
    | OnCallback c =>
        match w_state w with
        | Some asking_team_member =>
            if existsb (String.eqb (data c)) ["team_yes"; "team_no"]
            then process_team_member now c w
            else ret tt w
        | Some answering_questions => process_choice_answer now c w
        | _ => ret tt w
        end
    end.

(** ** The walk through the catalogue

    The questions an applicant is put on, one after the other:
    [process_position] starts at [get_first_question()] and
    [move_to_next_question] goes on with
    [get_next_question(current_question['order'])] until there is none. *)

Definition value_of {A : Type} (r : (Exn + option A) * Db) : option A :=
  match fst r with
  | inr v => v
  | inl _ => None
  end.

Fixpoint traversal_from (fuel : nat) (db : Db) (q : Question) : list Question :=
  q :: match fuel with
       | O => []
       | S fuel' =>
           match value_of (get_next_question (q_order q) db) with
           | Some next => traversal_from fuel' db next
           | None => []
           end
       end.

Definition traversal (db : Db) : list Question :=
  match value_of (get_first_question db) with
  | Some first => traversal_from (List.length (bot_admin_question db)) db first
  | None => []
  end.

Definition active_questions (db : Db) : list Question :=
  filter q_is_active (bot_admin_question db).

(** The active questions still ahead of order [o]. *)
Definition later (db : Db) (o : Z) : list Question :=
  filter (fun q => q_is_active q && (o <? q_order q)) (bot_admin_question db).

(** *** Sample data *)

Definition sample_question (id order : Z) (type : string)
    (field_name : option string) (active : bool) : Question :=
  mkQuestion id order type "?" None None field_name true active.

(** Three active questions with distinct orders, stored out of order,
    and one that is switched off. *)
Definition catalogue_db : Db :=
  mkDb [ sample_question 1 20 "photo" (Some "passport_main") true;
         sample_question 2 10 "text" (Some "full_name") true;
         sample_question 3 15 "text" None false;
         sample_question 4 30 "choice" (Some "marital_status") true ]
       [] [] [] 0 0 0.

(** Two active questions that share order [1]. *)
Definition tie_first : Question := sample_question 1 1 "text" None true.
Definition tie_second : Question := sample_question 2 1 "text" None true.

Definition tie_db (rows : list Question) : Db := mkDb rows [] [] [] 0 0 0.

(** *** Answering one question several times *)

(** One call of [save_response] for a fixed applicant and question: the
    time of the call, [text_answer] and [photo_path]. *)
Definition Saving : Type := (Z * option string * option string)%type.

Definition save_responses (user_id question_id : Z) (calls : list Saving)
    (db : Db) : Db :=
  fold_left
    (fun db c =>
       match c with
       | (now, text_answer, photo_path) =>
           snd (save_response now user_id question_id text_answer photo_path db)
       end)
    calls db.

(** The rows of an applicant's answer to a question. *)
Definition responses_of (user_id question_id : Z) (db : Db) : list UserResponse :=
  filter (response_of user_id question_id) (bot_admin_userresponse db).

(** A call that supplies exactly one of the text and the photo. *)
Definition one_modality (c : Saving) : Prop :=
  match c with
  | (_, Some _, None) | (_, None, Some _) => True
  | _ => False
  end.

Definition answered_db : Db :=
  mkDb [] [] [ mkUserResponse 1 7 3 (Some "old") None 100 100;
               mkUserResponse 2 7 4 None (Some "applications/snils/7.jpg") 101 101 ]
       [] 0 2 0.

(** *** The scenario of the specification

    Three questions (full name, passport photo, marital status) and one
    applicant, telegram id 1001, who has given a position. *)

Definition scenario_questions : list Question :=
  [ mkQuestion 1 1 "text" "ФИО?" None None (Some "full_name") true true;
    mkQuestion 2 2 "photo" "Паспорт" None None (Some "passport_main") true true;
    mkQuestion 3 3 "choice" "Семейное положение" (Some "Женат,Не женат") None
      (Some "marital_status") true true ].

Definition applicant (current : option Z) (complete : bool) : UserProfile :=
  mkUserProfile 1 1001 (Some "ivan") (Some "Иван") None current true complete
    50 60.

Definition blank_application (status : string) (completed_at : option Z)
    : StaffApplication :=
  mkStaffApplication 1 1 status (Some "повар") None None None None None None
    None None None None None None 55 60 completed_at.

Definition scenario_db (questions : list Question) (current : option Z) : Db :=
  mkDb questions [applicant current false] [] [blank_application "in_progress" None]
       1 0 1.

(** The applicant is on question [id], whose order is [order]. *)
Definition on_question (questions : list Question) (id order : Z)
    (faults : option nat) : World :=
  mkWorld (scenario_db questions (Some id)) (Some answering_questions)
    (mkStateData (Some "повар") (Some id) (Some order)) [] [] faults.

Definition text_message (t : string) : Message :=
  mkMessage 1001 (Some "ivan") (Some "Иван") None (Some t) [].

(** The applicant has given no position yet. *)
Definition giving_position (questions : list Question) : World :=
  mkWorld (mkDb questions [applicant None false] [] [] 1 0 0)
    (Some asking_position) no_data [] [] None.

(** The applicant has completed the registration; no session is open. *)
Definition completed_world : World :=
  mkWorld
    (mkDb scenario_questions [applicant None true]
       [mkUserResponse 1 1 1 (Some "Иван Иванов") None 61 61]
       [blank_application "completed" (Some 90)] 1 1 1)
    None no_data [] [] None.

(** *** The commits of an accepted answer

    The database states an accepted answer goes through, one per
    transaction that writes: the response ([saved]), the application
    field ([mapped]), the applicant's position in the flow ([advanced]),
    the completion of the application ([finished]). *)

Definition saved (now user_id question_id : Z) (text_answer photo_path : option string)
    (db : Db) : Db :=
  snd (save_response now user_id question_id text_answer photo_path db).

Definition mapped (now user_id : Z) (field_name value : option string)
    (db : Db) : Db :=
  match field_name with
  | None | Some EmptyString => db
  | Some name =>
      if existsb (String.eqb name) valid_fields
      then snd (update_application now user_id [(name, value_of_str value)] db)
      else db
  end.

(** The keywords of the [update_user] call that ends the flow. *)
Definition completion_kwargs : list (string * Value) :=
  [("is_registration_complete", VBool true); ("current_question_id", VNull)].

Definition advanced (now telegram_id : Z) (next : option Question) (db : Db) : Db :=
  match next with
  | Some q => snd (set_current_question now telegram_id (Some (q_id q)) db)
  | None => snd (update_user now telegram_id completion_kwargs db)
  end.

(** The sender [move_to_next_question] works for. *)
Definition sender (message : Message) (from_user : option Z) : Z :=
  match from_user with
  | Some i => if i =? 0 then from_user_id message else i
  | None => from_user_id message
  end.

Definition finished (now user_id : Z) (next : option Question) (db : Db) : Db :=
  match next with
  | Some _ => db
  | None => snd (complete_application now user_id db)
  end.


(** [field_name] is empty or not on the list of [save_to_application]. *)
Definition unmapped (field_name : option string) : bool :=
  match field_name with
  | Some name => negb (existsb (String.eqb name) valid_fields)
  | None => true
  end.

(** A catalogue whose only question has a field name that is not on the
    list. *)
Definition nickname_questions : list Question :=
  [ mkQuestion 1 1 "text" "Ник?" None None (Some "nickname") true true ].

(** A catalogue that asks for the phone number, then for a photo. *)
Definition phone_questions : list Question :=
  [ mkQuestion 1 1 "text" "Телефон?" None None (Some "phone") true true;
    mkQuestion 2 2 "photo" "Паспорт" None None (Some "passport_main") true true ].

(** The last question of the scenario, and the applicant on it. *)
Definition last_question : Question :=
  mkQuestion 3 3 "choice" "Семейное положение" (Some "Женат,Не женат") None
    (Some "marital_status") true true.

Definition on_last_question : World := on_question scenario_questions 3 3 None.

(** The completion logic, triggered at time [now] for the scenario's
    applicant. *)
Definition trigger_completion (now : Z) (w : World) : World :=
  snd (move_to_next_question now (text_message "Не женат") last_question None w).

(** *** Choice questions *)

(** A question whose first choice starts with the prefix of the
    callback data. *)
Definition prefixed_choice_questions : list Question :=
  [ mkQuestion 1 1 "choice" "Вариант?" (Some "choice_A,B") None (Some "children")
      true true ].

Definition yes_no_questions : list Question :=
  [ mkQuestion 1 1 "choice" "Дети?" (Some "Да, Нет") None (Some "children")
      true true ].

(** The bot's own message, the one that carries the keyboard. *)
Definition bot_message : Message :=
  mkMessage 424242 (Some "new_edges_bot") (Some "bot") None (Some "Вариант?") [].

(** The applicant presses [button]. *)
Definition press (button : InlineKeyboardButton) : CallbackQuery :=
  mkCallbackQuery 1001 (callback_data button) bot_message.

(** *** Running a conversation *)

(** The updates of one applicant, handled one after the other; each
    carries the time it is handled at.  A handler that raises leaves the
    world it reached. *)
Definition run_updates (stamp : string) (updates : list (Z * Update)) (w : World)
    : World :=
  fold_left (fun w u => snd (dispatch (fst u) stamp (snd u) w)) updates w.

Definition photo_message : Message :=
  mkMessage 1001 (Some "ivan") (Some "Иван") None None ["small"; "large"].

(** The rows a listing returned. *)
Definition value_of_list {A : Type} (r : (Exn + list A) * Db) : list A :=
  match fst r with
  | inr rows => rows
  | inl _ => []
  end.

(** The conversation of the specification's scenario, from the first
    question on. *)
Definition scenario_updates : list (Z * Update) :=
  [ (70, OnMessage (text_message "Иван Иванов"));
    (71, OnMessage (text_message "вот паспорт"));
    (72, OnMessage photo_message);
    (73, OnCallback (press (mkButton "Не женат" "choice_Не женат"))) ].

Definition scenario_after (n : nat) : Db :=
  w_db (run_updates "20260101_120000" (firstn n scenario_updates)
          (on_question scenario_questions 1 1 None)).

(** *** Relating the database before and after a handler *)

(** [c] takes every database to one that [R] relates it to, whatever it
    returns or raises. *)
Definition keeps (R : Db -> Db -> Prop) {A : Type} (c : Handler A) : Prop :=
  forall w, R (w_db w) (w_db (snd (c w))).

(** [l'] is [l] with rows added at the end. *)
Definition extends {K : Type} (l l' : list K) : Prop :=
  exists added, l' = (l ++ added)%list.

(** The keys of the rows: primary keys, and the columns the flow looks
    rows up by. *)
Definition userprofile_keys (db : Db) : list (Z * Z) :=
  map (fun u => (u_id u, u_telegram_id u)) (bot_admin_userprofile db).

Definition userresponse_keys (db : Db) : list (Z * Z * Z) :=
  map (fun r => (r_id r, r_user_id r, r_question_id r))
      (bot_admin_userresponse db).

Definition staffapplication_keys (db : Db) : list (Z * Z) :=
  map (fun a => (a_id a, a_user_id a)) (bot_admin_staffapplication db).

(** Rows are only added, and no key of a row is rewritten. *)
Definition only_appends (db db' : Db) : Prop :=
  extends (userprofile_keys db) (userprofile_keys db') /\
  extends (userresponse_keys db) (userresponse_keys db') /\
  extends (staffapplication_keys db) (staffapplication_keys db').

(** The unique constraints of [models.py]: [telegram_id] on profiles,
    [unique_together = ['user', 'question']] on responses, the
    one-to-one [user] on applications. *)
Definition unique_constraints (db : Db) : Prop :=
  NoDup (map u_telegram_id (bot_admin_userprofile db)) /\
  NoDup (map (fun r => (r_user_id r, r_question_id r))
             (bot_admin_userresponse db)) /\
  NoDup (map a_user_id (bot_admin_staffapplication db)).

(** *** Occurrences of a substring *)

(** [old in s] *)
Fixpoint occurs (old s : string) : bool :=
  match s with
  | EmptyString => String.prefix old EmptyString
  | String _ rest => String.prefix old s || occurs old rest
  end.

(** The messages of the recoveries. *)
Definition SESSION_ERROR_MESSAGE : string :=
  "Произошла ошибка. Попробуйте начать сначала: /start".

Definition QUESTION_NOT_FOUND_MESSAGE : string :=
  "Вопрос не найден. Попробуйте /start".

Definition USER_NOT_FOUND_MESSAGE : string :=
  "Пользователь не найден. Попробуйте /start".

(** The world after a handler closed the session with one message. *)
Definition closed_with (o : Outbound) (w : World) : World :=
  mkWorld (w_db w) None no_data (w_out w ++ [o]) (w_files w) (w_faults w).

(** The path [process_photo_answer] stores for a photo. *)
Definition photo_path (field_name : option string) (telegram_id : Z)
    (stamp : string) : string :=
  "applications/" ++ PyStr.fmt field_name ++ "/"
  ++ NilZero.string_of_int (Z.to_int telegram_id) ++ "_" ++ stamp ++ ".jpg".

(** [s.count(c)] for a character. *)
Fixpoint count_char (c : ascii) (s : string) : nat :=
  match s with
  | EmptyString => O
  | String x rest => (if Ascii.eqb x c then 1 else 0) + count_char c rest
  end.

(** ** Methods of the models ([bot_admin/models.py]) and of the admin *)

(** [float(n)] for a small integer and [int(x)] for a float (the
    truncation towards zero; [None] stands for the error on an infinity
    or a NaN), on binary64 numbers as Python has them. *)
Definition float_of_int (z : Z) : PrimFloat.float :=
  PrimFloat.of_uint63 (Uint63.of_Z z).

Definition int_of_float (x : PrimFloat.float) : option Z :=
  match FloatOps.Prim2SF x with
  | SpecFloat.S754_zero _ => Some 0
  | SpecFloat.S754_finite negative m e =>
      let magnitude :=
        if 0 <=? e then Z.pos m * 2 ^ e else Z.pos m / 2 ^ (- e) in
      Some (if negative then - magnitude else magnitude)
  | _ => None
  end.

(** [Question.get_choices_list] *)
Definition get_choices_list (q : Question) : list string :=
  if PyStr.truthy (q_choices q)
  then map PyStr.strip (PyStr.split "," (PyStr.fmt (q_choices q)))
  else [].

(** [UserResponse.get_answer_display] *)
Definition get_answer_display (r : UserResponse) : string :=
  if PyStr.truthy (r_photo r) then "[Фото: " ++ PyStr.fmt (r_photo r) ++ "]"
  else if PyStr.truthy (r_text_answer r) then PyStr.fmt (r_text_answer r)
  else "-".

(** The fields [StaffApplication.get_completion_percentage] counts. *)
Definition completion_fields (a : StaffApplication) : list (option string) :=
  [ a_full_name a; a_address a; a_phone a; a_email a; a_passport_main a;
    a_passport_registration a; a_snils a; a_inn a; a_marital_status a;
    a_children a; a_emergency_contact a ].

(** [StaffApplication.get_completion_percentage] *)
Definition get_completion_percentage (a : StaffApplication) : option Z :=
  let fields := completion_fields a in
  let filled := List.length (filter PyStr.truthy fields) in
  int_of_float
    (PrimFloat.mul
       (PrimFloat.div (float_of_int (Z.of_nat filled))
                      (float_of_int (Z.of_nat (List.length fields))))
       (float_of_int 100)).

(** The colour [StaffApplicationAdmin.completion] picks. *)
Definition completion_color (pct : Z) : string :=
  if pct =? 100 then "green" else if 50 <=? pct then "orange" else "red".

(** [StaffApplicationAdmin.completion]: the coloured percentage. *)
Definition completion (obj : StaffApplication) : option string :=
  match get_completion_percentage obj with
  | Some pct =>
      let quote := String (ascii_of_nat 34) EmptyString in
      Some ("<span style=" ++ quote ++ "color: " ++ completion_color pct
            ++ "; font-weight: bold;" ++ quote ++ ">"
            ++ NilZero.string_of_int (Z.to_int pct) ++ " %</span>")
  | None => None
  end.

(** [UserProfileAdmin.full_name]: the names that are there, joined by a
    space, or a dash. *)
Definition full_name (obj : UserProfile) : string :=
  let parts := flat_map (fun p => if PyStr.truthy p then [PyStr.fmt p] else [])
                 [u_first_name obj; u_last_name obj] in
  match String.concat " " parts with
  | EmptyString => "-"
  | joined => joined
  end.

(** ** Connection parameters ([database.py]) *)

Record ConnectionParams := mkConnectionParams {
  cp_host : string;
  cp_port : Z;
  cp_database : string;
  cp_user : string;
  cp_password : string
}.

(** [s.rsplit(sep, 1)] unpacked into two names: the parts before and
    after the last separator; [None] is the [ValueError] of unpacking
    the single part of a string without separator. *)
Fixpoint rsplit_once (sep : ascii) (s : string) : option (string * string) :=
  match s with
  | EmptyString => None
  | String c rest =>
      match rsplit_once sep rest with
      | Some (before, after) => Some (String c before, after)
      | None => if Ascii.eqb c sep then Some (EmptyString, rest) else None
      end
  end.

(** [parse_database_url]; [None] is a [ValueError], of an unpacking or
    of [int(port)].  Python's [int] on strings is the parameter [int]. *)
Definition parse_database_url (int : string -> option Z) (url : string)
    : option ConnectionParams :=
  let url := PyStr.replace "postgresql://" ""
               (PyStr.replace "postgres://" "" url) in
  match rsplit_once "/" url with
  | None => None
  | Some (auth_host, database) =>
      match rsplit_once "@" auth_host with
      | None => None
      | Some (auth, host_port) =>
          match PyStr.split ":" auth with
          | [user; password] =>
              let host_and_port :=
                if occurs ":" host_port then
                  match PyStr.split ":" host_port with
                  | [host; port] => Some (host, port)
                  | _ => None
                  end
                else Some (host_port, "5432") in
              match host_and_port with
              | None => None
              | Some (host, port) =>
                  match int port with
                  | None => None
                  | Some port =>
                      Some (mkConnectionParams host port database user password)
                  end
              end
          | _ => None
          end
      end
  end.

(** [init_db]: the parameters taken from [DATABASE_URL]; [None] is the
    [ValueError] raised when the variable is missing or empty, or by the
    parsing. *)
Definition init_db (int : string -> option Z) (database_url : option string)
    : option ConnectionParams :=
  if PyStr.truthy database_url
  then parse_database_url int (PyStr.fmt database_url)
  else None.

(** A reading of decimal numerals, to try [parse_database_url] with. *)
Definition decimal_int (s : string) : option Z :=
  option_map Z.of_int (NilZero.int_of_string s).

(** * Properties *)

(** ** The string operations on small inputs *)

Example strip_ex : PyStr.strip "  нет " = "нет".
Proof. reflexivity. Qed.

Example split_ex : PyStr.split "," "да, нет" = ["да"; " нет"].
Proof. reflexivity. Qed.

Example replace_ex : PyStr.replace "choice_" "" "choice_Да" = "Да".
Proof. reflexivity. Qed.

(** ** [ORDER BY ... LIMIT 1] returns a row with the least key *)

Section OrderByFacts.
Variable A : Type.
Variable key : A -> Z.

Lemma insert_row_In (x y : A) (l : list A) :
  In y (insert_row key x l) <-> y = x \/ In y l.
Proof.
  induction l as [|z l IH]; simpl.
  - intuition.
  - destruct (key x <=? key z); simpl; rewrite ?IH; intuition.
Qed.

Lemma order_by_In (y : A) (l : list A) : In y (order_by key l) <-> In y l.
Proof.
  induction l as [|x l IH]; simpl; [tauto|].
  rewrite insert_row_In, IH. intuition.
Qed.

Lemma fetchone_order_by_none (l : list A) :
  fetchone (order_by key l) = None -> l = [].
Proof.
  destruct l as [|x l]; [reflexivity|]. simpl.
  destruct (order_by key l) as [|y r]; simpl; [discriminate|].
  destruct (key x <=? key y); discriminate.
Qed.

Lemma fetchone_order_by_least (l : list A) (h : A) :
  fetchone (order_by key l) = Some h ->
  In h l /\ forall y, In y l -> key h <= key y.
Proof.
  revert h. induction l as [|x l IH]; simpl; intros h Hh; [discriminate|].
  destruct (order_by key l) as [|y r] eqn:E.
  - apply (f_equal (@fetchone A)) in E. apply fetchone_order_by_none in E.
    subst l. simpl in Hh. injection Hh as <-. split; [now left|].
    intros z [<-|[]]. lia.
  - destruct (IH y eq_refl) as [Hy Hmin]. simpl in Hh.
    destruct (key x <=? key y) eqn:C; simpl in Hh; injection Hh as <-.
    + apply Z.leb_le in C. split; [now left|].
      intros z [<-|Hz]; [lia|]. specialize (Hmin z Hz). lia.
    + apply Z.leb_gt in C. split; [now right|].
      intros z [<-|Hz]; [lia|]. now apply Hmin.
Qed.

Lemma filter_length_lt (p p' : A -> bool) (l : list A) (x : A) :
  (forall y, p y = true -> p' y = true) ->
  In x l -> p' x = true -> p x = false ->
  (List.length (filter p l) < List.length (filter p' l))%nat.
Proof.
  intros Hpp'. induction l as [|y l IH]; simpl; intros Hin Hx' Hx; [tauto|].
  assert (Hle : (List.length (filter p l) <= List.length (filter p' l))%nat).
  { clear - Hpp'. induction l as [|z l IH]; simpl; [lia|].
    destruct (p z) eqn:Pz.
    - rewrite (Hpp' z Pz). simpl. lia.
    - destruct (p' z); simpl; lia. }
  destruct Hin as [->|Hin].
  - rewrite Hx', Hx. simpl. lia.
  - specialize (IH Hin Hx' Hx). destruct (p y) eqn:Py.
    + rewrite (Hpp' y Py). simpl. lia.
    + destruct (p' y); simpl; lia.
Qed.

End OrderByFacts.

(** ** The catalogue: [get_first_question], [get_next_question] *)

Lemma get_first_question_some (db : Db) (q : Question) :
  value_of (get_first_question db) = Some q ->
  In q (bot_admin_question db) /\ q_is_active q = true /\
  forall q', In q' (bot_admin_question db) -> q_is_active q' = true ->
             q_order q <= q_order q'.
Proof.
  unfold value_of, get_first_question, returns; simpl. intros H.
  apply fetchone_order_by_least in H. destruct H as [Hin Hmin].
  apply filter_In in Hin. destruct Hin as [Hin Hact]. repeat split; trivial.
  intros q' Hq' Ha'. apply Hmin. apply filter_In. now split.
Qed.

Lemma get_first_question_none (db : Db) :
  value_of (get_first_question db) = None -> active_questions db = [].
Proof.
  unfold value_of, get_first_question, returns; simpl.
  apply fetchone_order_by_none.
Qed.

Lemma get_next_question_some (db : Db) (o : Z) (q : Question) :
  value_of (get_next_question o db) = Some q ->
  In q (bot_admin_question db) /\ q_is_active q = true /\ o < q_order q /\
  forall q', In q' (bot_admin_question db) -> q_is_active q' = true ->
             o < q_order q' -> q_order q <= q_order q'.
Proof.
  unfold value_of, get_next_question, returns; simpl. intros H.
  apply fetchone_order_by_least in H. destruct H as [Hin Hmin].
  apply filter_In in Hin. destruct Hin as [Hin Hc].
  apply andb_true_iff in Hc. destruct Hc as [Hact Hlt]. apply Z.ltb_lt in Hlt.
  repeat split; trivial.
  intros q' Hq' Ha' Hlt'. apply Hmin. apply filter_In. split; [trivial|].
  rewrite Ha'. simpl. now apply Z.ltb_lt.
Qed.

Lemma get_next_question_none (db : Db) (o : Z) :
  value_of (get_next_question o db) = None -> later db o = [].
Proof.
  unfold value_of, get_next_question, returns; simpl.
  apply fetchone_order_by_none.
Qed.

Lemma later_shrinks (db : Db) (o : Z) (q : Question) :
  value_of (get_next_question o db) = Some q ->
  (List.length (later db (q_order q)) < List.length (later db o))%nat.
Proof.
  intros H. apply get_next_question_some in H.
  destruct H as (Hin & Hact & Hlt & _). unfold later.
  apply filter_length_lt with (x := q); trivial.
  - intros y Hy. apply andb_true_iff in Hy. destruct Hy as [Ha Hy].
    apply Z.ltb_lt in Hy. rewrite Ha. simpl. apply Z.ltb_lt. lia.
  - rewrite Hact. simpl. now apply Z.ltb_lt.
  - rewrite Hact. simpl. apply Z.ltb_ge. lia.
Qed.

(** The walk only meets active questions of the table. *)
Lemma traversal_from_active (fuel : nat) (db : Db) (q : Question) :
  In q (bot_admin_question db) -> q_is_active q = true ->
  Forall (fun x => In x (bot_admin_question db) /\ q_is_active x = true)
         (traversal_from fuel db q).
Proof.
  revert q. induction fuel as [|fuel IH]; intros q Hin Hact; simpl.
  - constructor; [now split|constructor].
  - constructor; [now split|].
    destruct (value_of (get_next_question (q_order q) db)) as [next|] eqn:E;
      [|constructor].
    apply get_next_question_some in E. destruct E as (Hn & Ha & _).
    now apply IH.
Qed.

(** The orders met go strictly up, starting from the first one's. *)
Lemma traversal_from_ascending (fuel : nat) (db : Db) (q : Question) :
  StronglySorted Z.lt (map q_order (traversal_from fuel db q)) /\
  Forall (fun o => q_order q <= o) (map q_order (traversal_from fuel db q)).
Proof.
  revert q. induction fuel as [|fuel IH]; intros q; simpl.
  - split; repeat constructor. lia.
  - destruct (value_of (get_next_question (q_order q) db)) as [next|] eqn:E.
    + apply get_next_question_some in E. destruct E as (_ & _ & Hlt & _).
      destruct (IH next) as [Hs Hb]. split.
      * constructor; [exact Hs|]. eapply Forall_impl; [|exact Hb].
        simpl. intros; lia.
      * constructor; [lia|]. eapply Forall_impl; [|exact Hb].
        simpl. intros; lia.
    + split; repeat constructor. lia.
Qed.

(** With fuel for the questions still ahead, no order value is left out. *)
Lemma traversal_from_covers (fuel : nat) (db : Db) (q x : Question) :
  (List.length (later db (q_order q)) <= fuel)%nat ->
  In x (bot_admin_question db) -> q_is_active x = true ->
  q_order q <= q_order x ->
  In (q_order x) (map q_order (traversal_from fuel db q)).
Proof.
  revert q. induction fuel as [|fuel IH]; intros q Hfuel Hx Hact Hle.
  - assert (Hnil : later db (q_order q) = [])
      by (destruct (later db (q_order q)); [reflexivity|simpl in Hfuel; lia]).
    simpl. left. destruct (Z.eq_dec (q_order q) (q_order x)) as [e|ne]; [exact e|].
    exfalso. assert (Hin : In x (later db (q_order q))).
    { apply filter_In. split; [trivial|]. rewrite Hact. simpl.
      apply Z.ltb_lt. lia. }
    rewrite Hnil in Hin. exact Hin.
  - simpl. destruct (Z.eq_dec (q_order q) (q_order x)) as [e|ne]; [now left|].
    right. destruct (value_of (get_next_question (q_order q) db)) as [next|] eqn:E.
    + pose proof (later_shrinks _ _ E) as Hsh.
      apply get_next_question_some in E. destruct E as (_ & _ & _ & Hmin).
      apply IH; trivial; [lia|]. apply Hmin; trivial. lia.
    + exfalso. apply get_next_question_none in E.
      assert (Hin : In x (later db (q_order q))).
      { apply filter_In. split; [trivial|]. rewrite Hact. simpl.
        apply Z.ltb_lt. lia. }
      rewrite E in Hin. exact Hin.
Qed.

Lemma strictly_ascending_NoDup (A : Type) (f : A -> Z) (l : list A) :
  StronglySorted Z.lt (map f l) -> NoDup l.
Proof.
  induction l as [|x l IH]; simpl; intros H; [constructor|].
  inversion H as [|? ? Hs Hall]; subst. constructor; [|now apply IH].
  intros Hin. rewrite Forall_forall in Hall.
  specialize (Hall (f x) (in_map f _ _ Hin)). lia.
Qed.

Lemma NoDup_map_injective (A : Type) (f : A -> Z) (l : list A) (x y : A) :
  NoDup (map f l) -> In x l -> In y l -> f x = f y -> x = y.
Proof.
  induction l as [|z l IH]; simpl; intros Hnd Hx Hy E; [tauto|].
  inversion Hnd as [|? ? Hnot Hnd']; subst.
  destruct Hx as [->|Hx], Hy as [->|Hy]; trivial.
  - exfalso. apply Hnot. rewrite E. now apply in_map.
  - exfalso. apply Hnot. rewrite <- E. now apply in_map.
  - now apply IH.
Qed.

(** C1, as the code has it: [get_next_question(order)] returns an active
    question whose order is strictly greater than its argument, the
    least such; the walk from [get_first_question()] through
    [get_next_question] meets active questions only, in strictly
    ascending order, and meets every order value of an active question
    exactly once.  When no two active questions share an order, it
    visits every active question exactly once. *)
Theorem traversal_visits_each_order_once (db : Db) :
  (forall o q, value_of (get_next_question o db) = Some q ->
     In q (active_questions db) /\ o < q_order q /\
     forall q', In q' (active_questions db) -> o < q_order q' ->
                q_order q <= q_order q') /\
  incl (traversal db) (active_questions db) /\
  StronglySorted Z.lt (map q_order (traversal db)) /\
  (forall q, In q (active_questions db) ->
     In (q_order q) (map q_order (traversal db))) /\
  (NoDup (map q_order (active_questions db)) ->
     Permutation (traversal db) (active_questions db)).
Proof.
  assert (Hincl : incl (traversal db) (active_questions db)).
  { unfold traversal. intros x Hx.
    destruct (value_of (get_first_question db)) as [first|] eqn:E; [|destruct Hx].
    apply get_first_question_some in E. destruct E as (Hin & Hact & _).
    pose proof (traversal_from_active (List.length (bot_admin_question db))
                  db first Hin Hact) as Hall.
    rewrite Forall_forall in Hall. apply filter_In. now apply Hall. }
  assert (Hsorted : StronglySorted Z.lt (map q_order (traversal db))).
  { unfold traversal.
    destruct (value_of (get_first_question db)) as [first|]; [|constructor].
    apply traversal_from_ascending. }
  assert (Hcover : forall q, In q (active_questions db) ->
                     In (q_order q) (map q_order (traversal db))).
  { intros q Hq. apply filter_In in Hq. destruct Hq as [Hin Hact].
    unfold traversal.
    destruct (value_of (get_first_question db)) as [first|] eqn:E.
    - apply get_first_question_some in E. destruct E as (_ & _ & Hmin).
      apply traversal_from_covers; trivial; [|now apply Hmin].
      apply filter_length_le.
    - apply get_first_question_none in E.
      assert (Hq : In q (active_questions db)) by (apply filter_In; now split).
      rewrite E in Hq. destruct Hq. }
  repeat split; trivial.
  - apply get_next_question_some in H. apply filter_In. tauto.
  - apply get_next_question_some in H. tauto.
  - intros q' Hq' Hlt. apply get_next_question_some in H.
    apply filter_In in Hq'. destruct Hq'. now apply H.
  - intros Hnd. apply NoDup_Permutation.
    + now apply strictly_ascending_NoDup with (f := q_order).
    + now apply NoDup_map_inv with (f := q_order).
    + intros x. split; [apply Hincl|]. intros Hx.
      destruct (proj1 (in_map_iff _ _ _) (Hcover x Hx)) as (t & Ht & Hin).
      assert (t = x) as <-; [|exact Hin].
      eapply NoDup_map_injective; eauto.
Qed.

Lemma traversal_visits_each_order_once_witness :
  value_of (get_next_question 10 catalogue_db)
    = Some (sample_question 1 20 "photo" (Some "passport_main") true) /\
  map q_id (traversal catalogue_db) = [2; 1; 4] /\
  Permutation (traversal catalogue_db) (active_questions catalogue_db).
Proof.
  split; [reflexivity|]. split; [reflexivity|].
  apply (traversal_visits_each_order_once catalogue_db). vm_compute.
  repeat constructor; simpl; intuition discriminate.
Defined.

(** C1 as written fails on a tie: of two active questions that share an
    order, whichever the first query returns, the other one is never
    visited. *)
Lemma traversal_skips_tied_question :
  (In tie_second (active_questions (tie_db [tie_first; tie_second])) /\
   ~ In tie_second (traversal (tie_db [tie_first; tie_second]))) /\
  (In tie_first (active_questions (tie_db [tie_second; tie_first])) /\
   ~ In tie_first (traversal (tie_db [tie_second; tie_first]))).
Proof.
  repeat split; vm_compute; try tauto; intros [H|[]]; discriminate H.
Qed.

(** ** The response log: [save_response] *)

Lemma filter_update_where (A : Type) (cond : A -> bool) (set : A -> A)
    (rows : list A) :
  (forall r, cond (set r) = cond r) ->
  filter cond (update_where cond set rows) = map set (filter cond rows).
Proof.
  intros Hc. induction rows as [|r rows IH]; simpl; [reflexivity|].
  destruct (cond r) eqn:E.
  - rewrite Hc, E. simpl. now rewrite IH.
  - rewrite E. exact IH.
Qed.

Lemma fetchone_none (A : Type) (rows : list A) : fetchone rows = None -> rows = [].
Proof. destruct rows; [reflexivity|discriminate]. Qed.

(** After one call every row of the pair holds exactly what was passed,
    and there is such a row. *)
Lemma save_response_rows (now user_id question_id : Z)
    (text_answer photo_path : option string) (db : Db) :
  let db' := snd (save_response now user_id question_id text_answer photo_path db) in
  responses_of user_id question_id db' <> [] /\
  List.length (responses_of user_id question_id db')
    = Nat.max 1 (List.length (responses_of user_id question_id db)) /\
  forall r, In r (responses_of user_id question_id db') ->
    r_text_answer r = text_answer /\ r_photo r = photo_path /\
    r_updated_at r = now.
Proof.
  unfold responses_of, save_response.
  destruct (fetchone (filter (response_of user_id question_id)
                             (bot_admin_userresponse db))) as [r0|] eqn:E; simpl.
  - rewrite filter_update_where by reflexivity.
    destruct (filter (response_of user_id question_id)
                     (bot_admin_userresponse db)) as [|r1 rest];
      [discriminate|].
    split; [discriminate|]. split; [simpl; now rewrite length_map|].
    intros r Hr. apply in_map_iff in Hr. destruct Hr as (r' & <- & _).
    simpl. auto.
  - apply fetchone_none in E. rewrite filter_app, E. cbn [filter app].
    assert (Hnew : forall id, response_of user_id question_id
              (mkUserResponse id user_id question_id text_answer photo_path
                 now now) = true)
      by (intros id; unfold response_of; simpl; now rewrite !Z.eqb_refl).
    rewrite Hnew. split; [discriminate|]. split; [reflexivity|].
    intros r [<-|[]]. simpl. auto.
Qed.

Lemma save_responses_snoc (user_id question_id : Z) (calls : list Saving)
    (c : Saving) (db : Db) :
  save_responses user_id question_id (calls ++ [c]) db
  = save_responses user_id question_id [c]
      (save_responses user_id question_id calls db).
Proof. unfold save_responses. now rewrite fold_left_app. Qed.

Lemma save_responses_unique (user_id question_id : Z) (calls : list Saving)
    (db : Db) :
  (List.length (responses_of user_id question_id db) <= 1)%nat ->
  (List.length (responses_of user_id question_id
                  (save_responses user_id question_id calls db)) <= 1)%nat.
Proof.
  revert db. induction calls as [|[[now t] p] calls IH]; intros db H; simpl;
    [exact H|].
  apply IH.
  destruct (save_response_rows now user_id question_id t p db) as (_ & L & _).
  rewrite L. lia.
Qed.

(** C4: the table has at most one row per (applicant, question), as
    [unique_together] demands.  Then after any number of answers to one
    question, the last of them [(now, text_answer, photo_path)], the
    pair has exactly one row, and the row holds the last answer and was
    updated at its time. *)
Theorem save_response_upsert (db : Db) (user_id question_id : Z)
    (earlier : list Saving) (now : Z) (text_answer photo_path : option string) :
  (List.length (responses_of user_id question_id db) <= 1)%nat ->
  exists r,
    responses_of user_id question_id
      (save_responses user_id question_id
         (earlier ++ [(now, text_answer, photo_path)]) db) = [r] /\
    r_text_answer r = text_answer /\ r_photo r = photo_path /\
    r_updated_at r = now.
Proof.
  intros Huniq. rewrite save_responses_snoc. simpl.
  pose proof (save_responses_unique user_id question_id earlier db Huniq) as H1.
  destruct (save_response_rows now user_id question_id text_answer photo_path
              (save_responses user_id question_id earlier db)) as (Hne & L & Hrows).
  destruct (responses_of user_id question_id
              (snd (save_response now user_id question_id text_answer photo_path
                      (save_responses user_id question_id earlier db))))
    as [|r [|r' rest]] eqn:E.
  - now destruct Hne.
  - exists r. split; [reflexivity|]. apply Hrows. now left.
  - cbn [List.length] in L. lia.
Qed.

Lemma save_response_upsert_witness :
  exists r,
    responses_of 7 3
      (save_responses 7 3 [(200, Some "first", None); (300, Some "second", None)]
         answered_db) = [r] /\
    r_text_answer r = Some "second" /\ r_photo r = None /\ r_updated_at r = 300.
Proof.
  apply (save_response_upsert answered_db 7 3 [(200, Some "first", None)] 300
           (Some "second") None).
  vm_compute. constructor.
Defined.

(** A row of the pair that is there is rewritten in place: it keeps its
    id and its creation time and takes the answer and the time of the
    call. *)
Lemma save_response_existing (now user_id question_id : Z)
    (text_answer photo_path : option string) (db : Db) (old : UserResponse) :
  In old (responses_of user_id question_id db) ->
  In (mkUserResponse (r_id old) user_id question_id text_answer photo_path
        (r_created_at old) now)
     (responses_of user_id question_id
        (snd (save_response now user_id question_id text_answer photo_path db))).
Proof.
  unfold responses_of, save_response. intros Hold.
  destruct (fetchone (filter (response_of user_id question_id)
                             (bot_admin_userresponse db))) as [r0|] eqn:E.
  - simpl. rewrite filter_update_where by reflexivity.
    apply in_map_iff. exists old. split; [|exact Hold].
    apply filter_In in Hold. destruct Hold as [_ Hpair].
    unfold response_of in Hpair. apply andb_true_iff in Hpair.
    destruct Hpair as [Hu Hq]. apply Z.eqb_eq in Hu, Hq. now rewrite Hu, Hq.
  - apply fetchone_none in E. rewrite E in Hold. destruct Hold.
Qed.

Lemma save_responses_existing (user_id question_id : Z) (calls : list Saving)
    (db : Db) (old : UserResponse) :
  In old (responses_of user_id question_id db) ->
  exists r,
    In r (responses_of user_id question_id
            (save_responses user_id question_id calls db)) /\
    r_id r = r_id old /\ r_created_at r = r_created_at old.
Proof.
  revert db old. induction calls as [|[[now t] p] calls IH]; intros db old H.
  - exists old. auto.
  - simpl.
    destruct (IH _ _ (save_response_existing now user_id question_id t p db old H))
      as (r & Hr & Hid & Hcreated).
    exists r. auto.
Qed.

(** C10: a new answer replaces the old one's modality.  After
    [save_response] with a text only the pair has a row; a row of the
    pair that was there before is still there, with its id and creation
    time, and now holds that text and no photo, whatever it held; and
    every row of the pair holds that text and no photo.  With a photo
    only: that photo and no text.  So after any non-empty run of calls
    that each supply exactly one of the two, the pair has a row, each
    row it had is still there under its id, and no row of the pair holds
    both a text and a photo. *)
Theorem reanswer_replaces_modality (db : Db) (user_id question_id : Z) :
  (forall now t,
     responses_of user_id question_id
       (snd (save_response now user_id question_id (Some t) None db)) <> [] /\
     (forall old,
        In old (responses_of user_id question_id db) ->
        In (mkUserResponse (r_id old) user_id question_id (Some t) None
              (r_created_at old) now)
           (responses_of user_id question_id
              (snd (save_response now user_id question_id (Some t) None db)))) /\
     (forall r,
        In r (responses_of user_id question_id
                (snd (save_response now user_id question_id (Some t) None db))) ->
        r_text_answer r = Some t /\ r_photo r = None)) /\
  (forall now p,
     responses_of user_id question_id
       (snd (save_response now user_id question_id None (Some p) db)) <> [] /\
     (forall old,
        In old (responses_of user_id question_id db) ->
        In (mkUserResponse (r_id old) user_id question_id None (Some p)
              (r_created_at old) now)
           (responses_of user_id question_id
              (snd (save_response now user_id question_id None (Some p) db)))) /\
     (forall r,
        In r (responses_of user_id question_id
                (snd (save_response now user_id question_id None (Some p) db))) ->
        r_text_answer r = None /\ r_photo r = Some p)) /\
  (forall calls, calls <> [] -> Forall one_modality calls ->
     responses_of user_id question_id
       (save_responses user_id question_id calls db) <> [] /\
     (forall old,
        In old (responses_of user_id question_id db) ->
        exists r,
          In r (responses_of user_id question_id
                  (save_responses user_id question_id calls db)) /\
          r_id r = r_id old /\ r_created_at r = r_created_at old) /\
     (forall r,
        In r (responses_of user_id question_id
                (save_responses user_id question_id calls db)) ->
        r_text_answer r = None \/ r_photo r = None)).
Proof.
  split; [|split].
  - intros now t.
    destruct (save_response_rows now user_id question_id (Some t) None db)
      as (Hne & _ & H).
    split; [exact Hne|]. split.
    + intros old Hold. now apply save_response_existing.
    + intros r Hr. destruct (H r Hr) as (? & ? & _). now split.
  - intros now p.
    destruct (save_response_rows now user_id question_id None (Some p) db)
      as (Hne & _ & H).
    split; [exact Hne|]. split.
    + intros old Hold. now apply save_response_existing.
    + intros r Hr. destruct (H r Hr) as (? & ? & _). now split.
  - intros calls Hne Hall.
    split; [|split].
    + destruct (exists_last Hne) as (earlier & [[now t] p] & ->).
      rewrite save_responses_snoc. simpl.
      exact (proj1 (save_response_rows now user_id question_id t p
                      (save_responses user_id question_id earlier db))).
    + intros old Hold. now apply save_responses_existing.
    + intros r Hr.
      destruct (exists_last Hne) as (earlier & [[now t] p] & ->).
      rewrite save_responses_snoc in Hr. simpl in Hr.
      destruct (save_response_rows now user_id question_id t p
                  (save_responses user_id question_id earlier db)) as (_ & _ & H).
      destruct (H r Hr) as (Ht & Hp & _).
      apply Forall_app in Hall. destruct Hall as [_ Hlast].
      apply Forall_inv in Hlast. simpl in Hlast.
      destruct t, p; try contradiction; rewrite ?Ht, ?Hp; auto.
Qed.

Lemma reanswer_replaces_modality_witness :
  responses_of 7 4 answered_db
    = [mkUserResponse 2 7 4 None (Some "applications/snils/7.jpg") 101 101] /\
  In (mkUserResponse 2 7 4 (Some "нет") None 101 200)
     (responses_of 7 4 (snd (save_response 200 7 4 (Some "нет") None answered_db))) /\
  responses_of 7 4
    (save_responses 7 4 [(200, Some "нет", None); (300, None, Some "p.jpg");
                         (400, Some "да", None)] answered_db) <> [] /\
  Forall (fun r => r_text_answer r = None \/ r_photo r = None)
    (responses_of 7 4
       (save_responses 7 4 [(200, Some "нет", None); (300, None, Some "p.jpg");
                            (400, Some "да", None)] answered_db)).
Proof.
  split; [reflexivity|]. split; [|split].
  - apply (proj1 (proj2 (proj1 (reanswer_replaces_modality answered_db 7 4)
                           200 "нет"))
             (mkUserResponse 2 7 4 None (Some "applications/snils/7.jpg") 101 101)).
    left. reflexivity.
  - apply (proj1 (proj2 (proj2 (reanswer_replaces_modality answered_db 7 4))
                    [(200, Some "нет", None); (300, None, Some "p.jpg");
                     (400, Some "да", None)]
                    ltac:(discriminate) ltac:(repeat constructor))).
  - apply Forall_forall.
    apply (proj2 (proj2 (proj2 (proj2 (reanswer_replaces_modality answered_db 7 4))
                    [(200, Some "нет", None); (300, None, Some "p.jpg");
                     (400, Some "да", None)]
                    ltac:(discriminate) ltac:(repeat constructor)))).
Defined.

(** ** Running handlers *)

(** A transaction either meets the injected failure, and then nothing
    changes, or runs the database function on the committed state. *)
Lemma call_cases (A : Type) (op : DbOp A) (db : Db)
    (st : option RegistrationStates) (d : StateData) (out : list Outbound)
    (files : list string) (faults : option nat) :
  (faults = Some O /\
   call op (mkWorld db st d out files faults)
   = (inl StorageFailure, mkWorld db st d out files faults)) \/
  (exists faults',
     (faults <> Some O /\ (faults = None -> faults' = None)) /\
     call op (mkWorld db st d out files faults)
     = (fst (op db), mkWorld (snd (op db)) st d out files faults')).
Proof.
  unfold call; simpl. destruct faults as [[|n]|].
  - left. now split.
  - right. exists (Some n). split; [split; discriminate|]. now destruct (op db).
  - right. exists None. split; [split; [discriminate|reflexivity]|].
    now destruct (op db).
Qed.

(** Splits on the next transaction of the handler in the goal. *)
Ltac next_call faults' Hfaults :=
  match goal with
  | |- context [call ?op (mkWorld ?db ?st ?d ?out ?files ?faults)] =>
      let E := fresh "E" in
      destruct (call_cases op db st d out files faults)
        as [[-> E] | (faults' & Hfaults & E)];
      rewrite E; clear E
  end.

(** C3: the applicant is on question [question_id], a photo question.
    A text answer changes neither the database nor the session; unless
    the one read it makes fails, the only message sent is the request to
    send a photo. *)
Theorem text_for_photo_question_is_rejected (now : Z) (message : Message)
    (w : World) (question_id : Z) (question : Question) :
  current_question_id (w_data w) = Some question_id ->
  question_id <> 0 ->
  value_of (get_question_by_id (Some question_id) (w_db w)) = Some question ->
  q_question_type question = "photo" ->
  w_db (snd (process_text_answer now message w)) = w_db w /\
  w_state (snd (process_text_answer now message w)) = w_state w /\
  w_data (snd (process_text_answer now message w)) = w_data w /\
  (w_faults w <> Some O ->
   fst (process_text_answer now message w) = inr tt /\
   w_out (snd (process_text_answer now message w))
   = (w_out w ++ [Answer SEND_PHOTO_MESSAGE None])%list) /\
  (w_faults w = Some O ->
   fst (process_text_answer now message w) = inl StorageFailure /\
   w_out (snd (process_text_answer now message w)) = w_out w).
Proof.
  destruct w as [db st d out files faults]; simpl.
  intros Hid Hnz Hq Hphoto.
  unfold process_text_answer, bind, get_data; simpl. rewrite Hid.
  unfold truthy_id. destruct (question_id =? 0) eqn:Z0;
    [apply Z.eqb_eq in Z0; contradiction|].
  next_call faults' Hfaults; simpl.
  - repeat split; trivial; congruence.
  - unfold value_of in Hq. simpl in Hq. rewrite Hq, Hphoto. simpl.
    destruct Hfaults as [Hdue _]. repeat split; trivial; congruence.
Qed.

Lemma text_for_photo_question_is_rejected_witness :
  w_db (snd (process_text_answer 70 (text_message "Иван Иванов")
               (on_question scenario_questions 2 2 None)))
  = scenario_db scenario_questions (Some 2) /\
  w_out (snd (process_text_answer 70 (text_message "Иван Иванов")
                (on_question scenario_questions 2 2 None)))
  = [Answer SEND_PHOTO_MESSAGE None].
Proof.
  pose proof (text_for_photo_question_is_rejected 70
                (text_message "Иван Иванов")
                (on_question scenario_questions 2 2 None)
                (question_id := 2)
                (question := mkQuestion 2 2 "photo" "Паспорт" None None
                               (Some "passport_main") true true)
                eq_refl) as H.
  destruct H as (Hdb & _ & _ & Hout & _);
    [discriminate|reflexivity|reflexivity|].
  split; [exact Hdb|]. apply Hout. discriminate.
Defined.

(** ** Frames of the database functions *)

Lemma get_or_create_application_frame (now user_id : Z) (db : Db) :
  (exists app, fst (get_or_create_application now user_id db) = inr app) /\
  bot_admin_question (snd (get_or_create_application now user_id db))
  = bot_admin_question db /\
  bot_admin_userprofile (snd (get_or_create_application now user_id db))
  = bot_admin_userprofile db /\
  bot_admin_userresponse (snd (get_or_create_application now user_id db))
  = bot_admin_userresponse db.
Proof.
  unfold get_or_create_application.
  destruct (fetchone _) as [app|]; simpl; eauto 6.
Qed.

Lemma update_application_frame (now user_id : Z) (kwargs : list (string * Value))
    (db : Db) :
  set_clause set_staffapplication_column kwargs <> None ->
  (exists r, fst (update_application now user_id kwargs db) = inr r) /\
  bot_admin_question (snd (update_application now user_id kwargs db))
  = bot_admin_question db /\
  bot_admin_userprofile (snd (update_application now user_id kwargs db))
  = bot_admin_userprofile db /\
  bot_admin_userresponse (snd (update_application now user_id kwargs db))
  = bot_admin_userresponse db.
Proof.
  unfold update_application. intros H.
  destruct (set_clause set_staffapplication_column kwargs) as [set|];
    [|now destruct H].
  simpl. eauto 6.
Qed.

Lemma complete_application_frame (now user_id : Z) (db : Db) :
  (exists r, fst (complete_application now user_id db) = inr r) /\
  bot_admin_question (snd (complete_application now user_id db))
  = bot_admin_question db /\
  bot_admin_userprofile (snd (complete_application now user_id db))
  = bot_admin_userprofile db /\
  bot_admin_userresponse (snd (complete_application now user_id db))
  = bot_admin_userresponse db.
Proof. unfold complete_application. simpl. eauto 6. Qed.

Lemma get_first_question_ext (db db' : Db) :
  bot_admin_question db' = bot_admin_question db ->
  get_first_question db' = (inr (value_of (get_first_question db)), db').
Proof. unfold get_first_question, value_of, returns. simpl. now intros ->. Qed.

Lemma get_next_question_ext (o : Z) (db db' : Db) :
  bot_admin_question db' = bot_admin_question db ->
  get_next_question o db' = (inr (value_of (get_next_question o db)), db').
Proof. unfold get_next_question, value_of, returns. simpl. now intros ->. Qed.

Lemma get_user_ext (telegram_id : Z) (db db' : Db) :
  bot_admin_userprofile db' = bot_admin_userprofile db ->
  get_user telegram_id db' = (inr (value_of (get_user telegram_id db)), db').
Proof. unfold get_user, value_of, returns. simpl. now intros ->. Qed.

(** ** [/start] after completion *)

(** C8: the applicant's profile exists and says the registration is
    complete.  [/start] then leaves the whole database as it was (the
    profile, every response, the application), opens no state of the
    flow, and sends the already-completed message only. *)
Theorem start_after_completion_changes_nothing (now : Z) (message : Message)
    (w : World) (user : UserProfile) :
  value_of (get_user (from_user_id message) (w_db w)) = Some user ->
  u_is_registration_complete user = true ->
  w_db (snd (cmd_start now message w)) = w_db w /\
  w_state (snd (cmd_start now message w)) = None /\
  (w_faults w <> Some O ->
   fst (cmd_start now message w) = inr tt /\
   w_out (snd (cmd_start now message w))
   = (w_out w ++ [Answer ALREADY_COMPLETED_MESSAGE None])%list) /\
  (w_faults w = Some O ->
   fst (cmd_start now message w) = inl StorageFailure /\
   w_out (snd (cmd_start now message w)) = w_out w).
Proof.
  destruct w as [db st d out files faults]; simpl.
  unfold value_of, get_user, returns; simpl. intros Huser Hdone.
  unfold cmd_start, bind, clear; simpl.
  next_call faults' Hfaults; simpl.
  - repeat split; trivial; congruence.
  - unfold get_or_create_user. rewrite Huser. simpl. rewrite Hdone. simpl.
    destruct Hfaults as [Hdue _]. repeat split; trivial; congruence.
Qed.

Lemma start_after_completion_changes_nothing_witness :
  w_db (snd (cmd_start 100 (text_message "/start") completed_world))
  = w_db completed_world /\
  w_state (snd (cmd_start 100 (text_message "/start") completed_world)) = None /\
  w_out (snd (cmd_start 100 (text_message "/start") completed_world))
  = [Answer ALREADY_COMPLETED_MESSAGE None].
Proof.
  destruct (start_after_completion_changes_nothing 100 (text_message "/start")
              completed_world (user := applicant None true) eq_refl eq_refl)
    as (Hdb & Hst & Hout & _).
  split; [exact Hdb|]. split; [exact Hst|]. apply Hout. discriminate.
Defined.

(** ** A position given while the catalogue is empty *)

(** C9: the applicant is asked for a position and there is no active
    question.  Whatever happens, the session does not enter
    [answering_questions] and no profile changes, so
    [is_registration_complete] stays as it was; unless a transaction
    fails, the handler ends the session after the mission text and the
    message that there are no questions. *)
Theorem no_questions_ends_session (now : Z) (message : Message) (w : World) :
  w_state w = Some asking_position ->
  value_of (get_first_question (w_db w)) = None ->
  w_state (snd (process_position now message w)) <> Some answering_questions /\
  bot_admin_userprofile (w_db (snd (process_position now message w)))
  = bot_admin_userprofile (w_db w) /\
  (w_faults w = None ->
   fst (process_position now message w) = inr tt /\
   w_state (snd (process_position now message w)) = None /\
   w_out (snd (process_position now message w))
   = (w_out w ++ [Answer MISSION_MESSAGE None;
                  Answer NO_QUESTIONS_MESSAGE None])%list).
Proof.
  destruct w as [db st d out files faults]; simpl. intros -> Hnone.
  unfold process_position, bind.
  next_call f1 H1; simpl; [repeat split; intuition congruence|].
  destruct (fetchone _) as [u|].
  - next_call f2 H2; simpl; [repeat split; intuition congruence|].
    destruct (get_or_create_application_frame now (u_id u) db)
      as ((app & ->) & Hq1 & Hu1 & _).
    set (db1 := snd (get_or_create_application now (u_id u) db)) in *.
    next_call f3 H3; simpl; [repeat split; intuition congruence|].
    destruct (update_application_frame now (u_id u)
                [("position", value_of_str (msg_text message))] db1)
      as ((r & ->) & Hq2 & Hu2 & _); [now destruct (msg_text message)|].
    set (db2 := snd (update_application _ _ _ db1)) in *.
    simpl.
    next_call f4 H4; simpl; [repeat split; intuition congruence|].
    unfold value_of in Hnone. simpl in Hnone.
    rewrite Hq2, Hq1, Hnone. simpl. rewrite <- app_assoc. simpl.
    repeat split; intuition congruence.
  - simpl. next_call f4 H4; simpl; [repeat split; intuition congruence|].
    unfold value_of in Hnone. simpl in Hnone. rewrite Hnone. simpl.
    rewrite <- app_assoc. repeat split; intuition congruence.
Qed.

Lemma no_questions_ends_session_witness :
  fst (process_position 70 (text_message "повар") (giving_position [])) = inr tt /\
  w_state (snd (process_position 70 (text_message "повар") (giving_position [])))
  = None /\
  bot_admin_userprofile
    (w_db (snd (process_position 70 (text_message "повар") (giving_position []))))
  = [applicant None false] /\
  w_out (snd (process_position 70 (text_message "повар") (giving_position [])))
  = [Answer MISSION_MESSAGE None; Answer NO_QUESTIONS_MESSAGE None].
Proof.
  destruct (no_questions_ends_session 70 (text_message "повар")
              (giving_position []) eq_refl eq_refl) as (_ & Husers & Hrun).
  destruct (Hrun eq_refl) as (Hok & Hst & Hout).
  repeat split; assumption.
Defined.

(** ** The steps of an accepted answer *)

Lemma save_response_frame (now user_id question_id : Z)
    (text_answer photo_path : option string) (db : Db) :
  fst (save_response now user_id question_id text_answer photo_path db) = inr tt /\
  bot_admin_question (saved now user_id question_id text_answer photo_path db)
  = bot_admin_question db /\
  bot_admin_userprofile (saved now user_id question_id text_answer photo_path db)
  = bot_admin_userprofile db /\
  bot_admin_staffapplication (saved now user_id question_id text_answer photo_path db)
  = bot_admin_staffapplication db.
Proof.
  unfold saved, save_response. destruct (fetchone _); simpl; auto.
Qed.

Lemma mapped_frame (now user_id : Z) (field_name value : option string) (db : Db) :
  bot_admin_question (mapped now user_id field_name value db)
  = bot_admin_question db /\
  bot_admin_userprofile (mapped now user_id field_name value db)
  = bot_admin_userprofile db /\
  bot_admin_userresponse (mapped now user_id field_name value db)
  = bot_admin_userresponse db.
Proof.
  unfold mapped. destruct field_name as [[|c name]|]; auto.
  destruct (existsb _ valid_fields); auto.
  unfold update_application.
  destruct (set_clause _ _); simpl; auto.
Qed.

(** A field name on the list is a column of the application table. *)
Lemma valid_field_is_column (name : string) (value : option string) :
  existsb (String.eqb name) valid_fields = true ->
  set_clause set_staffapplication_column [(name, value_of_str value)] <> None.
Proof.
  intros H. simpl.
  assert (Hcol : existsb (String.eqb name) staffapplication_text_columns = true).
  { simpl in *. destruct (String.eqb name "position"); [reflexivity|exact H]. }
  unfold set_staffapplication_column. rewrite Hcol.
  destruct value; simpl; [destruct (String.eqb name "status")|]; discriminate.
Qed.

(** [save_to_application] is one transaction when the field is on the
    list, and nothing otherwise. *)
Lemma save_to_application_run (now user_id : Z) (field_name value : option string)
    (db : Db) (st : option RegistrationStates) (d : StateData)
    (out : list Outbound) (files : list string) (faults : option nat) :
  (faults = Some O /\
   save_to_application now user_id field_name value
     (mkWorld db st d out files faults)
   = (inl StorageFailure, mkWorld db st d out files faults)) \/
  (exists faults',
     (faults = None -> faults' = None) /\
     save_to_application now user_id field_name value
       (mkWorld db st d out files faults)
     = (inr tt, mkWorld (mapped now user_id field_name value db) st d out files
                  faults')).
Proof.
  unfold save_to_application, mapped.
  destruct field_name as [[|c name]|];
    try (right; exists faults; split; [trivial|reflexivity]).
  destruct (existsb _ valid_fields) eqn:V;
    [|right; exists faults; split; [trivial|reflexivity]].
  unfold bind. next_call faults' Hfaults.
  - left. now split.
  - right. exists faults'. split; [apply Hfaults|].
    destruct (update_application_frame now user_id
                [(String c name, value_of_str value)] db
                (valid_field_is_column _ value V)) as ((r & ->) & _).
    reflexivity.
Qed.

Lemma send_question_run (question : Question) (db : Db)
    (st : option RegistrationStates) (d : StateData) (out : list Outbound)
    (files : list string) (faults : option nat) :
  exists o,
    send_question question (mkWorld db st d out files faults)
    = (inr tt, mkWorld db st d (out ++ [o]) files faults).
Proof.
  unfold send_question, bind, path_exists, send; simpl.
  destruct (PyStr.truthy (q_image question)); simpl;
    [destruct (existsb _ files)|];
    destruct (String.eqb (q_question_type question) "choice"
              && PyStr.truthy (q_choices question));
    try destruct (String.eqb (q_question_type question) "info");
    simpl; eauto.
Qed.

(** The update that ends the flow finds the applicant's profile, marks
    it complete and clears the current question. *)
Lemma update_user_completes (now telegram_id : Z) (db : Db) (user : UserProfile) :
  value_of (get_user telegram_id db) = Some user ->
  exists user',
    fst (update_user now telegram_id completion_kwargs db) = inr user' /\
    value_of (get_user telegram_id
                (snd (update_user now telegram_id completion_kwargs db)))
    = Some user' /\
    u_id user' = u_id user /\
    u_is_registration_complete user' = true /\
    u_current_question_id user' = None /\
    bot_admin_question (snd (update_user now telegram_id completion_kwargs db))
    = bot_admin_question db /\
    bot_admin_userresponse (snd (update_user now telegram_id completion_kwargs db))
    = bot_admin_userresponse db /\
    bot_admin_staffapplication
      (snd (update_user now telegram_id completion_kwargs db))
    = bot_admin_staffapplication db.
Proof.
  unfold value_of, get_user, returns; simpl. intros Huser.
  unfold update_user; simpl.
  rewrite filter_update_where by reflexivity.
  destruct (filter _ (bot_admin_userprofile db)) as [|u0 rest] eqn:F;
    [discriminate|].
  simpl in Huser. injection Huser as ->. simpl.
  rewrite filter_update_where by reflexivity. rewrite F. simpl.
  eexists. repeat split.
Qed.

Ltac reduce_pairs :=
  cbn beta iota zeta delta [fst snd w_db w_state w_data w_out w_files w_faults].

(** Closes [faults <> None] in a branch where a transaction failed. *)
Ltac had_fault :=
  let H := fresh "Hnone" in
  intros H;
  repeat match goal with
         | Hc : _ /\ (?a = None -> ?b = None), Ha : ?a = None |- _ =>
             destruct Hc as [_ Hc]; specialize (Hc Ha)
         end;
  discriminate.

(** Closes [faults = None -> faults' = None] after a run of transactions. *)
Ltac no_fault :=
  let H := fresh "Hnone" in
  intros H;
  repeat match goal with
         | Hc : _ /\ (?a = None -> ?b = None), Ha : ?a = None |- _ =>
             destruct Hc as [_ Hc]; specialize (Hc Ha)
         end;
  assumption.

(** [move_to_next_question] for an applicant whose profile exists: it
    either fails at a transaction, before any write or between the two
    writes of the completion, or runs through. *)
Lemma move_to_next_question_run (now : Z) (message : Message)
    (question : Question) (from_user : option Z) (db : Db)
    (st : option RegistrationStates) (d : StateData) (out : list Outbound)
    (files : list string) (faults : option nat) (user : UserProfile) :
  value_of (get_user (sender message from_user) db) = Some user ->
  forall r w',
    move_to_next_question now message question from_user
      (mkWorld db st d out files faults) = (r, w') ->
    forall next, next = value_of (get_next_question (q_order question) db) ->
    (r = inl StorageFailure /\ faults <> None /\
     w_state w' = st /\ w_data w' = d /\
     (w_db w' = db \/
      (next = None /\
       w_db w' = advanced now (sender message from_user) next db))) \/
    (r = inr tt /\
     w_db w' = finished now (u_id user) next
                 (advanced now (sender message from_user) next db) /\
     match next with
     | Some q => w_state w' = st /\ current_question_id (w_data w') = Some (q_id q)
     | None =>
         w_state w' = None /\ w_data w' = no_data /\
         w_out w' = (out ++ [Answer COMPLETION_MESSAGE None])%list
     end /\
     (faults = None -> w_faults w' = None)).
Proof.
  intros Huser r w' Hrun next ->. revert Hrun.
  unfold move_to_next_question, bind. fold (sender message from_user).
  set (tid := sender message from_user) in *.
  next_call f1 H1; reduce_pairs.
  { intros [= <- <-]. left. simpl. repeat split; auto. had_fault. }
  change (get_next_question (q_order question) db)
    with (@inr Exn _ (value_of (get_next_question (q_order question) db)), db).
  reduce_pairs.
  destruct (value_of (get_next_question (q_order question) db)) as [next|].
  - destruct (field_is question "full_name"), (field_is next "snils");
      unfold send, ret; reduce_pairs; simpl w_db; simpl w_state; simpl w_data;
      simpl w_out; simpl w_files; simpl w_faults;
      (next_call f2 H2; reduce_pairs;
       [ intros [= <- <-]; left; simpl; repeat split; auto; had_fault
       | unfold set_current_question at 1, returns; reduce_pairs;
         unfold update_data; reduce_pairs;
         match goal with
         | |- context [send_question next (mkWorld ?a ?b ?c ?o ?e ?f)] =>
             destruct (send_question_run next a b c o e f) as (msg & ->)
         end;
         intros [= <- <-]; right; simpl; repeat split; try reflexivity;
         no_fault ]).
  - destruct (update_user_completes now tid db Huser)
      as (user' & Hup & Hget & Hid & _ & _ & _).
    change [("is_registration_complete", VBool true);
            ("current_question_id", VNull)] with completion_kwargs.
    next_call f2 H2; reduce_pairs.
    { intros [= <- <-]. left. simpl. repeat split; auto. had_fault. }
    rewrite Hup. reduce_pairs.
    next_call f3 H3; reduce_pairs.
    { intros [= <- <-]. left. simpl. repeat split; auto. had_fault. }
    change (get_user tid (snd (update_user now tid completion_kwargs db)))
      with (@inr Exn _ (value_of (get_user tid
                          (snd (update_user now tid completion_kwargs db)))),
            snd (update_user now tid completion_kwargs db)).
    rewrite Hget. reduce_pairs. rewrite Hid.
    next_call f4 H4; reduce_pairs.
    { intros [= <- <-]. left. simpl. repeat split; auto. had_fault. }
    unfold complete_application at 1, returns; reduce_pairs.
    unfold send, clear; reduce_pairs.
    intros [= <- <-]. right. simpl. repeat split; try reflexivity. no_fault.
Qed.

(** An accepted text answer: where the handler can stop, and what is
    committed by then. *)
Lemma process_text_answer_run (now : Z) (message : Message) (db : Db)
    (st : option RegistrationStates) (d : StateData) (out : list Outbound)
    (files : list string) (faults : option nat) (question_id : Z)
    (question : Question) (user : UserProfile) (t : string) :
  current_question_id d = Some question_id ->
  question_id <> 0 ->
  value_of (get_question_by_id (Some question_id) db) = Some question ->
  String.eqb (q_question_type question) "photo" = false ->
  value_of (get_user (from_user_id message) db) = Some user ->
  msg_text message = Some t ->
  forall r w',
    process_text_answer now message (mkWorld db st d out files faults) = (r, w') ->
    forall db1 db2 next,
      db1 = saved now (u_id user) question_id (Some t) None db ->
      db2 = mapped now (u_id user) (q_field_name question) (Some t) db1 ->
      next = value_of (get_next_question (q_order question) db) ->
      (r = inl StorageFailure /\ faults <> None /\
       w_state w' = st /\ w_data w' = d /\
       (w_db w' = db \/ w_db w' = db1 \/ w_db w' = db2 \/
        (next = None /\
         w_db w' = advanced now (from_user_id message) next db2))) \/
      (r = inr tt /\
       w_db w' = finished now (u_id user) next
                   (advanced now (from_user_id message) next db2) /\
       match next with
       | Some q =>
           w_state w' = st /\ current_question_id (w_data w') = Some (q_id q)
       | None =>
           w_state w' = None /\ w_data w' = no_data /\
           w_out w' = (out ++ [Answer COMPLETION_MESSAGE None])%list
       end).
Proof.
  intros Hid Hnz Hq Htype Huser Htext r w' Hrun db1 db2 next -> -> ->.
  revert Hrun. unfold process_text_answer, bind, get_data. reduce_pairs.
  rewrite Hid. unfold truthy_id.
  destruct (question_id =? 0) eqn:Z0; [apply Z.eqb_eq in Z0; contradiction|].
  next_call f1 H1; reduce_pairs.
  { intros [= <- <-]. left. simpl. repeat split; auto. had_fault. }
  change (get_question_by_id (Some question_id) db)
    with (@inr Exn _ (value_of (get_question_by_id (Some question_id) db)), db).
  rewrite Hq. reduce_pairs. rewrite Htype.
  next_call f2 H2; reduce_pairs.
  { intros [= <- <-]. left. simpl. repeat split; auto. had_fault. }
  change (get_user (from_user_id message) db)
    with (@inr Exn _ (value_of (get_user (from_user_id message) db)), db).
  rewrite Huser, Htext. reduce_pairs.
  next_call f3 H3; reduce_pairs.
  { intros [= <- <-]. left. simpl. repeat split; auto. had_fault. }
  destruct (save_response_frame now (u_id user) question_id (Some t) None db)
    as (-> & Hq1 & Hu1 & _).
  fold (saved now (u_id user) question_id (Some t) None db).
  set (db1 := saved now (u_id user) question_id (Some t) None db) in *.
  reduce_pairs.
  destruct (save_to_application_run now (u_id user) (q_field_name question)
              (Some t) db1 st d out files f3) as [[-> E]|(f4 & H4 & E)];
    rewrite E; clear E.
  { intros [= <- <-]. left. simpl. repeat split; auto. had_fault. }
  destruct (mapped_frame now (u_id user) (q_field_name question) (Some t) db1)
    as (Hq2 & Hu2 & _).
  set (db2 := mapped now (u_id user) (q_field_name question) (Some t) db1) in *.
  unfold log_text, ret. reduce_pairs. intros Hrun.
  assert (Huser2 : value_of (get_user (from_user_id message) db2) = Some user).
  { rewrite (@get_user_ext (from_user_id message) db db2) by congruence.
    exact Huser. }
  assert (Hnext : value_of (get_next_question (q_order question) db)
                  = value_of (get_next_question (q_order question) db2)).
  { rewrite (@get_next_question_ext (q_order question) db db2) by congruence.
    reflexivity. }
  destruct (@move_to_next_question_run now message question None db2 st d out
              files f4 user Huser2 r w' Hrun _ Hnext)
    as [(-> & Hf4 & Hs & Hd & Hdb)|(-> & Hdb & Hrest & _)].
  - left. split; [reflexivity|]. split.
    { intros Hn. apply Hf4, H4, H3, H2, H1, Hn. }
    split; [exact Hs|]. split; [exact Hd|].
    destruct Hdb as [Hdb|[Hn Hdb]]; [now right; right; left|].
    right; right; right. now split.
  - right. split; [reflexivity|]. split; [exact Hdb|exact Hrest].
Qed.

Lemma advanced_frame (now telegram_id : Z) (next : option Question) (db : Db) :
  bot_admin_question (advanced now telegram_id next db) = bot_admin_question db /\
  bot_admin_userresponse (advanced now telegram_id next db)
  = bot_admin_userresponse db /\
  bot_admin_staffapplication (advanced now telegram_id next db)
  = bot_admin_staffapplication db.
Proof.
  unfold advanced. destruct next; [simpl; auto|].
  unfold update_user; simpl. destruct (fetchone _); simpl; auto.
Qed.



(** ** Writing the answer and advancing *)




(** ** Mapping an answer to the application *)

Lemma update_where_In (A : Type) (cond : A -> bool) (set : A -> A)
    (rows : list A) (a : A) :
  In a (update_where cond set rows) ->
  exists a0, In a0 rows /\ a = if cond a0 then set a0 else a0.
Proof.
  unfold update_where. intros H. apply in_map_iff in H.
  destruct H as (a0 & <- & Hin). eauto.
Qed.

Lemma update_where_keeps (A B : Type) (key : A -> B) (cond : A -> bool)
    (set : A -> A) (rows : list A) :
  (forall a, key (set a) = key a) ->
  map key (update_where cond set rows) = map key rows.
Proof.
  intros H. unfold update_where. rewrite map_map. apply map_ext.
  intros a. now destruct (cond a).
Qed.

(** An unmapped field makes [save_to_application] do nothing at all. *)
Lemma save_to_application_unmapped (now user_id : Z)
    (field_name value : option string) (w : World) :
  unmapped field_name = true ->
  save_to_application now user_id field_name value w = (inr tt, w).
Proof.
  unfold unmapped, save_to_application.
  destruct field_name as [[|c name]|]; try reflexivity.
  destruct (existsb _ valid_fields); [discriminate|reflexivity].
Qed.

Lemma mapped_unmapped (now user_id : Z) (field_name value : option string)
    (db : Db) :
  unmapped field_name = true -> mapped now user_id field_name value db = db.
Proof.
  unfold unmapped, mapped.
  destruct field_name as [[|c name]|]; try reflexivity.
  destruct (existsb _ valid_fields); [discriminate|reflexivity].
Qed.

Lemma finished_applications (now user_id : Z) (next : option Question) (db : Db) :
  bot_admin_staffapplication (finished now user_id next db)
  = match next with
    | Some _ => bot_admin_staffapplication db
    | None =>
        update_where (fun a => a_user_id a =? user_id)
          (set_status "completed" (Some now) now)
          (bot_admin_staffapplication db)
    end.
Proof. now destruct next. Qed.

(** C5, as the code has it.  The applicant answers a text question and
    no transaction fails.
    - If the question's field is [phone], every application row of the
      applicant has the answer as its phone afterwards, and the table
      has the same rows for the same applicants (so the applicant's
      application, which exists once a position was given, holds it).
    - If the field is empty or not on the list, [save_to_application]
      changes nothing; the application table is as before when a next
      question exists, and on the last question it changes by the
      completion only (status, completion time, update time). *)
Theorem answer_is_mapped_to_field (now : Z) (message : Message) (w : World)
    (question_id : Z) (question : Question) (user : UserProfile) (t : string) :
  current_question_id (w_data w) = Some question_id ->
  question_id <> 0 ->
  value_of (get_question_by_id (Some question_id) (w_db w)) = Some question ->
  String.eqb (q_question_type question) "photo" = false ->
  value_of (get_user (from_user_id message) (w_db w)) = Some user ->
  msg_text message = Some t ->
  w_faults w = None ->
  (q_field_name question = Some "phone" ->
   map a_user_id
     (bot_admin_staffapplication (w_db (snd (process_text_answer now message w))))
   = map a_user_id (bot_admin_staffapplication (w_db w)) /\
   forall a,
     In a (bot_admin_staffapplication
             (w_db (snd (process_text_answer now message w)))) ->
     a_user_id a = u_id user -> a_phone a = Some t) /\
  (unmapped (q_field_name question) = true ->
   (forall w0,
      save_to_application now (u_id user) (q_field_name question) (Some t) w0
      = (inr tt, w0)) /\
   bot_admin_staffapplication (w_db (snd (process_text_answer now message w)))
   = match value_of (get_next_question (q_order question) (w_db w)) with
     | Some _ => bot_admin_staffapplication (w_db w)
     | None =>
         update_where (fun a => a_user_id a =? u_id user)
           (set_status "completed" (Some now) now)
           (bot_admin_staffapplication (w_db w))
     end).
Proof.
  destruct w as [db st d out files faults]. reduce_pairs.
  intros Hid Hnz Hq Htype Huser Htext ->.
  set (db1 := saved now (u_id user) question_id (Some t) None db).
  set (db2 := mapped now (u_id user) (q_field_name question) (Some t) db1).
  set (next := value_of (get_next_question (q_order question) db)).
  set (db3 := advanced now (from_user_id message) next db2).
  destruct (save_response_frame now (u_id user) question_id (Some t) None db)
    as (_ & _ & _ & Ha1). fold db1 in Ha1.
  destruct (advanced_frame now (from_user_id message) next db2) as (_ & _ & Ha3).
  fold db3 in Ha3.
  pose proof (finished_applications now (u_id user) next db3) as Ha4.
  destruct (process_text_answer now message (mkWorld db st d out files None))
    as [r w'] eqn:Hrun.
  destruct (@process_text_answer_run now message db st d out files None
              question_id question user t Hid Hnz Hq Htype Huser Htext r w' Hrun
              db1 db2 next eq_refl eq_refl eq_refl)
    as [(_ & Hf & _)|(_ & Hdb & _)]; [now destruct Hf|].
  fold db3 in Hdb. reduce_pairs. rewrite Hdb, Ha4, Ha3. split.
  - intros Hphone.
    assert (Ha2 : bot_admin_staffapplication db2
                  = update_where (fun a => a_user_id a =? u_id user)
                      (fun a => touch_staffapplication now
                                  (set_text_column "phone" (Some t) a))
                      (bot_admin_staffapplication db)).
    { unfold db2, mapped. rewrite Hphone. simpl. now rewrite Ha1. }
    rewrite Ha2. split.
    + destruct next; rewrite ?update_where_keeps; reflexivity.
    + intros a Hin Ha.
      assert (Hin2 : exists a2,
                 In a2 (update_where (fun a => a_user_id a =? u_id user)
                          (fun a => touch_staffapplication now
                                      (set_text_column "phone" (Some t) a))
                          (bot_admin_staffapplication db)) /\
                 a_user_id a2 = a_user_id a /\ a_phone a2 = a_phone a).
      { destruct next; [eauto|].
        apply update_where_In in Hin. destruct Hin as (a2 & Hin2 & ->).
        exists a2. split; [exact Hin2|]. now destruct (a_user_id a2 =? u_id user). }
      destruct Hin2 as (a2 & Hin2 & Hid2 & <-).
      apply update_where_In in Hin2. destruct Hin2 as (a0 & _ & ->).
      destruct (a_user_id a0 =? u_id user) eqn:C; [reflexivity|].
      apply Z.eqb_neq in C. congruence.
  - intros Hun. split; [intros w0; now apply save_to_application_unmapped|].
    unfold db2. rewrite mapped_unmapped by exact Hun. rewrite Ha1.
    reflexivity.
Qed.

Lemma answer_is_mapped_to_field_witness :
  Forall (fun a => a_user_id a = 1 -> a_phone a = Some "+79001234567")
    (bot_admin_staffapplication
       (w_db (snd (process_text_answer 70 (text_message "+79001234567")
                     (on_question phone_questions 1 1 None))))) /\
  map a_user_id
    (bot_admin_staffapplication
       (w_db (snd (process_text_answer 70 (text_message "+79001234567")
                     (on_question phone_questions 1 1 None))))) = [1].
Proof.
  destruct (@answer_is_mapped_to_field 70 (text_message "+79001234567")
              (on_question phone_questions 1 1 None) 1
              (mkQuestion 1 1 "text" "Телефон?" None None (Some "phone") true true)
              (applicant (Some 1) false) "+79001234567"
              eq_refl ltac:(discriminate) eq_refl eq_refl eq_refl eq_refl eq_refl)
    as (Hphone & _).
  destruct (Hphone eq_refl) as (Hrows & Hall).
  split; [apply Forall_forall; exact Hall|exact Hrows].
Defined.

(** C5 as written fails on the last question: with a field name that is
    not on the list the structured write is skipped, but the application
    is completed by the same transition. *)
Lemma unmapped_last_answer_changes_application :
  unmapped (Some "nickname") = true /\
  map a_status
    (bot_admin_staffapplication (w_db (on_question nickname_questions 1 1 None)))
  = ["in_progress"] /\
  map a_status
    (bot_admin_staffapplication
       (w_db (snd (process_text_answer 70 (text_message "vanya")
                     (on_question nickname_questions 1 1 None)))))
  = ["completed"] /\
  bot_admin_staffapplication
    (w_db (snd (process_text_answer 70 (text_message "vanya")
                  (on_question nickname_questions 1 1 None))))
  <> bot_admin_staffapplication (w_db (on_question nickname_questions 1 1 None)).
Proof.
  repeat split. vm_compute. discriminate.
Qed.

(** ** Completion *)

(** One run of the completion logic, for an applicant whose profile
    exists, on a question after which none is left. *)
Lemma completion_run (now : Z) (message : Message) (question : Question)
    (from_user : option Z) (w : World) (user : UserProfile) :
  value_of (get_user (sender message from_user) (w_db w)) = Some user ->
  value_of (get_next_question (q_order question) (w_db w)) = None ->
  w_faults w = None ->
  fst (move_to_next_question now message question from_user w) = inr tt /\
  w_faults (snd (move_to_next_question now message question from_user w)) = None /\
  w_state (snd (move_to_next_question now message question from_user w)) = None /\
  w_out (snd (move_to_next_question now message question from_user w))
  = (w_out w ++ [Answer COMPLETION_MESSAGE None])%list /\
  (exists user',
     value_of (get_user (sender message from_user)
                 (w_db (snd (move_to_next_question now message question
                               from_user w)))) = Some user' /\
     u_id user' = u_id user /\ u_is_registration_complete user' = true /\
     u_current_question_id user' = None) /\
  value_of (get_next_question (q_order question)
              (w_db (snd (move_to_next_question now message question
                            from_user w)))) = None /\
  bot_admin_staffapplication
    (w_db (snd (move_to_next_question now message question from_user w)))
  = update_where (fun a => a_user_id a =? u_id user)
      (set_status "completed" (Some now) now)
      (bot_admin_staffapplication (w_db w)).
Proof.
  destruct w as [db st d out files faults]. reduce_pairs.
  intros Huser Hnext ->.
  destruct (move_to_next_question now message question from_user
              (mkWorld db st d out files None)) as [r w'] eqn:Hrun.
  destruct (@move_to_next_question_run now message question from_user db st d
              out files None user Huser r w' Hrun _ eq_refl)
    as [(_ & Hf & _)|(-> & Hdb & Hrest & Hfaults)]; [now destruct Hf|].
  rewrite Hnext in Hdb, Hrest. destruct Hrest as (Hst & _ & Hout).
  reduce_pairs. rewrite Hdb.
  set (tid := sender message from_user) in *.
  destruct (update_user_completes now tid db Huser)
    as (user' & _ & Hget & Hid & Hdone & Hcur & Hq3 & _ & Ha3).
  unfold finished, advanced.
  destruct (complete_application_frame now (u_id user)
              (snd (update_user now tid completion_kwargs db)))
    as (_ & Hq4 & Hu4 & _).
  repeat split; auto.
  - exists user'. rewrite (@get_user_ext tid _ _ Hu4). auto.
  - rewrite (@get_next_question_ext (q_order question) db) by congruence.
    exact Hnext.
  - unfold complete_application, returns. cbn [snd].
    unfold with_staffapplication. cbn [bot_admin_staffapplication].
    now rewrite Ha3.
Qed.

Lemma completed_rows (now user_id : Z) (rows : list StaffApplication)
    (a : StaffApplication) :
  In a (update_where (fun a => a_user_id a =? user_id)
          (set_status "completed" (Some now) now) rows) ->
  a_user_id a = user_id ->
  a_status a = "completed" /\ a_completed_at a = Some now.
Proof.
  intros Hin Ha. apply update_where_In in Hin. destruct Hin as (a0 & _ & ->).
  destruct (a_user_id a0 =? user_id) eqn:C; [now split|].
  apply Z.eqb_neq in C. contradiction.
Qed.

Lemma completed_twice_status (now1 now2 user_id : Z)
    (rows : list StaffApplication) :
  map a_status
    (update_where (fun a => a_user_id a =? user_id)
       (set_status "completed" (Some now2) now2)
       (update_where (fun a => a_user_id a =? user_id)
          (set_status "completed" (Some now1) now1) rows))
  = map a_status
      (update_where (fun a => a_user_id a =? user_id)
         (set_status "completed" (Some now1) now1) rows).
Proof.
  induction rows as [|a rows IH]; simpl; [reflexivity|]. rewrite IH. f_equal.
  destruct (a_user_id a =? user_id) eqn:C; simpl; rewrite C; reflexivity.
Qed.

(** C7, as the code has it.  The completion logic runs a second time,
    at time [now2], after it ran at [now1].  The applicant's application
    is [completed] after both runs and the profile stays complete with
    no current question; but the second run sets [completed_at] to its
    own time, and it sends the completion message once more. *)
Theorem completion_again_refreshes (now1 now2 : Z) (message : Message)
    (question : Question) (from_user : option Z) (w : World)
    (user : UserProfile) :
  value_of (get_user (sender message from_user) (w_db w)) = Some user ->
  value_of (get_next_question (q_order question) (w_db w)) = None ->
  w_faults w = None ->
  forall w1 w2,
    w1 = snd (move_to_next_question now1 message question from_user w) ->
    w2 = snd (move_to_next_question now2 message question from_user w1) ->
    (forall a, In a (bot_admin_staffapplication (w_db w1)) ->
               a_user_id a = u_id user ->
               a_status a = "completed" /\ a_completed_at a = Some now1) /\
    (forall a, In a (bot_admin_staffapplication (w_db w2)) ->
               a_user_id a = u_id user ->
               a_status a = "completed" /\ a_completed_at a = Some now2) /\
    map a_status (bot_admin_staffapplication (w_db w2))
    = map a_status (bot_admin_staffapplication (w_db w1)) /\
    (exists u1 u2,
       value_of (get_user (sender message from_user) (w_db w1)) = Some u1 /\
       value_of (get_user (sender message from_user) (w_db w2)) = Some u2 /\
       u_is_registration_complete u1 = true /\ u_current_question_id u1 = None /\
       u_is_registration_complete u2 = true /\ u_current_question_id u2 = None) /\
    w_state w1 = None /\ w_state w2 = None /\
    w_out w1 = (w_out w ++ [Answer COMPLETION_MESSAGE None])%list /\
    w_out w2 = (w_out w ++ [Answer COMPLETION_MESSAGE None;
                            Answer COMPLETION_MESSAGE None])%list.
Proof.
  intros Huser Hnext Hfaults w1 w2 -> ->.
  destruct (completion_run now1 message question from_user w Huser Hnext Hfaults)
    as (_ & Hf1 & Hst1 & Hout1 & (u1 & Hu1 & Hid1 & Hd1 & Hc1) & Hn1 & Ha1).
  set (w1 := snd (move_to_next_question now1 message question from_user w)) in *.
  destruct (completion_run now2 message question from_user w1 Hu1 Hn1 Hf1)
    as (_ & _ & Hst2 & Hout2 & (u2 & Hu2 & _ & Hd2 & Hc2) & _ & Ha2).
  set (w2 := snd (move_to_next_question now2 message question from_user w1)) in *.
  rewrite Hid1 in Ha2. rewrite Ha2, Ha1, Hout2, Hout1.
  split; [intros a; apply completed_rows|].
  split; [intros a; apply completed_rows|].
  split; [apply completed_twice_status|].
  split; [exists u1, u2; repeat split; assumption|].
  repeat split; trivial. now rewrite <- app_assoc.
Qed.

Lemma completion_again_refreshes_witness :
  map a_status
    (bot_admin_staffapplication
       (w_db (trigger_completion 95 (trigger_completion 90 on_last_question))))
  = map a_status
      (bot_admin_staffapplication (w_db (trigger_completion 90 on_last_question))) /\
  w_state (trigger_completion 95 (trigger_completion 90 on_last_question)) = None.
Proof.
  destruct (@completion_again_refreshes 90 95 (text_message "Не женат")
              last_question None on_last_question (applicant (Some 3) false)
              eq_refl eq_refl eq_refl _ _ eq_refl eq_refl)
    as (_ & _ & Hstatus & _ & _ & Hst & _).
  split; [exact Hstatus|exact Hst].
Defined.

(** C7 as written fails: a second run of the completion logic, five
    time units after the first, moves [completed_at] from 90 to 95 and
    sends the completion message a second time. *)
Lemma completion_is_not_idempotent :
  map a_completed_at
    (bot_admin_staffapplication (w_db (trigger_completion 90 on_last_question)))
  = [Some 90] /\
  map a_completed_at
    (bot_admin_staffapplication
       (w_db (trigger_completion 95 (trigger_completion 90 on_last_question))))
  = [Some 95] /\
  w_out (trigger_completion 90 on_last_question)
  = [Answer COMPLETION_MESSAGE None] /\
  w_out (trigger_completion 95 (trigger_completion 90 on_last_question))
  = [Answer COMPLETION_MESSAGE None; Answer COMPLETION_MESSAGE None].
Proof. repeat split. Qed.

(** Once the session is closed, as it is after completion, no answer
    reaches the flow: updates other than [/start] are dropped. *)
Lemma closed_session_drops_answers (now : Z) (stamp : string) (u : Update)
    (w : World) :
  w_state w = None ->
  match u with
  | OnMessage m => is_start_command m = false
  | OnCallback _ => True
  end ->
  dispatch now stamp u w = (inr tt, w).
Proof.
  intros Hst Hu. unfold dispatch. rewrite Hst.
  destruct u as [m|c]; [now rewrite Hu|reflexivity].
Qed.

(** ** Choice answers *)

(** The prefix put in front by the keyboard is found first; what
    follows it is searched for the prefix as well. *)
Lemma replace_after_prefix (choice : string) :
  PyStr.replace "choice_" "" ("choice_" ++ choice)
  = PyStr.replace "choice_" "" choice.
Proof. destruct choice; reflexivity. Qed.

Lemma call_none (A : Type) (op : DbOp A) (db : Db)
    (st : option RegistrationStates) (d : StateData) (out : list Outbound)
    (files : list string) :
  call op (mkWorld db st d out files None)
  = (fst (op db), mkWorld (snd (op db)) st d out files None).
Proof. unfold call; simpl. now destruct (op db). Qed.

(** The answer the handler stores for a pressed button. *)
Lemma process_choice_answer_stores (now : Z) (callback : CallbackQuery)
    (w : World) (question_id : Z) (question : Question) (user : UserProfile) :
  current_question_id (w_data w) = Some question_id ->
  value_of (get_question_by_id (Some question_id) (w_db w)) = Some question ->
  value_of (get_user (cb_from_user_id callback) (w_db w)) = Some user ->
  w_faults w = None ->
  exists w1,
    process_choice_answer now callback w
    = move_to_next_question now (cb_message callback) question
        (Some (cb_from_user_id callback)) w1 /\
    bot_admin_userresponse (w_db w1)
    = bot_admin_userresponse
        (saved now (u_id user) question_id
           (Some (PyStr.replace "choice_" "" (data callback))) None (w_db w)).
Proof.
  destruct w as [db st d out files faults]. reduce_pairs.
  intros Hid Hq Huser ->.
  unfold process_choice_answer, bind, send, get_data. reduce_pairs.
  rewrite Hid, call_none.
  change (get_question_by_id (Some question_id) db)
    with (@inr Exn _ (value_of (get_question_by_id (Some question_id) db)), db).
  rewrite Hq. reduce_pairs. rewrite call_none.
  change (get_user (cb_from_user_id callback) db)
    with (@inr Exn _ (value_of (get_user (cb_from_user_id callback) db)), db).
  rewrite Huser. reduce_pairs. rewrite call_none.
  set (answer := PyStr.replace "choice_" "" (data callback)).
  destruct (save_response_frame now (u_id user) question_id (Some answer)
              None db) as (-> & _).
  fold (saved now (u_id user) question_id (Some answer) None db).
  set (db1 := saved now (u_id user) question_id (Some answer) None db).
  reduce_pairs.
  destruct (save_to_application_run now (u_id user) (q_field_name question)
              (Some answer) db1 st d (out ++ [CallbackAnswer]) files None)
    as [[Hf _]|(f' & _ & E)]; [discriminate|].
  rewrite E. reduce_pairs.
  destruct (mapped_frame now (u_id user) (q_field_name question) (Some answer) db1)
    as (_ & _ & Hr2).
  eexists. split; [reflexivity|]. reduce_pairs. exact Hr2.
Qed.

(** C6, the failing case: the catalogue offers the choices [choice_A]
    and [B].  The first button shows [choice_A] and carries
    [choice_choice_A]; pressing it stores [A], not [choice_A], in the
    response and in the application. *)
Theorem choice_with_prefix_is_not_stored_verbatim :
  get_choices_keyboard "choice_A,B"
  = [ [mkButton "choice_A" "choice_choice_A"]; [mkButton "B" "choice_B"] ] /\
  map r_text_answer
    (bot_admin_userresponse
       (w_db (snd (process_choice_answer 70
                     (press (mkButton "choice_A" "choice_choice_A"))
                     (on_question prefixed_choice_questions 1 1 None)))))
  = [Some "A"] /\
  map a_children
    (bot_admin_staffapplication
       (w_db (snd (process_choice_answer 70
                     (press (mkButton "choice_A" "choice_choice_A"))
                     (on_question prefixed_choice_questions 1 1 None)))))
  = [Some "A"].
Proof. repeat split. Qed.

(** The answer of the specification's example comes back as it was
    chosen. *)
Example yes_is_stored_verbatim :
  get_choices_keyboard "Да, Нет"
  = [ [mkButton "Да" "choice_Да"]; [mkButton "Нет" "choice_Нет"] ] /\
  map (fun row => r_text_answer (rr_response row))
    (value_of_list
       (get_user_responses 1001
          (w_db (snd (process_choice_answer 70 (press (mkButton "Да" "choice_Да"))
                        (on_question yes_no_questions 1 1 None))))))
  = [Some "Да"].
Proof. repeat split. Qed.

(** ** The scenario of the specification, run through the router *)

Example scenario_runs :
  map u_current_question_id (bot_admin_userprofile (scenario_after 1)) = [Some 2] /\
  scenario_after 2 = scenario_after 1 /\
  map u_current_question_id (bot_admin_userprofile (scenario_after 3)) = [Some 3] /\
  map a_passport_main (bot_admin_staffapplication (scenario_after 3))
  = [Some "applications/passport_main/1001_20260101_120000.jpg"] /\
  map u_current_question_id (bot_admin_userprofile (scenario_after 4)) = [None] /\
  map u_is_registration_complete (bot_admin_userprofile (scenario_after 4))
  = [true] /\
  map a_status (bot_admin_staffapplication (scenario_after 4)) = ["completed"] /\
  map a_marital_status (bot_admin_staffapplication (scenario_after 4))
  = [Some "Не женат"] /\
  map (fun r => (r_question_id r, r_text_answer r, r_photo r))
    (bot_admin_userresponse (scenario_after 4))
  = [ (1, Some "Иван Иванов", None);
      (2, None, Some "applications/passport_main/1001_20260101_120000.jpg");
      (3, Some "Не женат", None) ].
Proof. repeat split. Qed.

(** ** What the router hands to which handler *)

(** While questions are being answered, a message with text and no
    photo that is not the [/start] command goes to
    [process_text_answer]. *)
Lemma dispatch_text_answer (now : Z) (stamp : string) (m : Message) (w : World) :
  w_state w = Some answering_questions ->
  msg_photo m = [] ->
  PyStr.truthy (msg_text m) = true ->
  is_start_command m = false ->
  dispatch now stamp (OnMessage m) w = process_text_answer now m w.
Proof.
  intros Hst Hphoto Htext Hcmd. unfold dispatch.
  now rewrite Hcmd, Hst, Hphoto, Htext.
Qed.

(** [/start] goes to [cmd_start] whatever the state. *)
Lemma dispatch_start (now : Z) (stamp : string) (m : Message) (w : World) :
  is_start_command m = true ->
  dispatch now stamp (OnMessage m) w = cmd_start now m w.
Proof. intros Hcmd. unfold dispatch. now rewrite Hcmd. Qed.

(** A position goes to [process_position]. *)
Lemma dispatch_position (now : Z) (stamp : string) (m : Message) (w : World) :
  w_state w = Some asking_position ->
  is_start_command m = false ->
  dispatch now stamp (OnMessage m) w = process_position now m w.
Proof. intros Hst Hcmd. unfold dispatch. now rewrite Hcmd, Hst. Qed.

(** * Further properties of the code *)

(** ** A relation every write respects is respected by every handler *)

Section Keeps.
Variable R : Db -> Db -> Prop.
Hypothesis R_refl : forall db, R db db.
Hypothesis R_trans : forall a b c, R a b -> R b c -> R a c.
Hypothesis R_get_or_create_user :
  forall now tid un fn ln db, R db (snd (get_or_create_user now tid un fn ln db)).
Hypothesis R_update_user :
  forall now tid kwargs db, R db (snd (update_user now tid kwargs db)).
Hypothesis R_set_current_question :
  forall now tid q db, R db (snd (set_current_question now tid q db)).
Hypothesis R_save_response :
  forall now uid qid t p db, R db (snd (save_response now uid qid t p db)).
Hypothesis R_get_or_create_application :
  forall now uid db, R db (snd (get_or_create_application now uid db)).
Hypothesis R_update_application :
  forall now uid kwargs db, R db (snd (update_application now uid kwargs db)).
Hypothesis R_complete_application :
  forall now uid db, R db (snd (complete_application now uid db)).

Lemma keeps_ret (A : Type) (a : A) : keeps R (ret a).
Proof. intros w. apply R_refl. Qed.

Lemma keeps_raise (A : Type) (e : Exn) : keeps R (@raise A e).
Proof. intros w. apply R_refl. Qed.

Lemma keeps_bind (A B : Type) (c : Handler A) (k : A -> Handler B) :
  keeps R c -> (forall a, keeps R (k a)) -> keeps R (bind c k).
Proof.
  intros Hc Hk w. unfold bind. specialize (Hc w).
  destruct (c w) as [[e|a] w1]; [exact Hc|].
  simpl in Hc. eapply R_trans; [exact Hc|apply Hk].
Qed.

Lemma keeps_call (A : Type) (op : DbOp A) :
  (forall db, R db (snd (op db))) -> keeps R (call op).
Proof.
  intros Hop w. unfold call. destruct (w_faults w) as [[|n]|];
    [apply R_refl| |]; specialize (Hop (w_db w));
    destruct (op (w_db w)); exact Hop.
Qed.

Lemma keeps_send (o : Outbound) : keeps R (send o).
Proof. intros w. apply R_refl. Qed.

Lemma keeps_set_state (s : RegistrationStates) : keeps R (set_state s).
Proof. intros w. apply R_refl. Qed.

Lemma keeps_clear : keeps R clear.
Proof. intros w. apply R_refl. Qed.

Lemma keeps_get_data : keeps R get_data.
Proof. intros w. apply R_refl. Qed.

Lemma keeps_update_data (f : StateData -> StateData) : keeps R (update_data f).
Proof. intros w. apply R_refl. Qed.

Lemma keeps_path_exists (path : string) : keeps R (path_exists path).
Proof. intros w. apply R_refl. Qed.

Lemma keeps_download_file (path : string) : keeps R (download_file path).
Proof. intros w. apply R_refl. Qed.

(** Takes a handler apart into the steps above. *)
Ltac keeps_steps :=
  repeat first
    [ apply keeps_ret | apply keeps_raise | apply keeps_send
    | apply keeps_set_state | apply keeps_clear | apply keeps_get_data
    | apply keeps_update_data | apply keeps_path_exists
    | apply keeps_download_file
    | apply keeps_call; intros;
      first [ apply R_refl | apply R_get_or_create_user | apply R_update_user
            | apply R_set_current_question | apply R_save_response
            | apply R_get_or_create_application | apply R_update_application
            | apply R_complete_application ]
    | apply keeps_bind; [|intros]
    | match goal with
      | |- keeps _ (match ?x with _ => _ end) => destruct x
      | |- keeps _ (let _ := _ in _) => cbv zeta
      end ].

Lemma keeps_send_question (q : Question) : keeps R (send_question q).
Proof. unfold send_question. keeps_steps. Qed.

Lemma keeps_save_to_application (now uid : Z) (f v : option string) :
  keeps R (save_to_application now uid f v).
Proof. unfold save_to_application. keeps_steps. Qed.

Lemma keeps_move_to_next_question (now : Z) (m : Message) (q : Question)
    (from_user : option Z) :
  keeps R (move_to_next_question now m q from_user).
Proof.
  unfold move_to_next_question. keeps_steps; apply keeps_send_question.
Qed.

Lemma keeps_cmd_start (now : Z) (m : Message) : keeps R (cmd_start now m).
Proof. unfold cmd_start. keeps_steps. Qed.

Lemma keeps_process_team_member (now : Z) (c : CallbackQuery) :
  keeps R (process_team_member now c).
Proof. unfold process_team_member. keeps_steps. Qed.

Lemma keeps_process_position (now : Z) (m : Message) :
  keeps R (process_position now m).
Proof. unfold process_position. keeps_steps. apply keeps_send_question. Qed.

Lemma keeps_process_photo_answer (now : Z) (stamp : string) (m : Message) :
  keeps R (process_photo_answer now stamp m).
Proof.
  unfold process_photo_answer. keeps_steps;
    first [ apply keeps_save_to_application | apply keeps_send_question
          | apply keeps_move_to_next_question ].
Qed.

Lemma keeps_process_text_answer (now : Z) (m : Message) :
  keeps R (process_text_answer now m).
Proof.
  unfold process_text_answer, log_text. keeps_steps;
    first [ apply keeps_save_to_application | apply keeps_send_question
          | apply keeps_move_to_next_question ].
Qed.

Lemma keeps_process_choice_answer (now : Z) (c : CallbackQuery) :
  keeps R (process_choice_answer now c).
Proof.
  unfold process_choice_answer. keeps_steps;
    first [ apply keeps_save_to_application | apply keeps_send_question
          | apply keeps_move_to_next_question ].
Qed.

Lemma keeps_dispatch (now : Z) (stamp : string) (u : Update) :
  keeps R (dispatch now stamp u).
Proof.
  intros w. unfold dispatch.
  destruct u as [m|c].
  - destruct (is_start_command m); [apply keeps_cmd_start|].
    destruct (w_state w) as [[| |]|]; try apply R_refl.
    + apply keeps_process_position.
    + destruct (msg_photo m); [|apply keeps_process_photo_answer].
      destruct (PyStr.truthy (msg_text m));
        [apply keeps_process_text_answer|apply R_refl].
  - destruct (w_state w) as [[| |]|]; try apply R_refl.
    + destruct (existsb _ _); [apply keeps_process_team_member|apply R_refl].
    + apply keeps_process_choice_answer.
Qed.

Lemma keeps_run_updates (stamp : string) (updates : list (Z * Update)) (w : World) :
  R (w_db w) (w_db (run_updates stamp updates w)).
Proof.
  revert w. induction updates as [|[now u] updates IH]; intros w; simpl;
    [apply R_refl|].
  eapply R_trans; [apply (keeps_dispatch now stamp u w)|apply IH].
Qed.

End Keeps.

(** ** What each write does to the keys *)

Lemma fetchone_filter_none (A : Type) (p : A -> bool) (rows : list A) (x : A) :
  fetchone (filter p rows) = None -> In x rows -> p x = false.
Proof.
  intros H Hin. apply fetchone_none in H.
  destruct (p x) eqn:P; [|reflexivity].
  assert (Hx : In x (filter p rows)) by (apply filter_In; now split).
  rewrite H in Hx. destruct Hx.
Qed.

Lemma set_userprofile_keeps_keys (kwargs : list (string * Value))
    (set : UserProfile -> UserProfile) (u : UserProfile) :
  set_clause set_userprofile_column kwargs = Some set ->
  u_id (set u) = u_id u /\ u_telegram_id (set u) = u_telegram_id u.
Proof.
  revert set u. induction kwargs as [|[k v] kwargs IH]; simpl; intros set u H.
  - injection H as <-. now split.
  - destruct (set_userprofile_column k v) as [f|] eqn:F; [|discriminate].
    destruct (set_clause set_userprofile_column kwargs) as [g|]; [|discriminate].
    injection H as <-. destruct (IH g (f u) eq_refl) as [-> ->].
    unfold set_userprofile_column in F.
    destruct v; try discriminate;
      repeat match type of F with
             | (if ?c then _ else _) = _ => destruct c
             end;
      try discriminate; injection F as <-; now split.
Qed.

Lemma set_staffapplication_keeps_keys (kwargs : list (string * Value))
    (set : StaffApplication -> StaffApplication) (a : StaffApplication) :
  set_clause set_staffapplication_column kwargs = Some set ->
  a_id (set a) = a_id a /\ a_user_id (set a) = a_user_id a.
Proof.
  revert set a. induction kwargs as [|[k v] kwargs IH]; simpl; intros set a H.
  - injection H as <-. now split.
  - destruct (set_staffapplication_column k v) as [f|] eqn:F; [|discriminate].
    destruct (set_clause set_staffapplication_column kwargs) as [g|];
      [|discriminate].
    injection H as <-. destruct (IH g (f a) eq_refl) as [-> ->].
    unfold set_staffapplication_column in F.
    destruct v; try discriminate;
      repeat match type of F with
             | (if ?c then _ else _) = _ => destruct c
             end;
      try discriminate; injection F as <-; now split.
Qed.

(** The updates rewrite no key and touch no other table. *)
Lemma update_user_keys (now tid : Z) (kwargs : list (string * Value)) (db : Db) :
  userprofile_keys (snd (update_user now tid kwargs db)) = userprofile_keys db /\
  bot_admin_userresponse (snd (update_user now tid kwargs db))
  = bot_admin_userresponse db /\
  bot_admin_staffapplication (snd (update_user now tid kwargs db))
  = bot_admin_staffapplication db.
Proof.
  unfold update_user.
  destruct kwargs as [|kv kwargs]; [now repeat split|].
  destruct (set_clause set_userprofile_column (kv :: kwargs)) as [set|] eqn:S;
    [|now repeat split].
  assert (Hkeys : userprofile_keys
            (with_userprofile db
               (update_where (fun u => u_telegram_id u =? tid)
                  (fun u => touch_userprofile now (set u))
                  (bot_admin_userprofile db))) = userprofile_keys db).
  { unfold userprofile_keys. simpl. apply update_where_keeps.
    intros u. simpl. destruct (set_userprofile_keeps_keys _ u S) as [-> ->].
    reflexivity. }
  destruct (fetchone _); simpl; auto.
Qed.

Lemma set_current_question_keys (now tid : Z) (q : option Z) (db : Db) :
  userprofile_keys (snd (set_current_question now tid q db)) = userprofile_keys db /\
  bot_admin_userresponse (snd (set_current_question now tid q db))
  = bot_admin_userresponse db /\
  bot_admin_staffapplication (snd (set_current_question now tid q db))
  = bot_admin_staffapplication db.
Proof.
  unfold set_current_question, userprofile_keys; simpl.
  split; [|now split]. now apply update_where_keeps.
Qed.

Lemma update_application_keys (now uid : Z) (kwargs : list (string * Value))
    (db : Db) :
  staffapplication_keys (snd (update_application now uid kwargs db))
  = staffapplication_keys db /\
  bot_admin_userprofile (snd (update_application now uid kwargs db))
  = bot_admin_userprofile db /\
  bot_admin_userresponse (snd (update_application now uid kwargs db))
  = bot_admin_userresponse db.
Proof.
  unfold update_application.
  destruct (set_clause set_staffapplication_column kwargs) as [set|] eqn:S;
    [|now repeat split].
  unfold staffapplication_keys; simpl. split; [|now split].
  apply update_where_keeps. intros a. simpl.
  destruct (set_staffapplication_keeps_keys _ a S) as [-> ->]. reflexivity.
Qed.

Lemma complete_application_keys (now uid : Z) (db : Db) :
  staffapplication_keys (snd (complete_application now uid db))
  = staffapplication_keys db /\
  bot_admin_userprofile (snd (complete_application now uid db))
  = bot_admin_userprofile db /\
  bot_admin_userresponse (snd (complete_application now uid db))
  = bot_admin_userresponse db.
Proof.
  unfold complete_application, staffapplication_keys; simpl.
  split; [|now split]. now apply update_where_keeps.
Qed.

(** The inserts add one row at the end, under a key that was not there,
    or add nothing. *)
Lemma get_or_create_user_keys (now tid : Z) (un fn ln : option string) (db : Db) :
  (userprofile_keys (snd (get_or_create_user now tid un fn ln db))
   = userprofile_keys db \/
   (~ In tid (map u_telegram_id (bot_admin_userprofile db)) /\
    userprofile_keys (snd (get_or_create_user now tid un fn ln db))
    = (userprofile_keys db ++ [(userprofile_id_seq db + 1, tid)])%list)) /\
  bot_admin_userresponse (snd (get_or_create_user now tid un fn ln db))
  = bot_admin_userresponse db /\
  bot_admin_staffapplication (snd (get_or_create_user now tid un fn ln db))
  = bot_admin_staffapplication db.
Proof.
  unfold get_or_create_user.
  destruct (fetchone _) as [u|] eqn:E; simpl; [auto|].
  split; [|now split]. right. split.
  - intros Hin. apply in_map_iff in Hin. destruct Hin as (u & Ht & Hu).
    pose proof (fetchone_filter_none _ _ u E Hu) as C. simpl in C.
    apply Z.eqb_neq in C. contradiction.
  - unfold userprofile_keys. simpl. now rewrite map_app.
Qed.

Lemma save_response_keys (now uid qid : Z) (t p : option string) (db : Db) :
  (userresponse_keys (snd (save_response now uid qid t p db))
   = userresponse_keys db \/
   (~ In (uid, qid) (map (fun r => (r_user_id r, r_question_id r))
                         (bot_admin_userresponse db)) /\
    userresponse_keys (snd (save_response now uid qid t p db))
    = (userresponse_keys db ++ [(userresponse_id_seq db + 1, uid, qid)])%list)) /\
  bot_admin_userprofile (snd (save_response now uid qid t p db))
  = bot_admin_userprofile db /\
  bot_admin_staffapplication (snd (save_response now uid qid t p db))
  = bot_admin_staffapplication db.
Proof.
  unfold save_response.
  destruct (fetchone _) as [r0|] eqn:E; simpl.
  - split; [|now split]. left. unfold userresponse_keys. simpl.
    now apply update_where_keeps.
  - split; [|now split]. right. split.
    + intros Hin. apply in_map_iff in Hin. destruct Hin as (r & Hk & Hr).
      pose proof (fetchone_filter_none _ _ r E Hr) as C.
      unfold response_of in C. injection Hk as H1 H2.
      rewrite H1, H2, !Z.eqb_refl in C. discriminate.
    + unfold userresponse_keys. simpl. now rewrite map_app.
Qed.

Lemma get_or_create_application_keys (now uid : Z) (db : Db) :
  (staffapplication_keys (snd (get_or_create_application now uid db))
   = staffapplication_keys db \/
   (~ In uid (map a_user_id (bot_admin_staffapplication db)) /\
    staffapplication_keys (snd (get_or_create_application now uid db))
    = (staffapplication_keys db ++ [(staffapplication_id_seq db + 1, uid)])%list)) /\
  bot_admin_userprofile (snd (get_or_create_application now uid db))
  = bot_admin_userprofile db /\
  bot_admin_userresponse (snd (get_or_create_application now uid db))
  = bot_admin_userresponse db.
Proof.
  unfold get_or_create_application.
  destruct (fetchone _) as [a|] eqn:E; simpl; [auto|].
  split; [|now split]. right. split.
  - intros Hin. apply in_map_iff in Hin. destruct Hin as (a & Ht & Ha).
    pose proof (fetchone_filter_none _ _ a E Ha) as C. simpl in C.
    apply Z.eqb_neq in C. contradiction.
  - unfold staffapplication_keys. simpl. now rewrite map_app.
Qed.

Lemma extends_refl (K : Type) (l : list K) : extends l l.
Proof. exists []. now rewrite app_nil_r. Qed.

Lemma extends_trans (K : Type) (a b c : list K) :
  extends a b -> extends b c -> extends a c.
Proof. intros [x ->] [y ->]. exists (x ++ y)%list. now rewrite app_assoc. Qed.

Lemma extends_eq (K : Type) (l l' : list K) : l' = l -> extends l l'.
Proof. intros ->. apply extends_refl. Qed.

Lemma extends_or (K : Type) (P : Prop) (l l' : list K) (x : K) :
  l' = l \/ (P /\ l' = (l ++ [x])%list) -> extends l l'.
Proof. intros [->|[_ ->]]; [apply extends_refl|now exists [x]]. Qed.

Lemma only_appends_refl (db : Db) : only_appends db db.
Proof. repeat split; apply extends_refl. Qed.

Lemma only_appends_trans (a b c : Db) :
  only_appends a b -> only_appends b c -> only_appends a c.
Proof.
  intros (H1 & H2 & H3) (G1 & G2 & G3).
  repeat split; eapply extends_trans; eassumption.
Qed.

(** ** What no conversation does *)

(** X1: Whatever updates arrive, in whatever state, and whichever
    transaction fails: the question catalogue is never written. *)
Theorem conversation_never_writes_questions (stamp : string)
    (updates : list (Z * Update)) (w : World) :
  bot_admin_question (w_db (run_updates stamp updates w))
  = bot_admin_question (w_db w).
Proof.
  apply (@keeps_run_updates
           (fun db db' => bot_admin_question db' = bot_admin_question db));
    try (intros; congruence); intros.
  - unfold get_or_create_user. now destruct (fetchone _).
  - unfold update_user. destruct kwargs; [reflexivity|].
    destruct (set_clause _ _); [|reflexivity]. now destruct (fetchone _).
  - reflexivity.
  - unfold save_response. now destruct (fetchone _).
  - unfold get_or_create_application. now destruct (fetchone _).
  - unfold update_application. now destruct (set_clause _ _).
  - reflexivity.
Qed.

(** X2: Whatever updates arrive: no profile, response or application row is
    removed, none changes its id or the key it is looked up by, and new
    rows come after the old ones. *)
Theorem conversation_only_appends (stamp : string)
    (updates : list (Z * Update)) (w : World) :
  only_appends (w_db w) (w_db (run_updates stamp updates w)).
Proof.
  apply (@keeps_run_updates only_appends);
    [apply only_appends_refl|apply only_appends_trans| | | | | | |]; intros.
  - destruct (get_or_create_user_keys now tid un fn ln db) as (H & Hr & Ha).
    unfold only_appends, userresponse_keys, staffapplication_keys.
    rewrite Hr, Ha. split; [eapply extends_or; exact H|].
    split; apply extends_refl.
  - destruct (update_user_keys now tid kwargs db) as (H & Hr & Ha).
    unfold only_appends, userresponse_keys, staffapplication_keys.
    rewrite H, Hr, Ha. repeat split; apply extends_refl.
  - destruct (set_current_question_keys now tid q db) as (H & Hr & Ha).
    unfold only_appends, userresponse_keys, staffapplication_keys.
    rewrite H, Hr, Ha. repeat split; apply extends_refl.
  - destruct (save_response_keys now uid qid t p db) as (H & Hu & Ha).
    unfold only_appends, userprofile_keys, staffapplication_keys.
    rewrite Hu, Ha. split; [apply extends_refl|].
    split; [eapply extends_or; exact H|apply extends_refl].
  - destruct (get_or_create_application_keys now uid db) as (H & Hu & Hr).
    unfold only_appends, userprofile_keys, userresponse_keys.
    rewrite Hu, Hr. split; [apply extends_refl|].
    split; [apply extends_refl|eapply extends_or; exact H].
  - destruct (update_application_keys now uid kwargs db) as (H & Hu & Hr).
    unfold only_appends, userprofile_keys, userresponse_keys.
    rewrite H, Hu, Hr. repeat split; apply extends_refl.
  - destruct (complete_application_keys now uid db) as (H & Hu & Hr).
    unfold only_appends, userprofile_keys, userresponse_keys.
    rewrite H, Hu, Hr. repeat split; apply extends_refl.
Qed.

Lemma NoDup_snoc (K : Type) (l : list K) (x : K) :
  NoDup l -> ~ In x l -> NoDup (l ++ [x]).
Proof.
  induction l as [|y l IH]; simpl; intros Hnd Hx.
  - constructor; [intros []|constructor].
  - inversion Hnd as [|? ? Hy Hl]; subst. constructor.
    + rewrite in_app_iff. simpl. intuition.
    + apply IH; intuition.
Qed.

Lemma NoDup_keys_step (K K' : Type) (f : K -> K') (l l' : list K) (x : K) :
  l' = l \/ (~ In (f x) (map f l) /\ l' = (l ++ [x])%list) ->
  NoDup (map f l) -> NoDup (map f l').
Proof.
  intros [->|[Hx ->]] H; [exact H|]. rewrite map_app. simpl.
  now apply NoDup_snoc.
Qed.

Lemma unique_constraints_by_keys (db : Db) :
  unique_constraints db <->
  NoDup (map snd (userprofile_keys db)) /\
  NoDup (map (fun k => (snd (fst k), snd k)) (userresponse_keys db)) /\
  NoDup (map snd (staffapplication_keys db)).
Proof.
  unfold unique_constraints, userprofile_keys, userresponse_keys,
    staffapplication_keys.
  rewrite !map_map. simpl. tauto.
Qed.

(** X3: The flow keeps the unique constraints of the schema by itself: from
    a database that satisfies them, no conversation reaches one that
    violates them, with no help from the database rejecting a row. *)
Theorem conversation_keeps_unique_constraints (stamp : string)
    (updates : list (Z * Update)) (w : World) :
  unique_constraints (w_db w) ->
  unique_constraints (w_db (run_updates stamp updates w)).
Proof.
  apply (@keeps_run_updates
           (fun db db' => unique_constraints db -> unique_constraints db'));
    [tauto|tauto| | | | | | |]; intros until db;
    rewrite !unique_constraints_by_keys; intros (Hu & Hr & Ha).
  - destruct (get_or_create_user_keys now tid un fn ln db) as (H & Er & Ea).
    unfold userresponse_keys, staffapplication_keys in *. rewrite Er, Ea.
    split; [|now split].
    apply (@NoDup_keys_step _ _ snd (userprofile_keys db) _
             (userprofile_id_seq db + 1, tid));
      [|exact Hu].
    destruct H as [H|[Hn H]]; [now left|right]. split; [|exact H].
    simpl. unfold userprofile_keys. now rewrite map_map.
  - destruct (update_user_keys now tid kwargs db) as (H & Er & Ea).
    unfold userresponse_keys, staffapplication_keys in *.
    now rewrite H, Er, Ea.
  - destruct (set_current_question_keys now tid q db) as (H & Er & Ea).
    unfold userresponse_keys, staffapplication_keys in *.
    now rewrite H, Er, Ea.
  - destruct (save_response_keys now uid qid t p db) as (H & Eu & Ea).
    unfold userprofile_keys, staffapplication_keys in *. rewrite Eu, Ea.
    split; [exact Hu|]. split; [|exact Ha].
    apply (@NoDup_keys_step _ _ (fun k => (snd (fst k), snd k))
             (userresponse_keys db) _ (userresponse_id_seq db + 1, uid, qid));
      [|exact Hr].
    destruct H as [H|[Hn H]]; [now left|right]. split; [|exact H].
    simpl. unfold userresponse_keys. now rewrite map_map.
  - destruct (get_or_create_application_keys now uid db) as (H & Eu & Er).
    unfold userprofile_keys, userresponse_keys in *. rewrite Eu, Er.
    split; [exact Hu|]. split; [exact Hr|].
    apply (@NoDup_keys_step _ _ snd (staffapplication_keys db) _
             (staffapplication_id_seq db + 1, uid));
      [|exact Ha].
    destruct H as [H|[Hn H]]; [now left|right]. split; [|exact H].
    simpl. unfold staffapplication_keys. now rewrite map_map.
  - destruct (update_application_keys now uid kwargs db) as (H & Eu & Er).
    unfold userprofile_keys, userresponse_keys in *.
    now rewrite H, Eu, Er.
  - destruct (complete_application_keys now uid db) as (H & Eu & Er).
    unfold userprofile_keys, userresponse_keys in *.
    now rewrite H, Eu, Er.
Qed.

Lemma conversation_keeps_unique_constraints_witness :
  unique_constraints
    (w_db (run_updates "20260101_120000" scenario_updates
             (on_question scenario_questions 1 1 None))).
Proof.
  apply conversation_keeps_unique_constraints.
  repeat split; repeat constructor; simpl; intuition discriminate.
Defined.

(** ** Answers that find nothing to answer *)

(** X4: The session names no question (the key is missing or holds 0): the
    text and the photo handler close the session with one message and
    touch neither the database nor the failure schedule. *)
Theorem answer_without_question_id_closes_session (now : Z) (stamp : string)
    (m : Message) (w : World) :
  truthy_id (current_question_id (w_data w)) = None ->
  process_text_answer now m w
  = (inr tt, closed_with (Answer SESSION_ERROR_MESSAGE None) w) /\
  process_photo_answer now stamp m w
  = (inr tt, closed_with (Answer SESSION_ERROR_MESSAGE None) w).
Proof.
  intros H. unfold process_text_answer, process_photo_answer, bind, get_data.
  reduce_pairs. rewrite H. split; reflexivity.
Qed.

Lemma answer_without_question_id_closes_session_witness :
  process_text_answer 70 (text_message "привет") completed_world
  = (inr tt, closed_with (Answer SESSION_ERROR_MESSAGE None) completed_world).
Proof.
  apply (answer_without_question_id_closes_session 70 "s" (text_message "привет")
           completed_world eq_refl).
Defined.

(** X5: The session names a question that is not in the table any more:
    each of the three answer handlers closes the session with the
    question-not-found message and writes nothing.  The choice handler
    does so for a missing id as well. *)
Theorem answer_to_missing_question_closes_session (now : Z) (stamp : string)
    (m : Message) (c : CallbackQuery) (w : World) :
  w_faults w = None ->
  value_of (get_question_by_id (current_question_id (w_data w)) (w_db w)) = None ->
  (truthy_id (current_question_id (w_data w)) <> None ->
   process_text_answer now m w
   = (inr tt, closed_with (Answer QUESTION_NOT_FOUND_MESSAGE None) w) /\
   process_photo_answer now stamp m w
   = (inr tt, closed_with (Answer QUESTION_NOT_FOUND_MESSAGE None) w)) /\
  process_choice_answer now c w
  = (inr tt,
     closed_with (EditText QUESTION_NOT_FOUND_MESSAGE)
       (mkWorld (w_db w) (w_state w) (w_data w) (w_out w ++ [CallbackAnswer])
          (w_files w) (w_faults w))).
Proof.
  destruct w as [db st d out files faults]. reduce_pairs. intros -> Hq.
  split.
  - intros Hid. unfold process_text_answer, process_photo_answer, bind, get_data.
    reduce_pairs. unfold truthy_id in *.
    destruct (current_question_id d) as [i|]; [|now destruct Hid].
    destruct (i =? 0); [now destruct Hid|].
    rewrite call_none.
    change (get_question_by_id (Some i) db)
      with (@inr Exn _ (value_of (get_question_by_id (Some i) db)), db).
    rewrite Hq. split; reflexivity.
  - unfold process_choice_answer, bind, get_data, send. reduce_pairs.
    rewrite call_none.
    change (get_question_by_id (current_question_id d) db)
      with (@inr Exn _ (value_of (get_question_by_id (current_question_id d) db)),
            db).
    rewrite Hq. reflexivity.
Qed.

Lemma answer_to_missing_question_closes_session_witness :
  process_text_answer 70 (text_message "привет") (on_question [] 2 2 None)
  = (inr tt, closed_with (Answer QUESTION_NOT_FOUND_MESSAGE None)
               (on_question [] 2 2 None)).
Proof.
  apply (answer_to_missing_question_closes_session 70 "s" (text_message "привет")
           (press (mkButton "Да" "choice_Да")) (on_question [] 2 2 None)
           eq_refl eq_refl).
  discriminate.
Defined.

(** X6: The question is there but the sender has no profile: each of the
    three answer handlers closes the session with the user-not-found
    message and writes nothing (the text handler only gets that far when
    the question is not a photo question). *)
Theorem answer_of_unknown_applicant_closes_session (now : Z) (stamp : string)
    (m : Message) (c : CallbackQuery) (w : World) (question_id : Z)
    (question : Question) :
  w_faults w = None ->
  current_question_id (w_data w) = Some question_id ->
  question_id <> 0 ->
  value_of (get_question_by_id (Some question_id) (w_db w)) = Some question ->
  (value_of (get_user (from_user_id m) (w_db w)) = None ->
   (String.eqb (q_question_type question) "photo" = false ->
    process_text_answer now m w
    = (inr tt, closed_with (Answer USER_NOT_FOUND_MESSAGE None) w)) /\
   process_photo_answer now stamp m w
   = (inr tt, closed_with (Answer USER_NOT_FOUND_MESSAGE None) w)) /\
  (value_of (get_user (cb_from_user_id c) (w_db w)) = None ->
   process_choice_answer now c w
   = (inr tt,
      closed_with (EditText USER_NOT_FOUND_MESSAGE)
        (mkWorld (w_db w) (w_state w) (w_data w) (w_out w ++ [CallbackAnswer])
           (w_files w) (w_faults w)))).
Proof.
  destruct w as [db st d out files faults]. reduce_pairs.
  intros -> Hid Hnz Hq.
  assert (Z0 : (question_id =? 0) = false) by now apply Z.eqb_neq.
  split.
  - intros Hu. split; [intros Htype|];
      unfold process_text_answer, process_photo_answer, bind, get_data;
      reduce_pairs; rewrite Hid; unfold truthy_id; rewrite Z0, call_none;
      change (get_question_by_id (Some question_id) db)
        with (@inr Exn _ (value_of (get_question_by_id (Some question_id) db)),
              db);
      rewrite Hq; reduce_pairs; rewrite ?Htype, call_none;
      change (get_user (from_user_id m) db)
        with (@inr Exn _ (value_of (get_user (from_user_id m) db)), db);
      rewrite Hu; reflexivity.
  - intros Hu. unfold process_choice_answer, bind, get_data, send. reduce_pairs.
    rewrite Hid, call_none.
    change (get_question_by_id (Some question_id) db)
      with (@inr Exn _ (value_of (get_question_by_id (Some question_id) db)), db).
    rewrite Hq. reduce_pairs. rewrite call_none.
    change (get_user (cb_from_user_id c) db)
      with (@inr Exn _ (value_of (get_user (cb_from_user_id c) db)), db).
    rewrite Hu. reflexivity.
Qed.

Lemma answer_of_unknown_applicant_closes_session_witness :
  process_photo_answer 70 "s"
    (mkMessage 5 None None None None ["file"])
    (on_question scenario_questions 2 2 None)
  = (inr tt, closed_with (Answer USER_NOT_FOUND_MESSAGE None)
               (on_question scenario_questions 2 2 None)).
Proof.
  apply (@answer_of_unknown_applicant_closes_session 70 "s"
           (mkMessage 5 None None None None ["file"])
           (press (mkButton "Да" "choice_Да"))
           (on_question scenario_questions 2 2 None) 2
           (mkQuestion 2 2 "photo" "Паспорт" None None (Some "passport_main")
              true true)
           eq_refl eq_refl ltac:(discriminate) eq_refl).
  reflexivity.
Defined.

(** ** Photo answers *)

Lemma string_app_assoc (a b c : string) : (a ++ b) ++ c = a ++ b ++ c.
Proof. induction a as [|x a IH]; simpl; [reflexivity|now rewrite IH]. Qed.

Lemma move_to_next_question_keeps_answers (now : Z) (m : Message)
    (q : Question) (from_user : option Z) (w : World) :
  bot_admin_userresponse
    (w_db (snd (move_to_next_question now m q from_user w)))
  = bot_admin_userresponse (w_db w).
Proof.
  apply (@keeps_move_to_next_question
           (fun db db' => bot_admin_userresponse db' = bot_admin_userresponse db));
    try (intros; congruence); intros.
  - unfold update_user. destruct kwargs; [reflexivity|].
    destruct (set_clause _ _); [|reflexivity]. now destruct (fetchone _).
  - reflexivity.
  - reflexivity.
Qed.



(** ** Splitting and replacing *)

Lemma split_not_nil (sep : ascii) (s : string) : PyStr.split sep s <> [].
Proof.
  induction s as [|c s IH]; simpl; [discriminate|].
  destruct (Ascii.eqb c sep); [discriminate|].
  destruct (PyStr.split sep s); discriminate.
Qed.

Lemma split_length (sep : ascii) (s : string) :
  List.length (PyStr.split sep s) = S (count_char sep s).
Proof.
  induction s as [|c s IH]; simpl; [reflexivity|].
  destruct (Ascii.eqb c sep); simpl; [now rewrite IH|].
  destruct (PyStr.split sep s); simpl in *; [discriminate|exact IH].
Qed.

(** [split] loses nothing: joining the parts with the separator gives
    the string back; there is one part more than there are separators,
    and no part contains the separator. *)
Lemma split_round_trip (sep : ascii) (s : string) :
  String.concat (String sep EmptyString) (PyStr.split sep s) = s /\
  List.length (PyStr.split sep s) = S (count_char sep s) /\
  Forall (fun part => count_char sep part = O) (PyStr.split sep s).
Proof.
  split; [|split; [apply split_length|]].
  - induction s as [|c s IH]; simpl; [reflexivity|].
    pose proof (split_not_nil sep s) as Hne.
    destruct (Ascii.eqb c sep) eqn:E.
    + apply Ascii.eqb_eq in E. subst c.
      destruct (PyStr.split sep s) as [|w ws]; [now destruct Hne|].
      simpl in *. now rewrite IH.
    + destruct (PyStr.split sep s) as [|w ws]; [now destruct Hne|].
      destruct ws; simpl in *; now rewrite <- IH.
  - induction s as [|c s IH]; simpl; [repeat constructor|].
    pose proof (split_not_nil sep s) as Hne.
    destruct (Ascii.eqb c sep) eqn:E.
    + constructor; [reflexivity|exact IH].
    + destruct (PyStr.split sep s) as [|w ws]; [now destruct Hne|].
      inversion IH as [|? ? Hw Hws]; subst. constructor; [|exact Hws].
      simpl. now rewrite E.
Qed.

Lemma replace_from_no_occurrence (old new s : string) :
  occurs old s = false -> PyStr.replace_from old new O s = s.
Proof.
  induction s as [|c s IH]; simpl; [reflexivity|]. intros H.
  apply orb_false_iff in H. destruct H as [Hp Ho].
  change (match old with
          | "" => true
          | String a s1' =>
              if ascii_dec a c then String.prefix s1' s else false
          end) with (String.prefix old (String c s)) in *.
  rewrite Hp. now rewrite IH.
Qed.

(** A string that does not contain [old] comes out of [replace] as it
    went in. *)
Lemma replace_no_occurrence (old new s : string) :
  occurs old s = false -> PyStr.replace old new s = s.
Proof. apply replace_from_no_occurrence. Qed.

(** ** Choice keyboards *)

(** X8: The keyboard of a choice question has one row per comma-separated
    part, that is one more than there are commas, each row holds a
    single button, and a button's callback data is its label behind
    [choice_].  An empty part gives a button with an empty label. *)
Theorem choices_keyboard_shape (choices : string) :
  List.length (get_choices_keyboard choices) = S (count_char "," choices) /\
  Forall (fun row => exists b, row = [b] /\
                               callback_data b = "choice_" ++ text b)
         (get_choices_keyboard choices) /\
  map text (List.concat (get_choices_keyboard choices))
  = map PyStr.strip (PyStr.split "," choices).
Proof.
  unfold get_choices_keyboard.
  rewrite !length_map, split_length. split; [reflexivity|]. split.
  - apply Forall_forall. intros row Hrow. apply in_map_iff in Hrow.
    destruct Hrow as (choice & <- & _). eexists. split; reflexivity.
  - induction (map PyStr.strip (PyStr.split "," choices)) as [|c l IH];
      [reflexivity|]. cbn [map List.concat app text]. now f_equal.
Qed.

(** X9: Rendering and storing a choice: the applicant presses a button of
    the keyboard built from [choices] whose label does not contain
    [choice_].  Then the response stored for the question holds exactly
    the label, and no photo. *)
Theorem choice_without_prefix_is_stored_verbatim (now : Z) (c : CallbackQuery)
    (w : World) (question_id : Z) (question : Question) (user : UserProfile)
    (choices : string) (b : InlineKeyboardButton) :
  w_faults w = None ->
  current_question_id (w_data w) = Some question_id ->
  value_of (get_question_by_id (Some question_id) (w_db w)) = Some question ->
  value_of (get_user (cb_from_user_id c) (w_db w)) = Some user ->
  In [b] (get_choices_keyboard choices) ->
  data c = callback_data b ->
  occurs "choice_" (text b) = false ->
  responses_of (u_id user) question_id
    (w_db (snd (process_choice_answer now c w))) <> [] /\
  forall r,
    In r (responses_of (u_id user) question_id
            (w_db (snd (process_choice_answer now c w)))) ->
    r_text_answer r = Some (text b) /\ r_photo r = None.
Proof.
  intros Hf Hid Hq Hu Hb Hdata Hocc.
  destruct (process_choice_answer_stores now c w Hid Hq Hu Hf)
    as (w1 & Hrun & Hresp).
  assert (Hanswer : PyStr.replace "choice_" "" (data c) = text b).
  { unfold get_choices_keyboard in Hb. apply in_map_iff in Hb.
    destruct Hb as (choice & [= <-] & _). rewrite Hdata.
    cbn [callback_data text] in *.
    transitivity (PyStr.replace "choice_" "" choice);
      [exact (replace_after_prefix choice)|now apply replace_no_occurrence]. }
  unfold responses_of.
  rewrite Hrun, move_to_next_question_keeps_answers, Hresp, Hanswer.
  destruct (save_response_rows now (u_id user) question_id (Some (text b)) None
              (w_db w)) as (Hne & _ & Hrows).
  split; [exact Hne|]. intros r Hr. destruct (Hrows r Hr) as (? & ? & _).
  now split.
Qed.

Lemma choice_without_prefix_is_stored_verbatim_witness :
  Forall (fun r => r_text_answer r = Some "Нет" /\ r_photo r = None)
    (responses_of 1 1
       (w_db (snd (process_choice_answer 70 (press (mkButton "Нет" "choice_Нет"))
                     (on_question yes_no_questions 1 1 None))))).
Proof.
  destruct (@choice_without_prefix_is_stored_verbatim 70
              (press (mkButton "Нет" "choice_Нет"))
              (on_question yes_no_questions 1 1 None) 1
              (mkQuestion 1 1 "choice" "Дети?" (Some "Да, Нет") None
                 (Some "children") true true)
              (applicant (Some 1) false) "Да, Нет" (mkButton "Нет" "choice_Нет")
              eq_refl eq_refl eq_refl eq_refl
              ltac:(right; left; reflexivity) eq_refl eq_refl)
    as (_ & H).
  apply Forall_forall. exact H.
Defined.

(** ** Getting or creating rows *)

Lemma db_eta (db : Db) :
  mkDb (bot_admin_question db) (bot_admin_userprofile db)
       (bot_admin_userresponse db) (bot_admin_staffapplication db)
       (userprofile_id_seq db) (userresponse_id_seq db)
       (staffapplication_id_seq db) = db.
Proof. now destruct db. Qed.

Lemma filter_snoc_fresh (A : Type) (p : A -> bool) (rows : list A) (x : A) :
  fetchone (filter p rows) = None -> p x = true ->
  filter p (rows ++ [x]) = [x].
Proof.
  intros H Hx. apply fetchone_none in H. rewrite filter_app, H. simpl.
  now rewrite Hx.
Qed.

(** X10: [get_or_create_user] returns the profile of the Telegram id, which
    [get_user] finds afterwards; calling it again, with whatever names,
    returns the same profile and changes nothing.  A profile that was
    there is returned as it is and the database is left alone; a new one
    is appended with the next id, the names given, both flags false and
    no current question. *)
Theorem get_or_create_user_round_trip (now tid : Z) (un fn ln : option string)
    (db : Db) :
  exists u,
    fst (get_or_create_user now tid un fn ln db) = inr u /\
    u_telegram_id u = tid /\
    value_of (get_user tid (snd (get_or_create_user now tid un fn ln db)))
    = Some u /\
    (forall now' un' fn' ln',
       get_or_create_user now' tid un' fn' ln'
         (snd (get_or_create_user now tid un fn ln db))
       = (inr u, snd (get_or_create_user now tid un fn ln db))) /\
    match value_of (get_user tid db) with
    | Some u0 => u = u0 /\ snd (get_or_create_user now tid un fn ln db) = db
    | None =>
        u = mkUserProfile (userprofile_id_seq db + 1) tid un fn ln None false
              false now now /\
        bot_admin_userprofile (snd (get_or_create_user now tid un fn ln db))
        = (bot_admin_userprofile db ++ [u])%list
    end.
Proof.
  unfold get_or_create_user, get_user, value_of, returns. simpl.
  destruct (fetchone (filter (fun u => u_telegram_id u =? tid)
                             (bot_admin_userprofile db))) as [u0|] eqn:E; simpl.
  - exists u0. rewrite E. repeat split; trivial.
    destruct (filter _ (bot_admin_userprofile db)) as [|x rest] eqn:F;
      [discriminate|].
    injection E as ->.
    assert (Hin : In u0 (filter (fun u => u_telegram_id u =? tid)
                           (bot_admin_userprofile db)))
      by (rewrite F; now left).
    apply filter_In in Hin. destruct Hin as [_ Hin]. now apply Z.eqb_eq.
  - eexists. split; [reflexivity|]. split; [reflexivity|].
    rewrite (filter_snoc_fresh _ _ _ E) by (simpl; apply Z.eqb_refl).
    repeat split.
Qed.

(** X11: The same for applications: the one of the applicant is returned
    untouched, or a new one is appended, [in_progress], with every field
    and the completion time empty. *)
Theorem get_or_create_application_round_trip (now uid : Z) (db : Db) :
  exists a,
    fst (get_or_create_application now uid db) = inr a /\
    a_user_id a = uid /\
    (forall now',
       get_or_create_application now' uid
         (snd (get_or_create_application now uid db))
       = (inr a, snd (get_or_create_application now uid db))) /\
    (In uid (map a_user_id (bot_admin_staffapplication db)) ->
     snd (get_or_create_application now uid db) = db) /\
    (~ In uid (map a_user_id (bot_admin_staffapplication db)) ->
     a = mkStaffApplication (staffapplication_id_seq db + 1) uid "in_progress"
           None None None None None None None None None None None None None
           now now None /\
     bot_admin_staffapplication (snd (get_or_create_application now uid db))
     = (bot_admin_staffapplication db ++ [a])%list).
Proof.
  unfold get_or_create_application, returns.
  destruct (fetchone (filter (fun a => a_user_id a =? uid)
                             (bot_admin_staffapplication db))) as [a0|] eqn:E;
    simpl.
  - exists a0. rewrite E.
    assert (Hin : In a0 (filter (fun a => a_user_id a =? uid)
                           (bot_admin_staffapplication db))).
    { destruct (filter _ (bot_admin_staffapplication db)); [discriminate|].
      injection E as ->. now left. }
    apply filter_In in Hin. destruct Hin as [Hin Hid]. apply Z.eqb_eq in Hid.
    split; [reflexivity|]. split; [exact Hid|]. split; [reflexivity|].
    split; [reflexivity|]. intros Hno. exfalso. apply Hno.
    rewrite <- Hid. now apply in_map.
  - eexists. split; [reflexivity|]. split; [reflexivity|].
    rewrite (filter_snoc_fresh _ _ _ E) by (simpl; apply Z.eqb_refl).
    split; [reflexivity|]. split; [|now split]. intros Hin. exfalso.
    apply in_map_iff in Hin. destruct Hin as (a & Ha & Hin).
    pose proof (fetchone_filter_none _ _ a E Hin) as C. simpl in C.
    apply Z.eqb_neq in C. contradiction.
Qed.

(** ** Writes that match no row *)

Lemma update_where_nothing (A : Type) (cond : A -> bool) (set : A -> A)
    (rows : list A) :
  (forall x, In x rows -> cond x = false) -> update_where cond set rows = rows.
Proof.
  intros H. unfold update_where. rewrite <- (map_id rows) at 2.
  apply map_ext_in. intros x Hx. now rewrite (H x Hx).
Qed.

(** X12: For a Telegram id without a profile, [set_current_question] reports
    success and [update_user] raises, and neither changes the database.
    For an applicant without an application, [complete_application]
    returns nothing and [update_application] returns nothing or rejects
    its keywords, and neither changes the database. *)
Theorem writes_to_missing_rows_change_nothing (now : Z) (db : Db) :
  (forall tid q kwargs,
     value_of (get_user tid db) = None ->
     set_current_question now tid q db = (inr tt, db) /\
     snd (update_user now tid kwargs db) = db /\
     (fst (update_user now tid kwargs db) = inl TypeError \/
      fst (update_user now tid kwargs db) = inl ProgrammingError)) /\
  (forall uid kwargs,
     ~ In uid (map a_user_id (bot_admin_staffapplication db)) ->
     complete_application now uid db = (inr None, db) /\
     snd (update_application now uid kwargs db) = db /\
     (fst (update_application now uid kwargs db) = inr None \/
      fst (update_application now uid kwargs db) = inl ProgrammingError)).
Proof.
  split.
  - intros tid q kwargs Hu. unfold value_of, get_user, returns in Hu.
    simpl in Hu.
    assert (Hno : forall u, In u (bot_admin_userprofile db) ->
                            (u_telegram_id u =? tid) = false)
      by (intros u; apply (fetchone_filter_none _ _ u Hu)).
    unfold set_current_question, update_user, returns, raises, with_userprofile.
    rewrite update_where_nothing by exact Hno. rewrite db_eta.
    split; [reflexivity|].
    destruct kwargs as [|kv kwargs]; [now split; [|right]|].
    destruct (set_clause set_userprofile_column (kv :: kwargs));
      [|now split; [|right]].
    rewrite update_where_nothing by exact Hno. simpl. rewrite Hu, db_eta.
    now split; [|left].
  - intros uid kwargs Ha.
    assert (Hno : forall a, In a (bot_admin_staffapplication db) ->
                            (a_user_id a =? uid) = false).
    { intros a Hin. apply Z.eqb_neq. intros <-. apply Ha. now apply in_map. }
    assert (Hnone : filter (fun a => a_user_id a =? uid)
                      (bot_admin_staffapplication db) = []).
    { destruct (filter _ _) as [|a rest] eqn:F; [reflexivity|].
      assert (Hin : In a (filter (fun a => a_user_id a =? uid)
                            (bot_admin_staffapplication db)))
        by (rewrite F; now left).
      apply filter_In in Hin. destruct Hin as [Hin C].
      now rewrite (Hno a Hin) in C. }
    unfold complete_application, update_application, returns, raises,
      with_staffapplication.
    rewrite update_where_nothing by exact Hno. simpl. rewrite Hnone, db_eta.
    split; [reflexivity|].
    destruct (set_clause set_staffapplication_column kwargs);
      [|now split; [|right]].
    rewrite update_where_nothing by exact Hno. simpl. rewrite Hnone, db_eta.
    now split; [|left].
Qed.

Lemma get_or_create_application_round_trip_witness :
  snd (get_or_create_application 70 1 (scenario_db scenario_questions None))
  = scenario_db scenario_questions None.
Proof.
  destruct (get_or_create_application_round_trip 70 1
              (scenario_db scenario_questions None)) as (a & _ & _ & _ & H & _).
  apply H. now left.
Defined.

Lemma writes_to_missing_rows_change_nothing_witness :
  set_current_question 70 5 (Some 2) (scenario_db scenario_questions None)
  = (inr tt, scenario_db scenario_questions None) /\
  complete_application 70 9 (scenario_db scenario_questions None)
  = (inr None, scenario_db scenario_questions None).
Proof.
  destruct (writes_to_missing_rows_change_nothing 70
              (scenario_db scenario_questions None)) as (Hu & Ha).
  split.
  - apply (Hu 5 (Some 2) []). reflexivity.
  - apply (Ha 9 []). simpl. intuition discriminate.
Defined.

(** ** The start of the flow *)

Lemma get_or_create_user_returns (now tid : Z) (un fn ln : option string)
    (db : Db) :
  exists u,
    fst (get_or_create_user now tid un fn ln db) = inr u /\
    match value_of (get_user tid db) with
    | Some u0 => u = u0
    | None => u_is_registration_complete u = false
    end.
Proof.
  unfold get_or_create_user, get_user, value_of, returns. simpl.
  destruct (fetchone _) as [u0|]; simpl; eauto.
Qed.

(** X13: [/start] from someone who has not completed the registration, in
    whatever state the session is: the profile is fetched, or created
    when there is none, by [get_or_create_user] and nothing else is
    written; the session is reset to the team question; the welcome goes
    out, with the picture when the file is there, and then the question
    with the yes/no keyboard. *)
Theorem start_opens_flow (now : Z) (m : Message) (w : World) :
  w_faults w = None ->
  match value_of (get_user (from_user_id m) (w_db w)) with
  | Some u => u_is_registration_complete u = false
  | None => True
  end ->
  cmd_start now m w
  = (inr tt,
     mkWorld
       (snd (get_or_create_user now (from_user_id m) (from_username m)
               (from_first_name m) (from_last_name m) (w_db w)))
       (Some asking_team_member) no_data
       (w_out w
        ++ [ if existsb (String.eqb "/app/media/welcome.jpg") (w_files w)
             then AnswerPhoto "/app/media/welcome.jpg" WELCOME_MESSAGE None
             else Answer WELCOME_MESSAGE None;
             Answer "Ты уже являешься частью команды <b>«Новые грани»</b>?"
               (Some get_team_member_keyboard) ])
       (w_files w) None).
Proof.
  destruct w as [db st d out files faults]. reduce_pairs. intros -> Hu.
  unfold cmd_start, bind, clear. reduce_pairs. rewrite call_none.
  destruct (get_or_create_user_returns now (from_user_id m) (from_username m)
              (from_first_name m) (from_last_name m) db) as (u & -> & Hcase).
  reduce_pairs.
  assert (Hflag : u_is_registration_complete u = false).
  { destruct (value_of (get_user (from_user_id m) db)) as [u0|];
      [now subst u0|exact Hcase]. }
  rewrite Hflag. unfold path_exists, send, set_state. reduce_pairs.
  destruct (existsb _ files); reduce_pairs; now rewrite <- app_assoc.
Qed.

Lemma start_opens_flow_witness :
  w_state (snd (cmd_start 70 (mkMessage 5 (Some "anna") None None
                                (Some "/start") [])
                  completed_world))
  = Some asking_team_member /\
  map u_telegram_id
    (bot_admin_userprofile
       (w_db (snd (cmd_start 70 (mkMessage 5 (Some "anna") None None
                                   (Some "/start") [])
                     completed_world))))
  = [1001; 5].
Proof.
  rewrite (start_opens_flow 70 (mkMessage 5 (Some "anna") None None
                                  (Some "/start") [])
             completed_world eq_refl I).
  split; reflexivity.
Defined.

(** ** The team question *)

(** X14: The answer to the team question, from an applicant with a profile:
    the flag is stored as pressed and nothing else of the profile
    changes but the update time; [team_yes] leads to the position
    question, anything else ends the session. *)
Theorem team_member_answer_is_stored (now : Z) (c : CallbackQuery) (w : World)
    (user : UserProfile) :
  w_faults w = None ->
  value_of (get_user (cb_from_user_id c) (w_db w)) = Some user ->
  fst (process_team_member now c w) = inr tt /\
  value_of (get_user (cb_from_user_id c) (w_db (snd (process_team_member now c w))))
  = Some (mkUserProfile (u_id user) (u_telegram_id user) (u_username user)
            (u_first_name user) (u_last_name user) (u_current_question_id user)
            (String.eqb (data c) "team_yes") (u_is_registration_complete user)
            (u_created_at user) now) /\
  w_state (snd (process_team_member now c w))
  = (if String.eqb (data c) "team_yes" then Some asking_position else None) /\
  List.length (w_out (snd (process_team_member now c w)))
  = (List.length (w_out w) + 2)%nat.
Proof.
  destruct w as [db st d out files faults]. reduce_pairs. intros -> Hu.
  unfold value_of, get_user, returns in Hu. simpl in Hu.
  unfold process_team_member, bind, send. reduce_pairs. rewrite call_none.
  unfold update_user. simpl set_clause. cbv iota.
  cbn [bot_admin_userprofile with_userprofile].
  rewrite filter_update_where by reflexivity.
  destruct (filter _ (bot_admin_userprofile db)) as [|u0 rest] eqn:F;
    [discriminate|].
  simpl in Hu. injection Hu as ->.
  cbn [map fetchone hd_error returns fst snd].
  unfold value_of, get_user, returns.
  destruct (String.eqb (data c) "team_yes"); unfold set_state, clear;
    reduce_pairs; cbn [bot_admin_userprofile with_userprofile fst];
    rewrite filter_update_where by reflexivity; rewrite F;
    repeat split; rewrite ?length_app; simpl; lia.
Qed.

Lemma team_member_answer_is_stored_witness :
  w_state (snd (process_team_member 70 (press (mkButton "✅ Да" "team_yes"))
                  completed_world))
  = Some asking_position.
Proof.
  destruct (@team_member_answer_is_stored 70 (press (mkButton "✅ Да" "team_yes"))
              completed_world (applicant None true) eq_refl eq_refl)
    as (_ & _ & H & _).
  exact H.
Defined.

(** ** Entering the questions *)

Lemma set_current_question_get_user (now tid : Z) (q : option Z) (db : Db)
    (user : UserProfile) :
  value_of (get_user tid db) = Some user ->
  value_of (get_user tid (snd (set_current_question now tid q db)))
  = Some (mkUserProfile (u_id user) (u_telegram_id user) (u_username user)
            (u_first_name user) (u_last_name user) q (u_is_team_member user)
            (u_is_registration_complete user) (u_created_at user) now).
Proof.
  unfold value_of, get_user, set_current_question, returns. simpl.
  rewrite filter_update_where by reflexivity.
  destruct (filter _ (bot_admin_userprofile db)) as [|u0 rest];
    [discriminate|].
  simpl. now intros [= ->].
Qed.

Lemma set_current_question_missing (now tid : Z) (q : option Z) (db : Db) :
  value_of (get_user tid db) = None ->
  set_current_question now tid q db = (inr tt, db).
Proof.
  unfold value_of, get_user, set_current_question, returns, with_userprofile.
  simpl. intros Hu. rewrite update_where_nothing, db_eta; [reflexivity|].
  intros u. apply (fetchone_filter_none _ _ u Hu).
Qed.

(** What [process_position] commits and leaves in the session when
    there is a first question and no transaction fails. *)
Lemma process_position_run (now : Z) (m : Message) (db : Db)
    (st : option RegistrationStates) (d : StateData) (out : list Outbound)
    (files : list string) (first : Question) :
  value_of (get_first_question db) = Some first ->
  exists out',
    process_position now m (mkWorld db st d out files None)
    = (inr tt,
       mkWorld
         (snd (set_current_question now (from_user_id m) (Some (q_id first))
                 match value_of (get_user (from_user_id m) db) with
                 | Some u =>
                     snd (update_application now (u_id u)
                            [("position", value_of_str (msg_text m))]
                            (snd (get_or_create_application now (u_id u) db)))
                 | None => db
                 end))
         (Some answering_questions)
         (mkStateData (msg_text m) (Some (q_id first)) (Some (q_order first)))
         out' files None).
Proof.
  intros Hfirst. unfold process_position, bind. rewrite call_none.
  change (get_user (from_user_id m) db)
    with (@inr Exn _ (value_of (get_user (from_user_id m) db)), db).
  reduce_pairs.
  assert (Htail : forall db2 out2,
            bot_admin_question db2 = bot_admin_question db ->
            exists out',
              (let (s, w') :=
                 call get_first_question
                   (mkWorld db2 st
                      (mkStateData (msg_text m) (current_question_id d)
                         (current_question_order d)) out2 files None) in
               match s with
               | inl e => (inl e, w')
               | inr first_question =>
                   match first_question with
                   | Some first =>
                       bind (call (set_current_question now (from_user_id m)
                                     (Some (q_id first))))
                         (fun _ =>
                            bind (update_data
                                    (fun d => mkStateData (position d)
                                                (Some (q_id first))
                                                (Some (q_order first))))
                              (fun _ =>
                                 bind (send_question first)
                                   (fun _ => set_state answering_questions)))
                   | None =>
                       bind (send (Answer NO_QUESTIONS_MESSAGE None))
                         (fun _ => clear)
                   end w'
               end)
              = (inr tt,
                 mkWorld
                   (snd (set_current_question now (from_user_id m)
                           (Some (q_id first)) db2))
                   (Some answering_questions)
                   (mkStateData (msg_text m) (Some (q_id first))
                      (Some (q_order first)))
                   out' files None)).
  { intros db2 out2 Hq. rewrite call_none.
    rewrite (@get_first_question_ext db db2 Hq), Hfirst. reduce_pairs.
    unfold bind at 1. rewrite call_none.
    unfold set_current_question at 1, returns. reduce_pairs.
    unfold bind at 1, update_data. reduce_pairs. unfold bind at 1.
    match goal with
    | |- context [send_question first (mkWorld ?a ?b ?c ?o ?e ?f)] =>
        destruct (send_question_run first a b c o e f) as (msg & ->)
    end.
    unfold set_state. reduce_pairs. eexists. reflexivity. }
  destruct (value_of (get_user (from_user_id m) db)) as [u|].
  - unfold bind. rewrite call_none.
    destruct (get_or_create_application_frame now (u_id u) db)
      as ((app & ->) & Hq1 & _).
    reduce_pairs. rewrite call_none.
    destruct (update_application_frame now (u_id u)
                [("position", value_of_str (msg_text m))]
                (snd (get_or_create_application now (u_id u) db)))
      as ((r & ->) & Hq2 & _); [now destruct (msg_text m)|].
    unfold ret, update_data, send. reduce_pairs.
    apply Htail. etransitivity; [exact Hq2|exact Hq1].
  - unfold ret, bind, update_data, send. reduce_pairs. now apply Htail.
Qed.

Lemma get_or_create_application_has (now uid : Z) (db : Db) :
  In uid (map a_user_id
            (bot_admin_staffapplication
               (snd (get_or_create_application now uid db)))).
Proof.
  unfold get_or_create_application.
  destruct (fetchone _) as [a|] eqn:E; simpl.
  - assert (Hin : In a (filter (fun a => a_user_id a =? uid)
                          (bot_admin_staffapplication db))).
    { destruct (filter _ (bot_admin_staffapplication db)); [discriminate|].
      injection E as ->. now left. }
    apply filter_In in Hin. destruct Hin as [Hin Hid]. apply Z.eqb_eq in Hid.
    rewrite <- Hid. now apply in_map.
  - rewrite map_app, in_app_iff. right. now left.
Qed.

(** X15: A position from an applicant with a profile, when the catalogue has
    a first question and no transaction fails: the session enters
    [answering_questions] on that question, the profile's current
    question is the same one, and the applicant has an application whose
    position is the text sent. *)
Theorem position_enters_first_question (now : Z) (m : Message) (w : World)
    (user : UserProfile) (first : Question) :
  w_faults w = None ->
  value_of (get_user (from_user_id m) (w_db w)) = Some user ->
  value_of (get_first_question (w_db w)) = Some first ->
  fst (process_position now m w) = inr tt /\
  w_state (snd (process_position now m w)) = Some answering_questions /\
  w_data (snd (process_position now m w))
  = mkStateData (msg_text m) (Some (q_id first)) (Some (q_order first)) /\
  value_of (get_user (from_user_id m) (w_db (snd (process_position now m w))))
  = Some (mkUserProfile (u_id user) (u_telegram_id user) (u_username user)
            (u_first_name user) (u_last_name user) (Some (q_id first))
            (u_is_team_member user) (u_is_registration_complete user)
            (u_created_at user) now) /\
  In (u_id user)
     (map a_user_id
        (bot_admin_staffapplication (w_db (snd (process_position now m w))))) /\
  forall a,
    In a (bot_admin_staffapplication (w_db (snd (process_position now m w)))) ->
    a_user_id a = u_id user -> a_position a = msg_text m.
Proof.
  destruct w as [db st d out files faults]. reduce_pairs.
  intros -> Hu Hfirst.
  destruct (process_position_run now m db st d out files Hfirst) as (out' & ->).
  rewrite Hu. reduce_pairs.
  set (db1 := snd (get_or_create_application now (u_id user) db)).
  set (kwargs := [("position", value_of_str (msg_text m))]).
  set (db2 := snd (update_application now (u_id user) kwargs db1)).
  destruct (get_or_create_application_frame now (u_id user) db)
    as (_ & _ & Hu1 & _). fold db1 in Hu1.
  destruct (update_application_frame now (u_id user) kwargs db1)
    as (_ & _ & Hu2 & _); [unfold kwargs; now destruct (msg_text m)|].
  fold db2 in Hu2.
  assert (Ha2 : bot_admin_staffapplication db2
                = update_where (fun a => a_user_id a =? u_id user)
                    (fun a => touch_staffapplication now
                                (set_text_column "position" (msg_text m) a))
                    (bot_admin_staffapplication db1)).
  { unfold db2, kwargs, update_application. now destruct (msg_text m). }
  split; [reflexivity|]. split; [reflexivity|]. split; [reflexivity|]. split.
  - apply set_current_question_get_user.
    rewrite (@get_user_ext (from_user_id m) db db2) by congruence. exact Hu.
  - cbn [set_current_question returns snd with_userprofile
           bot_admin_staffapplication].
    rewrite Ha2. split.
    + rewrite update_where_keeps by reflexivity.
      apply get_or_create_application_has.
    + intros a Hin Ha. apply update_where_In in Hin.
      destruct Hin as (a0 & _ & ->).
      destruct (a_user_id a0 =? u_id user) eqn:C; [reflexivity|].
      apply Z.eqb_neq in C. contradiction.
Qed.

Lemma position_enters_first_question_witness :
  w_state (snd (process_position 70 (text_message "повар")
                  (giving_position scenario_questions)))
  = Some answering_questions /\
  map u_current_question_id
    (bot_admin_userprofile
       (w_db (snd (process_position 70 (text_message "повар")
                     (giving_position scenario_questions)))))
  = [Some 1] /\
  map a_position
    (bot_admin_staffapplication
       (w_db (snd (process_position 70 (text_message "повар")
                     (giving_position scenario_questions)))))
  = [Some "повар"].
Proof.
  destruct (@position_enters_first_question 70 (text_message "повар")
              (giving_position scenario_questions) (applicant None false)
              (mkQuestion 1 1 "text" "ФИО?" None None (Some "full_name") true true)
              eq_refl eq_refl eq_refl)
    as (_ & Hst & _).
  split; [exact Hst|]. split; reflexivity.
Defined.

(** X16: A position from a sender without a profile, when the catalogue has a
    first question: nothing at all is written, neither an application
    nor a current question, and still the session enters
    [answering_questions] on the first question. *)
Theorem position_of_unknown_sender_enters_flow (now : Z) (m : Message)
    (w : World) (first : Question) :
  w_faults w = None ->
  value_of (get_user (from_user_id m) (w_db w)) = None ->
  value_of (get_first_question (w_db w)) = Some first ->
  fst (process_position now m w) = inr tt /\
  w_db (snd (process_position now m w)) = w_db w /\
  w_state (snd (process_position now m w)) = Some answering_questions /\
  current_question_id (w_data (snd (process_position now m w)))
  = Some (q_id first).
Proof.
  destruct w as [db st d out files faults]. reduce_pairs.
  intros -> Hu Hfirst.
  destruct (process_position_run now m db st d out files Hfirst) as (out' & ->).
  rewrite Hu. reduce_pairs.
  rewrite set_current_question_missing by exact Hu. now repeat split.
Qed.

Lemma position_of_unknown_sender_enters_flow_witness :
  w_db (snd (process_position 70 (mkMessage 5 None None None (Some "повар") [])
               (giving_position scenario_questions)))
  = w_db (giving_position scenario_questions) /\
  w_state (snd (process_position 70
                  (mkMessage 5 None None None (Some "повар") [])
                  (giving_position scenario_questions)))
  = Some answering_questions.
Proof.
  destruct (@position_of_unknown_sender_enters_flow 70
              (mkMessage 5 None None None (Some "повар") [])
              (giving_position scenario_questions)
              (mkQuestion 1 1 "text" "ФИО?" None None (Some "full_name") true true)
              eq_refl eq_refl eq_refl)
    as (_ & Hdb & Hst & _).
  now split.
Defined.

(** X17: An accepted text answer with a question left, when no transaction
    fails: the session stays in its state and moves to the next
    question, and the profile's current question is the same one; the
    rest of the profile is unchanged but for the update time. *)
Theorem accepted_answer_moves_session_and_profile (now : Z) (m : Message)
    (w : World) (question_id : Z) (question next : Question)
    (user : UserProfile) (t : string) :
  w_faults w = None ->
  current_question_id (w_data w) = Some question_id ->
  question_id <> 0 ->
  value_of (get_question_by_id (Some question_id) (w_db w)) = Some question ->
  String.eqb (q_question_type question) "photo" = false ->
  value_of (get_user (from_user_id m) (w_db w)) = Some user ->
  msg_text m = Some t ->
  value_of (get_next_question (q_order question) (w_db w)) = Some next ->
  fst (process_text_answer now m w) = inr tt /\
  w_state (snd (process_text_answer now m w)) = w_state w /\
  current_question_id (w_data (snd (process_text_answer now m w)))
  = Some (q_id next) /\
  value_of (get_user (from_user_id m) (w_db (snd (process_text_answer now m w))))
  = Some (mkUserProfile (u_id user) (u_telegram_id user) (u_username user)
            (u_first_name user) (u_last_name user) (Some (q_id next))
            (u_is_team_member user) (u_is_registration_complete user)
            (u_created_at user) now).
Proof.
  destruct w as [db st d out files faults]. reduce_pairs.
  intros -> Hid Hnz Hq Htype Hu Ht Hnext.
  destruct (process_text_answer now m (mkWorld db st d out files None))
    as [r w'] eqn:Hrun.
  destruct (@process_text_answer_run now m db st d out files None question_id
              question user t Hid Hnz Hq Htype Hu Ht r w' Hrun _ _ _
              eq_refl eq_refl eq_refl)
    as [(_ & Hf & _)|(-> & Hdb & Hrest)]; [now destruct Hf|].
  rewrite Hnext in Hdb, Hrest. destruct Hrest as (Hst & Hd).
  reduce_pairs. rewrite Hdb. repeat split; trivial.
  unfold finished, advanced. apply set_current_question_get_user.
  destruct (save_response_frame now (u_id user) question_id (Some t) None db)
    as (_ & _ & Hu1 & _).
  destruct (mapped_frame now (u_id user) (q_field_name question) (Some t)
              (saved now (u_id user) question_id (Some t) None db))
    as (_ & Hu2 & _).
  rewrite (@get_user_ext (from_user_id m) db) by congruence. exact Hu.
Qed.

Lemma accepted_answer_moves_session_and_profile_witness :
  current_question_id
    (w_data (snd (process_text_answer 70 (text_message "Иван Иванов")
                    (on_question scenario_questions 1 1 None))))
  = Some 2 /\
  value_of (get_user 1001
              (w_db (snd (process_text_answer 70 (text_message "Иван Иванов")
                            (on_question scenario_questions 1 1 None)))))
  = Some (mkUserProfile 1 1001 (Some "ivan") (Some "Иван") None (Some 2) true
            false 50 70).
Proof.
  destruct (@accepted_answer_moves_session_and_profile 70
              (text_message "Иван Иванов")
              (on_question scenario_questions 1 1 None) 1
              (mkQuestion 1 1 "text" "ФИО?" None None (Some "full_name") true true)
              (mkQuestion 2 2 "photo" "Паспорт" None None (Some "passport_main")
                 true true)
              (applicant (Some 1) false) "Иван Иванов"
              eq_refl eq_refl ltac:(discriminate) eq_refl eq_refl eq_refl eq_refl
              eq_refl)
    as (_ & _ & Hd & Hu).
  split; [exact Hd|exact Hu].
Defined.

(** ** Sorted listings *)

Section OrderBySorted.
Variable A : Type.
Variable key : A -> Z.

Lemma insert_row_least (x : A) (l : list A) :
  (forall z, In z l -> key x <= key z) -> insert_row key x l = x :: l.
Proof.
  destruct l as [|y l]; simpl; [reflexivity|]. intros H.
  assert (C : (key x <=? key y) = true) by (apply Z.leb_le, H; now left).
  now rewrite C.
Qed.

Lemma insert_row_sorted (x : A) (l : list A) :
  StronglySorted (fun a b => key a <= key b) l ->
  StronglySorted (fun a b => key a <= key b) (insert_row key x l).
Proof.
  induction l as [|y l IH]; simpl; intros Hs.
  - repeat constructor.
  - inversion Hs as [|? ? Hl Hy]; subst.
    destruct (key x <=? key y) eqn:C.
    + apply Z.leb_le in C. constructor; [exact Hs|].
      constructor; [exact C|]. eapply Forall_impl; [|exact Hy].
      simpl. intros; lia.
    + apply Z.leb_gt in C. constructor; [now apply IH|].
      apply Forall_forall. intros z Hz. apply insert_row_In in Hz.
      destruct Hz as [->|Hz]; [lia|].
      rewrite Forall_forall in Hy. now apply Hy.
Qed.

Lemma order_by_sorted (l : list A) :
  StronglySorted (fun a b => key a <= key b) (order_by key l).
Proof.
  induction l as [|x l IH]; simpl; [constructor|now apply insert_row_sorted].
Qed.

Lemma insert_row_perm (x : A) (l : list A) :
  Permutation (insert_row key x l) (x :: l).
Proof.
  induction l as [|y l IH]; simpl; [reflexivity|].
  destruct (key x <=? key y); [reflexivity|].
  rewrite IH. apply perm_swap.
Qed.

Lemma order_by_perm (l : list A) : Permutation (order_by key l) l.
Proof.
  induction l as [|x l IH]; simpl; [reflexivity|].
  rewrite insert_row_perm. now constructor.
Qed.

Lemma filter_insert_row (p : A -> bool) (x : A) (l : list A) :
  StronglySorted (fun a b => key a <= key b) l ->
  filter p (insert_row key x l)
  = if p x then insert_row key x (filter p l) else filter p l.
Proof.
  induction l as [|y l IH]; simpl; intros Hs.
  - now destruct (p x).
  - inversion Hs as [|? ? Hl Hy]; subst. rewrite Forall_forall in Hy.
    destruct (key x <=? key y) eqn:C; simpl.
    + apply Z.leb_le in C. destruct (p x); [|reflexivity].
      symmetry. apply insert_row_least. intros z Hz.
      destruct (p y).
      * destruct Hz as [<-|Hz]; [exact C|].
        apply filter_In in Hz. specialize (Hy z (proj1 Hz)). lia.
      * apply filter_In in Hz. specialize (Hy z (proj1 Hz)). lia.
    + rewrite (IH Hl). destruct (p x), (p y); simpl; rewrite ?C; reflexivity.
Qed.

(** Sorting the rows a condition selects is selecting from the sorted
    rows: the sort is stable. *)
Lemma order_by_filter (p : A -> bool) (l : list A) :
  order_by key (filter p l) = filter p (order_by key l).
Proof.
  induction l as [|x l IH]; simpl; [reflexivity|].
  rewrite filter_insert_row by apply order_by_sorted.
  destruct (p x); simpl; now rewrite IH.
Qed.

Lemma fetchone_filter_find (p : A -> bool) (l : list A) :
  fetchone (filter p l) = find p l.
Proof.
  induction l as [|x l IH]; simpl; [reflexivity|].
  now destruct (p x).
Qed.

End OrderBySorted.

(** ** Ascending arrangements

    [ORDER BY] fixes the order of the rows up to rows of equal key.  Two
    ascending arrangements of the same rows agree on the key of their
    first row, and are the same when no two rows share a key. *)

Section Arrangements.
Variable A : Type.
Variable key : A -> Z.

Lemma filter_perm (p : A -> bool) (l l' : list A) :
  Permutation l l' -> Permutation (filter p l) (filter p l').
Proof.
  induction 1 as [|x l l' _ IH|x y l|l l' l'' _ IH1 _ IH2]; simpl.
  - constructor.
  - destruct (p x); [now constructor|exact IH].
  - destruct (p x), (p y); try reflexivity. apply perm_swap.
  - now transitivity (filter p l').
Qed.

Lemma filter_sorted (p : A -> bool) (l : list A) :
  StronglySorted (fun a b => key a <= key b) l ->
  StronglySorted (fun a b => key a <= key b) (filter p l).
Proof.
  induction 1 as [|a l _ IH Ha]; simpl; [constructor|].
  destruct (p a); [|exact IH]. constructor; [exact IH|].
  apply Forall_forall. intros z Hz. apply filter_In in Hz.
  rewrite Forall_forall in Ha. now apply Ha.
Qed.

Lemma sorted_head_least (a : A) (l : list A) (z : A) :
  StronglySorted (fun a b => key a <= key b) (a :: l) ->
  In z (a :: l) -> key a <= key z.
Proof.
  intros Hs Hz. inversion Hs as [|? ? _ Ha]; subst.
  destruct Hz as [<-|Hz]; [lia|]. rewrite Forall_forall in Ha. now apply Ha.
Qed.

Lemma arrangements_head (l1 l2 : list A) :
  Permutation l1 l2 ->
  StronglySorted (fun a b => key a <= key b) l1 ->
  StronglySorted (fun a b => key a <= key b) l2 ->
  option_map key (hd_error l1) = option_map key (hd_error l2).
Proof.
  intros Hp S1 S2. destruct l1 as [|a l1], l2 as [|b l2].
  - reflexivity.
  - now apply Permutation_nil_cons in Hp.
  - apply Permutation_sym in Hp. now apply Permutation_nil_cons in Hp.
  - simpl. f_equal.
    assert (key a <= key b)
      by (apply (sorted_head_least S1), (Permutation_in _ (Permutation_sym Hp));
          now left).
    assert (key b <= key a)
      by (apply (sorted_head_least S2), (Permutation_in _ Hp); now left).
    lia.
Qed.

Lemma arrangements_find (p : A -> bool) (l1 l2 : list A) :
  Permutation l1 l2 ->
  StronglySorted (fun a b => key a <= key b) l1 ->
  StronglySorted (fun a b => key a <= key b) l2 ->
  option_map key (find p l1) = option_map key (find p l2).
Proof.
  intros Hp S1 S2. rewrite <- !fetchone_filter_find. unfold fetchone.
  apply arrangements_head;
    [now apply filter_perm|now apply filter_sorted|now apply filter_sorted].
Qed.

Lemma arrangements_equal (l1 l2 : list A) :
  Permutation l1 l2 ->
  StronglySorted (fun a b => key a <= key b) l1 ->
  StronglySorted (fun a b => key a <= key b) l2 ->
  NoDup (map key l1) -> l1 = l2.
Proof.
  revert l2. induction l1 as [|a l1 IH]; intros l2 Hp S1 S2 Hn.
  - symmetry. now apply Permutation_nil.
  - destruct l2 as [|b l2];
      [apply Permutation_sym in Hp; now apply Permutation_nil_cons in Hp|].
    assert (Hb : In b (a :: l1))
      by (apply (Permutation_in _ (Permutation_sym Hp)); now left).
    assert (Hab : key a <= key b) by exact (sorted_head_least S1 Hb).
    assert (Hba : key b <= key a)
      by (apply (sorted_head_least S2), (Permutation_in _ Hp); now left).
    simpl in Hn. inversion Hn as [|? ? Hfresh Hn']; subst.
    assert (a = b) as <-.
    { destruct Hb as [E|Hb]; [exact E|]. exfalso. apply Hfresh.
      replace (key a) with (key b) by lia. now apply in_map. }
    f_equal. apply IH.
    + now apply Permutation_cons_inv in Hp.
    + now inversion S1.
    + now inversion S2.
    + exact Hn'.
Qed.

End Arrangements.

(** ** The catalogue as a listing *)

(** In the model [get_next_question] takes the first later row of the
    sorted active questions. *)
Lemma get_next_question_find (db : Db) (o : Z) :
  value_of (get_next_question o db)
  = find (fun q => o <? q_order q) (order_by q_order (active_questions db)).
Proof.
  unfold value_of, get_next_question, returns, active_questions. simpl.
  rewrite <- fetchone_filter_find, <- order_by_filter. f_equal. f_equal.
  induction (bot_admin_question db) as [|q l IH]; simpl; [reflexivity|].
  destruct (q_is_active q); simpl; [|exact IH].
  destruct (o <? q_order q); now rewrite IH.
Qed.

(** X18: [get_questions] lists exactly the active questions, in ascending
    order.  Take any ascending arrangement of the active questions, with
    rows of equal order in whatever sequence: [get_first_question] has
    the order of its head, and [get_next_question(order)] the order of
    its first question whose order is greater.  When no two active
    questions share an order there is one such arrangement only:
    [get_questions] returns it, [get_first_question] is its head and
    [get_next_question(order)] its first question of greater order. *)
Theorem catalogue_queries_agree (db : Db) (listing : list Question) :
  Permutation listing (active_questions db) ->
  StronglySorted (fun a b => q_order a <= q_order b) listing ->
  (exists rows,
     get_questions db = (inr rows, db) /\
     Permutation rows (active_questions db) /\
     StronglySorted (fun a b => q_order a <= q_order b) rows) /\
  option_map q_order (value_of (get_first_question db))
  = option_map q_order (hd_error listing) /\
  (forall o,
     option_map q_order (value_of (get_next_question o db))
     = option_map q_order (find (fun q => o <? q_order q) listing)) /\
  (NoDup (map q_order (active_questions db)) ->
   get_questions db = (inr listing, db) /\
   value_of (get_first_question db) = hd_error listing /\
   forall o,
     value_of (get_next_question o db)
     = find (fun q => o <? q_order q) listing).
Proof.
  intros Hp Hs.
  assert (Hrows : Permutation (order_by q_order (active_questions db)) listing).
  { transitivity (active_questions db);
      [apply order_by_perm|now apply Permutation_sym]. }
  pose proof (order_by_sorted q_order (active_questions db)) as Hsorted.
  split; [|split; [|split]].
  - exists (order_by q_order (active_questions db)).
    split; [reflexivity|]. split; [apply order_by_perm|exact Hsorted].
  - exact (@arrangements_head Question q_order _ _ Hrows Hsorted Hs).
  - intros o. rewrite get_next_question_find.
    exact (@arrangements_find Question q_order (fun q => o <? q_order q) _ _
             Hrows Hsorted Hs).
  - intros Hn.
    assert (E : order_by q_order (active_questions db) = listing).
    { apply (@arrangements_equal Question q_order _ _ Hrows Hsorted Hs).
      apply (Permutation_NoDup
               (Permutation_map q_order
                  (Permutation_sym (order_by_perm q_order (active_questions db))))).
      exact Hn. }
    split; [|split].
    + unfold get_questions, returns. fold (active_questions db). now rewrite E.
    + rewrite <- E. reflexivity.
    + intros o. rewrite get_next_question_find. now rewrite E.
Qed.

Lemma catalogue_queries_agree_witness :
  get_questions catalogue_db
  = (inr [ sample_question 2 10 "text" (Some "full_name") true;
           sample_question 1 20 "photo" (Some "passport_main") true;
           sample_question 4 30 "choice" (Some "marital_status") true ],
     catalogue_db) /\
  option_map q_order (value_of (get_next_question 10 catalogue_db)) = Some 20.
Proof.
  assert (Hp : Permutation
                 [ sample_question 2 10 "text" (Some "full_name") true;
                   sample_question 1 20 "photo" (Some "passport_main") true;
                   sample_question 4 30 "choice" (Some "marital_status") true ]
                 (active_questions catalogue_db)) by apply perm_swap.
  assert (Hs : StronglySorted (fun a b => q_order a <= q_order b)
                 [ sample_question 2 10 "text" (Some "full_name") true;
                   sample_question 1 20 "photo" (Some "passport_main") true;
                   sample_question 4 30 "choice" (Some "marital_status") true ])
    by (repeat constructor; simpl; lia).
  split.
  - apply (proj2 (proj2 (proj2 (catalogue_queries_agree catalogue_db Hp Hs)))).
    vm_compute. repeat constructor; simpl; intuition discriminate.
  - exact (proj1 (proj2 (proj2 (catalogue_queries_agree catalogue_db Hp Hs))) 10).
Defined.

(** ** Listing an applicant's answers *)

(** X19: An answer saved for an applicant with a profile and a question of
    the catalogue is listed by [get_user_responses] for the applicant's
    Telegram id, with the question's text and field name; the listing is
    in ascending order of the questions, and every row of it is a stored
    response of a profile with that Telegram id. *)
Theorem saved_answer_is_listed (now tid : Z) (user : UserProfile)
    (question : Question) (text_answer photo_path : option string) (db : Db) :
  In user (bot_admin_userprofile db) -> u_telegram_id user = tid ->
  In question (bot_admin_question db) ->
  (exists row,
     In row (value_of_list
               (get_user_responses tid
                  (saved now (u_id user) (q_id question) text_answer photo_path
                     db))) /\
     r_text_answer (rr_response row) = text_answer /\
     r_photo (rr_response row) = photo_path /\
     rr_question_text row = q_text question /\
     rr_field_name row = q_field_name question) /\
  StronglySorted (fun a b => rr_question_order a <= rr_question_order b)
    (value_of_list
       (get_user_responses tid
          (saved now (u_id user) (q_id question) text_answer photo_path db))) /\
  forall row,
    In row (value_of_list
              (get_user_responses tid
                 (saved now (u_id user) (q_id question) text_answer photo_path
                    db))) ->
    In (rr_response row)
       (bot_admin_userresponse
          (saved now (u_id user) (q_id question) text_answer photo_path db)) /\
    exists u, In u (bot_admin_userprofile db) /\ u_telegram_id u = tid /\
              r_user_id (rr_response row) = u_id u.
Proof.
  intros Hu Htid Hq.
  destruct (save_response_frame now (u_id user) (q_id question) text_answer
              photo_path db) as (_ & Eq & Eu & _).
  set (db' := saved now (u_id user) (q_id question) text_answer photo_path db)
    in *.
  unfold value_of_list, get_user_responses, returns. simpl fst.
  rewrite Eq, Eu.
  assert (Hjoin : forall row,
            In row
              (flat_map
                 (fun r =>
                    flat_map
                      (fun u =>
                         if (r_user_id r =? u_id u) && (u_telegram_id u =? tid)
                         then
                           flat_map
                             (fun q =>
                                if r_question_id r =? q_id q
                                then [mkResponseRow r (q_order q) (q_text q)
                                        (q_field_name q)]
                                else [])
                             (bot_admin_question db)
                         else [])
                      (bot_admin_userprofile db))
                 (bot_admin_userresponse db')) <->
            exists r u q,
              In r (bot_admin_userresponse db') /\
              In u (bot_admin_userprofile db) /\ In q (bot_admin_question db) /\
              r_user_id r = u_id u /\ u_telegram_id u = tid /\
              r_question_id r = q_id q /\
              row = mkResponseRow r (q_order q) (q_text q) (q_field_name q)).
  { intros row. rewrite in_flat_map. split.
    - intros (r & Hr & Hin). apply in_flat_map in Hin.
      destruct Hin as (u & Hu' & Hin).
      destruct ((r_user_id r =? u_id u) && (u_telegram_id u =? tid)) eqn:C;
        [|destruct Hin].
      apply andb_true_iff in C. destruct C as [C1 C2].
      apply Z.eqb_eq in C1, C2. apply in_flat_map in Hin.
      destruct Hin as (q & Hq' & Hin).
      destruct (r_question_id r =? q_id q) eqn:C3; [|destruct Hin].
      apply Z.eqb_eq in C3. destruct Hin as [<-|[]].
      exists r, u, q. repeat split; assumption.
    - intros (r & u & q & Hr & Hu' & Hq' & C1 & C2 & C3 & ->).
      exists r. split; [exact Hr|]. apply in_flat_map. exists u.
      split; [exact Hu'|]. rewrite C1, C2, !Z.eqb_refl. simpl.
      apply in_flat_map. exists q. split; [exact Hq'|].
      rewrite C3, Z.eqb_refl. now left. }
  split; [|split].
  - destruct (save_response_rows now (u_id user) (q_id question) text_answer
                photo_path db) as (Hne & _ & Hrows).
    unfold responses_of in Hne, Hrows.
    change (snd (save_response now (u_id user) (q_id question) text_answer
                   photo_path db)) with db' in Hne, Hrows.
    assert (Hex : exists r,
               In r (filter (response_of (u_id user) (q_id question))
                       (bot_admin_userresponse db'))).
    { revert Hne. destruct (filter _ _) as [|r rest]; intros Hne;
        [now destruct Hne|exists r; now left]. }
    destruct Hex as (r & Hr). destruct (Hrows r Hr) as (Ht & Hp & _).
    apply filter_In in Hr. destruct Hr as [Hr C]. unfold response_of in C.
    apply andb_true_iff in C. destruct C as [C1 C2]. apply Z.eqb_eq in C1, C2.
    exists (mkResponseRow r (q_order question) (q_text question)
              (q_field_name question)).
    split; [|now repeat split].
    apply order_by_In, Hjoin. exists r, user, question. repeat split; trivial.
  - apply order_by_sorted.
  - intros row Hrow. apply order_by_In, Hjoin in Hrow.
    destruct Hrow as (r & u & q & Hr & Hu' & _ & C1 & C2 & _ & ->).
    simpl. split; [exact Hr|]. exists u. now repeat split.
Qed.

Lemma saved_answer_is_listed_witness :
  exists row,
    In row (value_of_list
              (get_user_responses 1001
                 (saved 70 1 3 (Some "Не женат") None
                    (scenario_db scenario_questions (Some 3))))) /\
    r_text_answer (rr_response row) = Some "Не женат" /\
    r_photo (rr_response row) = None /\
    rr_question_text row = "Семейное положение" /\
    rr_field_name row = Some "marital_status".
Proof.
  apply (@saved_answer_is_listed 70 1001 (applicant (Some 3) false)
           last_question (Some "Не женат") None
           (scenario_db scenario_questions (Some 3))).
  - now left.
  - reflexivity.
  - right; right; now left.
Defined.

(** ** The completion percentage *)

Lemma filter_all_length (A : Type) (p : A -> bool) (l : list A) :
  List.length (filter p l) = List.length l <-> Forall (fun x => p x = true) l.
Proof.
  induction l as [|x l IH]; simpl; [split; [constructor|reflexivity]|].
  pose proof (filter_length_le p l) as Hle.
  destruct (p x) eqn:P; simpl; split.
  - intros [= H]. constructor; [exact P|now apply IH].
  - intros H. inversion H; subst. f_equal. now apply IH.
  - intros H. lia.
  - intros H. inversion H; subst. congruence.
Qed.

(** X20: [get_completion_percentage] never fails; its floating point
    quotient, truncated, is the whole part of [100 * filled / 11], where
    [filled] counts the non-empty ones of the eleven fields; it lies
    between 0 and 100 and is 100 exactly when all eleven are filled. *)
Theorem completion_percentage_is_whole_part (a : StaffApplication) :
  exists pct,
    get_completion_percentage a = Some pct /\
    pct = 100 * Z.of_nat (List.length (filter PyStr.truthy (completion_fields a)))
          / 11 /\
    0 <= pct <= 100 /\
    (pct = 100 <->
     Forall (fun f => PyStr.truthy f = true) (completion_fields a)).
Proof.
  unfold get_completion_percentage.
  pose proof (filter_length_le PyStr.truthy (completion_fields a)) as Hle.
  pose proof (filter_all_length PyStr.truthy (completion_fields a)) as Hall.
  change (List.length (completion_fields a)) with 11%nat in *.
  destruct (List.length (filter PyStr.truthy (completion_fields a)))
    as [|[|[|[|[|[|[|[|[|[|[|[|k]]]]]]]]]]]]; try lia;
    (eexists; split; [vm_compute; reflexivity|]);
    (split; [reflexivity|]); (split; [vm_compute; split; discriminate|]);
    rewrite <- Hall; split; intros H; try discriminate H; try reflexivity.
Qed.

(** X21: The admin list shows the percentage in green exactly when all eleven
    fields are filled, in red exactly when at most five are, and in
    orange otherwise. *)
Theorem completion_colour_by_filled_fields (a : StaffApplication) :
  exists pct,
    get_completion_percentage a = Some pct /\
    (completion_color pct = "green" <->
     List.length (filter PyStr.truthy (completion_fields a)) = 11%nat) /\
    (completion_color pct = "red" <->
     (List.length (filter PyStr.truthy (completion_fields a)) <= 5)%nat) /\
    (completion_color pct = "orange" <->
     (6 <= List.length (filter PyStr.truthy (completion_fields a)) <= 10)%nat).
Proof.
  unfold get_completion_percentage.
  pose proof (filter_length_le PyStr.truthy (completion_fields a)) as Hle.
  change (List.length (completion_fields a)) with 11%nat in *.
  destruct (List.length (filter PyStr.truthy (completion_fields a)))
    as [|[|[|[|[|[|[|[|[|[|[|[|k]]]]]]]]]]]]; try lia;
    (eexists; split; [vm_compute; reflexivity|]);
    repeat split; intros; cbn in *; try congruence; lia.
Qed.

(** ** The choices of a question *)

(** X22: The labels of the keyboard the bot sends for a choice question are
    the list [Question.get_choices_list] gives; a question without
    choices has an empty list and is sent without a keyboard. *)
Theorem keyboard_labels_are_choices_list (q : Question) (w : World) :
  (PyStr.truthy (q_choices q) = true ->
   map text (List.concat (get_choices_keyboard (PyStr.fmt (q_choices q))))
   = get_choices_list q) /\
  (PyStr.truthy (q_choices q) = false ->
   get_choices_list q = [] /\
   exists o,
     w_out (snd (send_question q w)) = (w_out w ++ [o])%list /\
     match o with
     | Answer _ markup | AnswerPhoto _ _ markup => markup = None
     | _ => False
     end).
Proof.
  unfold get_choices_list. split; intros H; rewrite H.
  - unfold get_choices_keyboard.
    induction (map PyStr.strip (PyStr.split "," (PyStr.fmt (q_choices q))))
      as [|c l IH]; [reflexivity|].
    cbn [map List.concat app text]. now f_equal.
  - split; [reflexivity|]. destruct w as [db st d out files faults].
    unfold send_question, bind, path_exists, send. rewrite H, andb_false_r.
    reduce_pairs.
    destruct (PyStr.truthy (q_image q)); reduce_pairs;
      [destruct (existsb _ files)|];
      try destruct (String.eqb (q_question_type q) "info");
      reduce_pairs; eexists; split; reflexivity.
Qed.

(** ** Stripping whitespace *)

Lemma string_length_app (a b : string) :
  String.length (a ++ b) = (String.length a + String.length b)%nat.
Proof. induction a as [|c a IH]; simpl; [reflexivity|now rewrite IH]. Qed.

Lemma string_app_nil_r (a : string) : a ++ "" = a.
Proof. induction a as [|c a IH]; simpl; [reflexivity|now rewrite IH]. Qed.

Lemma drop_zero (s : string) : PyStr.drop O s = s.
Proof.
  unfold PyStr.drop. rewrite Nat.sub_0_r.
  induction s as [|c s IH]; simpl; [reflexivity|now rewrite IH].
Qed.

Lemma drop_succ (n : nat) (c : ascii) (s : string) :
  PyStr.drop (S n) (String c s) = PyStr.drop n s.
Proof. reflexivity. Qed.

Lemma prefix_drop (w s : string) :
  String.prefix w s = true -> s = w ++ PyStr.drop (String.length w) s.
Proof.
  revert s. induction w as [|a w IH]; intros s H.
  - simpl. now rewrite drop_zero.
  - destruct s as [|b s]; [discriminate|]. simpl in H.
    destruct (ascii_dec a b) as [->|]; [|discriminate].
    simpl String.length. rewrite drop_succ. simpl. f_equal. now apply IH.
Qed.

Lemma prefix_app (w u z : string) :
  String.prefix w u = true -> String.prefix w (u ++ z) = true.
Proof.
  revert u. induction w as [|a w IH]; intros u H; [now destruct (u ++ z)|].
  destruct u as [|b u]; [discriminate|]. simpl in *.
  destruct (ascii_dec a b); [now apply IH|discriminate].
Qed.

Lemma list_ascii_of_string_app (a b : string) :
  list_ascii_of_string (a ++ b)
  = (list_ascii_of_string a ++ list_ascii_of_string b)%list.
Proof. induction a as [|c a IH]; simpl; [reflexivity|now rewrite IH]. Qed.

Lemma string_of_list_ascii_app (l1 l2 : list ascii) :
  string_of_list_ascii (l1 ++ l2)
  = string_of_list_ascii l1 ++ string_of_list_ascii l2.
Proof. induction l1 as [|c l1 IH]; simpl; [reflexivity|now rewrite IH]. Qed.

Lemma rev_app (a b : string) : PyStr.rev (a ++ b) = PyStr.rev b ++ PyStr.rev a.
Proof.
  unfold PyStr.rev.
  now rewrite list_ascii_of_string_app, rev_app_distr, string_of_list_ascii_app.
Qed.

Lemma rev_rev (s : string) : PyStr.rev (PyStr.rev s) = s.
Proof.
  unfold PyStr.rev.
  now rewrite list_ascii_of_string_of_list_ascii, rev_involutive,
    string_of_list_ascii_of_string.
Qed.

Lemma rev_length (s : string) : String.length (PyStr.rev s) = String.length s.
Proof.
  induction s as [|c s IH]; [reflexivity|].
  change (String c s) with (String c "" ++ s).
  rewrite rev_app, !string_length_app, IH. simpl. lia.
Qed.

(** With fuel for every character, [strip_left] takes a front part off
    and what is left starts with none of the sequences. *)
Lemma strip_left_spec (ws : list string) (fuel : nat) (s : string) :
  Forall (fun w => w <> "") ws ->
  (String.length s <= fuel)%nat ->
  (exists front, s = front ++ PyStr.strip_left fuel ws s) /\
  forall w, In w ws -> String.prefix w (PyStr.strip_left fuel ws s) = false.
Proof.
  intros Hws. rewrite Forall_forall in Hws.
  revert s. induction fuel as [|fuel IH]; intros s Hlen; simpl.
  - destruct s; [|simpl in Hlen; lia]. split; [now exists ""|].
    intros w Hw. specialize (Hws w Hw). now destruct w.
  - destruct (find (fun w => String.prefix w s) ws) as [w|] eqn:F.
    + apply find_some in F. destruct F as [Hw Hp].
      pose proof (prefix_drop _ _ Hp) as Hs.
      assert (Hshort : (String.length (PyStr.drop (String.length w) s)
                        <= fuel)%nat).
      { apply (f_equal String.length) in Hs. rewrite string_length_app in Hs.
        specialize (Hws w Hw). destruct w; [now destruct Hws|].
        simpl in *. lia. }
      destruct (IH _ Hshort) as [[front Hfront] Hnone]. split; [|exact Hnone].
      exists (w ++ front). rewrite string_app_assoc, <- Hfront. exact Hs.
    + split; [now exists ""|]. intros w Hw.
      apply (find_none _ _ F w Hw).
Qed.

(** [strip] cuts a front and a back part off the string, and what is
    left neither starts nor ends with a whitespace character. *)
Lemma strip_trims_both_ends (s : string) :
  (exists front back, s = front ++ PyStr.strip s ++ back) /\
  forall w, In w PyStr.whitespace ->
    String.prefix w (PyStr.strip s) = false /\
    String.prefix (PyStr.rev w) (PyStr.rev (PyStr.strip s)) = false.
Proof.
  assert (Hws : Forall (fun w => w <> "") PyStr.whitespace)
    by (repeat constructor; discriminate).
  assert (Hrws : Forall (fun w => w <> "") (map PyStr.rev PyStr.whitespace))
    by (repeat constructor; discriminate).
  unfold PyStr.strip, PyStr.rstrip.
  destruct (@strip_left_spec PyStr.whitespace (String.length s) s Hws (le_n _))
    as [[front Hfront] Hnone]. fold (PyStr.lstrip s) in Hfront, Hnone.
  set (t := PyStr.lstrip s) in *.
  destruct (@strip_left_spec (map PyStr.rev PyStr.whitespace) (String.length t)
              (PyStr.rev t) Hrws) as [[back Hback] Hrnone];
    [rewrite rev_length; apply le_n|].
  set (r := PyStr.strip_left (String.length t)
              (map PyStr.rev PyStr.whitespace) (PyStr.rev t)) in *.
  assert (Ht : t = PyStr.rev r ++ PyStr.rev back).
  { rewrite <- rev_app, <- Hback. symmetry. apply rev_rev. }
  split.
  - exists front, (PyStr.rev back). now rewrite <- Ht.
  - intros w Hw. split.
    + destruct (String.prefix w (PyStr.rev r)) eqn:P; [|reflexivity].
      apply prefix_app with (z := PyStr.rev back) in P.
      rewrite <- Ht, (Hnone w Hw) in P. discriminate.
    + rewrite rev_rev. apply Hrnone. now apply in_map.
Qed.

(** ** Parsing the database URL *)

Example parse_database_url_ex :
  parse_database_url decimal_int "postgres://bot:s3cr@t@db.local:6432/staff"
  = Some (mkConnectionParams "db.local" 6432 "staff" "bot" "s3cr@t") /\
  parse_database_url decimal_int "postgresql://bot:secret@db/staff"
  = Some (mkConnectionParams "db" 5432 "staff" "bot" "secret") /\
  parse_database_url decimal_int "postgres://bot:se:cret@db/staff" = None /\
  parse_database_url decimal_int "postgres://bot:secret@db:port/staff" = None.
Proof. repeat split. Qed.

Lemma count_char_app (c : ascii) (a b : string) :
  count_char c (a ++ b) = (count_char c a + count_char c b)%nat.
Proof. induction a as [|x a IH]; simpl; [reflexivity|rewrite IH; lia]. Qed.

Lemma rsplit_once_none (sep : ascii) (s : string) :
  count_char sep s = O -> rsplit_once sep s = None.
Proof.
  induction s as [|c s IH]; simpl; [reflexivity|]. intros H.
  destruct (Ascii.eqb c sep); [discriminate|]. now rewrite IH.
Qed.

Lemma rsplit_once_last (sep : ascii) (a b : string) :
  count_char sep b = O ->
  rsplit_once sep (a ++ String sep b) = Some (a, b).
Proof.
  intros H. induction a as [|c a IH]; simpl.
  - now rewrite rsplit_once_none, Ascii.eqb_refl.
  - now rewrite IH.
Qed.

Lemma split_single (sep : ascii) (s : string) :
  count_char sep s = O -> PyStr.split sep s = [s].
Proof.
  induction s as [|c s IH]; simpl; [reflexivity|]. intros H.
  destruct (Ascii.eqb c sep); [discriminate|]. now rewrite IH.
Qed.

Lemma split_first (sep : ascii) (a b : string) :
  count_char sep a = O ->
  PyStr.split sep (a ++ String sep b) = a :: PyStr.split sep b.
Proof.
  induction a as [|c a IH]; simpl; intros H.
  - now rewrite Ascii.eqb_refl.
  - destruct (Ascii.eqb c sep); [discriminate|]. now rewrite IH.
Qed.

Lemma occurs_char (c : ascii) (s : string) :
  occurs (String c "") s = negb (Nat.eqb (count_char c s) O).
Proof.
  induction s as [|x s IH]; [reflexivity|].
  cbn [occurs count_char String.prefix]. rewrite IH.
  destruct (ascii_dec c x) as [->|Hne].
  - rewrite Ascii.eqb_refl. now destruct s.
  - assert (E : Ascii.eqb x c = false)
      by (apply Ascii.eqb_neq; congruence).
    now rewrite E.
Qed.

(** A string that contains [old] has at least as many of each character
    as [old] has. *)
Lemma occurs_count (old s : string) (c : ascii) :
  occurs old s = true -> (count_char c old <= count_char c s)%nat.
Proof.
  induction s as [|x s IH]; cbn [occurs]; intros H.
  - apply prefix_drop in H. apply (f_equal (count_char c)) in H.
    rewrite count_char_app in H. lia.
  - apply orb_true_iff in H. destruct H as [H|H].
    + apply prefix_drop in H. apply (f_equal (count_char c)) in H.
      rewrite count_char_app in H. lia.
    + specialize (IH H). simpl. lia.
Qed.

(** The scheme is cut off, and a rest with a single slash is left as it
    is. *)
Lemma scheme_is_removed (scheme rest : string) :
  scheme = "postgres://" \/ scheme = "postgresql://" ->
  count_char "/" rest = 1%nat ->
  PyStr.replace "postgresql://" "" (PyStr.replace "postgres://" "" (scheme ++ rest))
  = rest.
Proof.
  intros Hs Hc.
  assert (H1 : occurs "postgres://" rest = false).
  { destruct (occurs "postgres://" rest) eqn:O; [|reflexivity].
    apply occurs_count with (c := "/"%char) in O. simpl in O. lia. }
  assert (H2 : occurs "postgresql://" rest = false).
  { destruct (occurs "postgresql://" rest) eqn:O; [|reflexivity].
    apply occurs_count with (c := "/"%char) in O. simpl in O. lia. }
  destruct Hs as [-> | ->].
  - transitivity (PyStr.replace "postgresql://" ""
                    (PyStr.replace "postgres://" "" rest)).
    + f_equal. destruct rest; reflexivity.
    + rewrite (@replace_no_occurrence "postgres://" "" rest H1).
      exact (@replace_no_occurrence "postgresql://" "" rest H2).
  - rewrite (@replace_no_occurrence "postgres://" "" ("postgresql://" ++ rest)).
    + transitivity (PyStr.replace "postgresql://" "" rest);
        [destruct rest; reflexivity|now apply replace_no_occurrence].
    + transitivity (occurs "postgres://" rest); [|exact H1].
      destruct rest; reflexivity.
Qed.

(** X23: A URL put together from its parts is parsed back into them: under
    either scheme; with a port, which [int] reads, or without one, and
    then the port is 5432.  User and password hold no colon (a password
    may hold an [@]), the host neither colon nor [@], the database no
    slash, and only the slash before the database is in the URL. *)
Theorem parse_database_url_round_trip (int : string -> option Z)
    (scheme user password host port database : string) (n : Z) :
  scheme = "postgres://" \/ scheme = "postgresql://" ->
  count_char ":" user = O -> count_char ":" password = O ->
  count_char ":" host = O -> count_char ":" port = O ->
  count_char "@" host = O -> count_char "@" port = O ->
  count_char "/" user = O -> count_char "/" password = O ->
  count_char "/" host = O -> count_char "/" port = O ->
  count_char "/" database = O ->
  (int port = Some n ->
   parse_database_url int
     (scheme ++ user ++ ":" ++ password ++ "@" ++ host ++ ":" ++ port
      ++ "/" ++ database)
   = Some (mkConnectionParams host n database user password)) /\
  (int "5432" = Some 5432 ->
   parse_database_url int
     (scheme ++ user ++ ":" ++ password ++ "@" ++ host ++ "/" ++ database)
   = Some (mkConnectionParams host 5432 database user password)).
Proof.
  intros Hs Cu Cp Ch Cn Ah An Su Sp Sh Sn Sd.
  split; intros Hint; unfold parse_database_url.
  - rewrite scheme_is_removed; [|exact Hs|].
    2: { repeat (repeat rewrite count_char_app; simpl). lia. }
    change (user ++ ":" ++ password ++ "@" ++ host ++ ":" ++ port ++ "/"
            ++ database)
      with (user ++ String ":" (password ++ String "@"
              (host ++ String ":" (port ++ String "/" database)))).
    replace (user ++ String ":" (password ++ String "@"
               (host ++ String ":" (port ++ String "/" database))))
      with ((user ++ String ":" (password ++ String "@"
               (host ++ String ":" port))) ++ String "/" database).
    2: { repeat (repeat rewrite string_app_assoc; simpl). reflexivity. }
    rewrite rsplit_once_last by exact Sd.
    replace (user ++ String ":" (password ++ String "@" (host ++ String ":" port)))
      with ((user ++ String ":" password) ++ String "@" (host ++ String ":" port))
      by (repeat (repeat rewrite string_app_assoc; simpl); reflexivity).
    rewrite rsplit_once_last by (rewrite count_char_app; simpl; lia).
    rewrite split_first, split_single by assumption.
    rewrite occurs_char, count_char_app. simpl count_char.
    replace (count_char ":" host + S (count_char ":" port))%nat
      with (S (count_char ":" host + count_char ":" port)) by lia.
    cbn [Nat.eqb negb].
    rewrite split_first, split_single by assumption. now rewrite Hint.
  - rewrite scheme_is_removed; [|exact Hs|].
    2: { repeat (repeat rewrite count_char_app; simpl). lia. }
    change (user ++ ":" ++ password ++ "@" ++ host ++ "/" ++ database)
      with (user ++ String ":" (password ++ String "@"
              (host ++ String "/" database))).
    replace (user ++ String ":" (password ++ String "@"
               (host ++ String "/" database)))
      with ((user ++ String ":" (password ++ String "@" host))
            ++ String "/" database).
    2: { repeat (repeat rewrite string_app_assoc; simpl). reflexivity. }
    rewrite rsplit_once_last by exact Sd.
    replace (user ++ String ":" (password ++ String "@" host))
      with ((user ++ String ":" password) ++ String "@" host)
      by (repeat (repeat rewrite string_app_assoc; simpl); reflexivity).
    rewrite rsplit_once_last by exact Ah.
    rewrite split_first, split_single by assumption.
    rewrite occurs_char, Ch. cbn [Nat.eqb negb]. now rewrite Hint.
Qed.

Lemma parse_database_url_round_trip_witness :
  parse_database_url decimal_int "postgres://bot:s3cr@t@db.local:6432/staff"
  = Some (mkConnectionParams "db.local" 6432 "staff" "bot" "s3cr@t").
Proof.
  apply (@parse_database_url_round_trip decimal_int "postgres://" "bot" "s3cr@t"
           "db.local" "6432" "staff" 6432);
    try reflexivity.
  now left.
Defined.

(** A rest with at most one slash holds neither scheme, so cutting the
    scheme off the front leaves the rest; a URL may also come without a
    scheme. *)
Lemma scheme_is_cut (scheme rest : string) :
  scheme = "" \/ scheme = "postgres://" \/ scheme = "postgresql://" ->
  (count_char "/" rest <= 1)%nat ->
  PyStr.replace "postgresql://" "" (PyStr.replace "postgres://" "" (scheme ++ rest))
  = rest.
Proof.
  intros Hs Hc.
  assert (H1 : occurs "postgres://" rest = false).
  { destruct (occurs "postgres://" rest) eqn:O; [|reflexivity].
    apply occurs_count with (c := "/"%char) in O. simpl in O. lia. }
  assert (H2 : occurs "postgresql://" rest = false).
  { destruct (occurs "postgresql://" rest) eqn:O; [|reflexivity].
    apply occurs_count with (c := "/"%char) in O. simpl in O. lia. }
  destruct Hs as [-> | [-> | ->]].
  - change ("" ++ rest) with rest.
    rewrite (@replace_no_occurrence "postgres://" "" rest H1).
    exact (@replace_no_occurrence "postgresql://" "" rest H2).
  - transitivity (PyStr.replace "postgresql://" ""
                    (PyStr.replace "postgres://" "" rest)).
    + f_equal. destruct rest; reflexivity.
    + rewrite (@replace_no_occurrence "postgres://" "" rest H1).
      exact (@replace_no_occurrence "postgresql://" "" rest H2).
  - rewrite (@replace_no_occurrence "postgres://" "" ("postgresql://" ++ rest)).
    + transitivity (PyStr.replace "postgresql://" "" rest);
        [destruct rest; reflexivity|now apply replace_no_occurrence].
    + transitivity (occurs "postgres://" rest); [|exact H1].
      destruct rest; reflexivity.
Qed.

(** X24: What the connection setup rejects, whatever [int] reads.
    [init_db] rejects a missing or empty [DATABASE_URL].
    [parse_database_url] rejects, under either scheme and without one: a
    URL with no slash behind the scheme; a URL with no [@] before the
    slash of the database; and a user-and-password part that does not
    hold exactly one colon, so a password with a colon in it. *)
Theorem parse_database_url_rejects (int : string -> option Z)
    (scheme : string) :
  scheme = "" \/ scheme = "postgres://" \/ scheme = "postgresql://" ->
  (forall env, PyStr.truthy env = false -> init_db int env = None) /\
  (forall rest,
     count_char "/" rest = O ->
     parse_database_url int (scheme ++ rest) = None) /\
  (forall host_port database,
     count_char "/" host_port = O -> count_char "/" database = O ->
     count_char "@" host_port = O ->
     parse_database_url int (scheme ++ host_port ++ "/" ++ database) = None) /\
  (forall auth host_port database,
     count_char "/" auth = O -> count_char "/" host_port = O ->
     count_char "/" database = O -> count_char "@" host_port = O ->
     count_char ":" auth <> 1%nat ->
     parse_database_url int
       (scheme ++ auth ++ "@" ++ host_port ++ "/" ++ database) = None).
Proof.
  intros Hs.
  split; [intros env He; unfold init_db; now rewrite He|]. split; [|split].
  - intros rest Hc. unfold parse_database_url.
    rewrite (scheme_is_cut rest Hs) by lia.
    now rewrite rsplit_once_none.
  - intros host_port database Sh Sd Ah. unfold parse_database_url.
    rewrite (scheme_is_cut (host_port ++ "/" ++ database) Hs)
      by (repeat (repeat rewrite count_char_app; simpl); lia).
    change (host_port ++ "/" ++ database)
      with (host_port ++ String "/" database).
    rewrite rsplit_once_last by exact Sd.
    now rewrite rsplit_once_none.
  - intros auth host_port database Sa Sh Sd Ah Hcolons.
    unfold parse_database_url.
    rewrite (scheme_is_cut (auth ++ "@" ++ host_port ++ "/" ++ database) Hs)
      by (repeat (repeat rewrite count_char_app; simpl); lia).
    change (auth ++ "@" ++ host_port ++ "/" ++ database)
      with (auth ++ String "@" (host_port ++ String "/" database)).
    replace (auth ++ String "@" (host_port ++ String "/" database))
      with ((auth ++ String "@" host_port) ++ String "/" database)
      by (repeat (repeat rewrite string_app_assoc; simpl); reflexivity).
    rewrite rsplit_once_last by exact Sd.
    rewrite rsplit_once_last by exact Ah.
    pose proof (split_length ":" auth) as Hlen.
    destruct (PyStr.split ":" auth) as [|a [|b [|c l]]]; try reflexivity.
    simpl in Hlen. lia.
Qed.

Lemma parse_database_url_rejects_witness :
  parse_database_url decimal_int "postgres://bot:se:cret@db:5432/staff" = None /\
  parse_database_url decimal_int "postgres://db:5432/staff" = None /\
  parse_database_url decimal_int "postgres://bot:secret@db:5432" = None /\
  init_db decimal_int (Some "") = None.
Proof.
  destruct (parse_database_url_rejects decimal_int (or_intror (or_introl eq_refl)))
    as (Henv & Hrest & Hhost & Hauth).
  split; [|split; [|split]].
  - apply (Hauth "bot:se:cret" "db:5432" "staff"); try reflexivity. discriminate.
  - apply (Hhost "db:5432" "staff"); reflexivity.
  - apply (Hrest "bot:secret@db:5432"). reflexivity.
  - apply Henv. reflexivity.
Defined.

(** ** The team question from a sender without profile *)

(** X25: The team buttons pressed by someone who has no profile: the
    callback is acknowledged, then [update_user] raises [TypeError];
    nothing is written, no further message goes out and the session
    stays as it was. *)
Theorem team_member_answer_without_profile_raises (now : Z) (c : CallbackQuery)
    (w : World) :
  w_faults w = None ->
  value_of (get_user (cb_from_user_id c) (w_db w)) = None ->
  process_team_member now c w
  = (inl TypeError,
     mkWorld (w_db w) (w_state w) (w_data w) (w_out w ++ [CallbackAnswer])
       (w_files w) None).
Proof.
  destruct w as [db st d out files faults]. reduce_pairs. intros -> Hu.
  unfold process_team_member, bind, send. reduce_pairs. rewrite call_none.
  unfold value_of, get_user, returns in Hu. simpl in Hu.
  assert (Hno : forall u, In u (bot_admin_userprofile db) ->
                          (u_telegram_id u =? cb_from_user_id c) = false)
    by (intros u; apply (fetchone_filter_none _ _ u Hu)).
  unfold update_user. simpl set_clause. cbv iota.
  rewrite update_where_nothing by exact Hno.
  unfold with_userprofile. rewrite db_eta, Hu. reflexivity.
Qed.

Lemma team_member_answer_without_profile_raises_witness :
  fst (process_team_member 70
         (mkCallbackQuery 5 "team_yes" bot_message) completed_world)
  = inl TypeError /\
  w_db (snd (process_team_member 70
               (mkCallbackQuery 5 "team_yes" bot_message) completed_world))
  = w_db completed_world.
Proof.
  rewrite (team_member_answer_without_profile_raises 70
             (mkCallbackQuery 5 "team_yes" bot_message) completed_world
             eq_refl eq_refl).
  split; reflexivity.
Defined.

Lemma keyboard_labels_are_choices_list_witness :
  map text
    (List.concat (get_choices_keyboard (PyStr.fmt (q_choices last_question))))
  = get_choices_list last_question /\
  get_choices_list last_question = ["Женат"; "Не женат"].
Proof.
  split; [|reflexivity].
  apply (proj1 (keyboard_labels_are_choices_list last_question completed_world)).
  reflexivity.
Defined.

Lemma strip_trims_both_ends_witness :
  String.prefix " " (PyStr.strip "  нет ") = false /\
  String.prefix (PyStr.rev " ") (PyStr.rev (PyStr.strip "  нет ")) = false.
Proof.
  apply (proj2 (strip_trims_both_ends "  нет ") " ").
  do 9 right. left. reflexivity.
Defined.

(** ** What the admin shows *)

(** X26: The answer and the name the admin lists are never empty: a photo is
    shown as its path in brackets even when a text is stored as well, a
    response without photo and text as a dash, and a profile without
    first and last name as a dash. *)
Theorem admin_cells_are_never_empty (r : UserResponse) (u : UserProfile) :
  get_answer_display r <> "" /\
  (PyStr.truthy (r_photo r) = true ->
   get_answer_display r = "[Фото: " ++ PyStr.fmt (r_photo r) ++ "]") /\
  (PyStr.truthy (r_photo r) = false -> PyStr.truthy (r_text_answer r) = false ->
   get_answer_display r = "-") /\
  full_name u <> "" /\
  (PyStr.truthy (u_first_name u) = false ->
   PyStr.truthy (u_last_name u) = false -> full_name u = "-") /\
  (PyStr.truthy (u_first_name u) = true ->
   PyStr.truthy (u_last_name u) = true ->
   full_name u = PyStr.fmt (u_first_name u) ++ " " ++ PyStr.fmt (u_last_name u)).
Proof.
  unfold get_answer_display, full_name.
  split; [|split; [|split; [|split; [|split]]]].
  - destruct (PyStr.truthy (r_photo r)); [discriminate|].
    destruct (r_text_answer r) as [[|c t]|]; discriminate.
  - now intros ->.
  - now intros -> ->.
  - destruct (u_first_name u) as [[|c f]|], (u_last_name u) as [[|c' l]|];
      simpl; try discriminate.
  - destruct (u_first_name u) as [[|c f]|], (u_last_name u) as [[|c' l]|];
      simpl; intros; try discriminate; reflexivity.
  - destruct (u_first_name u) as [[|c f]|], (u_last_name u) as [[|c' l]|];
      simpl; intros; try discriminate; reflexivity.
Qed.

Lemma admin_cells_are_never_empty_witness :
  full_name (applicant None false) = "Иван" /\
  get_answer_display (mkUserResponse 1 1 1 (Some "x") (Some "a.jpg") 1 1)
  = "[Фото: a.jpg]".
Proof.
  split; [reflexivity|].
  apply (proj1 (proj2 (admin_cells_are_never_empty
                         (mkUserResponse 1 1 1 (Some "x") (Some "a.jpg") 1 1)
                         (applicant None false)))).
  reflexivity.
Defined.

(** ** The entries of a choices list *)

(** X27: [Question.get_choices_list] of a question with choices has one entry
    more than the choices hold commas; no entry contains a comma, and
    none starts or ends with a whitespace character.  Without choices
    the list is empty. *)
Theorem choices_list_entries_are_trimmed (q : Question) :
  (PyStr.truthy (q_choices q) = true ->
   List.length (get_choices_list q)
   = S (count_char "," (PyStr.fmt (q_choices q)))) /\
  (PyStr.truthy (q_choices q) = false -> get_choices_list q = []) /\
  Forall (fun e => count_char "," e = O /\
                   forall w, In w PyStr.whitespace ->
                     String.prefix w e = false /\
                     String.prefix (PyStr.rev w) (PyStr.rev e) = false)
         (get_choices_list q).
Proof.
  unfold get_choices_list.
  destruct (PyStr.truthy (q_choices q)).
  - split; [|split; [discriminate|]].
    + intros _. rewrite length_map.
      exact (proj1 (proj2 (split_round_trip "," (PyStr.fmt (q_choices q))))).
    + apply Forall_map.
      pose proof (proj2 (proj2 (split_round_trip "," (PyStr.fmt (q_choices q)))))
        as parts.
      revert parts. apply Forall_impl. intros part H.
      destruct (strip_trims_both_ends part) as [[front [back E]] T].
      split; [|exact T].
      assert (count_char "," (front ++ PyStr.strip part ++ back) = O) as H'
        by (rewrite <- E; exact H).
      rewrite !count_char_app in H'. lia.
  - split; [discriminate|]. split; [reflexivity|constructor].
Qed.

Lemma choices_list_entries_are_trimmed_witness :
  List.length (get_choices_list last_question) = 2%nat.
Proof.
  apply (proj1 (choices_list_entries_are_trimmed last_question)).
  reflexivity.
Defined.
